(** * stock_prediction.py: the windowed dataset builder

    A shallow embedding of [shuffle_in_unison] and [load_data] of
    stock_prediction.py, with the NumPy, pandas and scikit-learn operations
    they call, and the properties of the builder stated over it.

    Conventions of the embedding:
    - a pandas table is a list of rows; a row carries its index label and a
      total map from column names to cells, the table lists its column names;
    - a cell is a binary64 number (NaN included), a timestamp, a string or
      [None]; numbers are Rocq's primitive binary64 floats;
    - [load_data] runs in a state and error monad: the state holds the table
      that the Python name [df] is bound to (the caller's own object when a
      table is passed in) and the state of NumPy's global generator; an
      exception leaves the state as it was when it was raised;
    - the window length [n_steps] and the horizon [lookup_step] are natural
      numbers. *)

From Stdlib Require Import String List ZArith Lia Bool Arith Floats Permutation Sorted.
Import ListNotations.

Local Open Scope string_scope.
Local Open Scope list_scope.
Local Open Scope nat_scope.

Set Implicit Arguments.
Set Warnings "-inexact-float".

(** ** Python values and exceptions *)

Inductive value : Type :=
| VFloat (x : float)
| VDate (t : Z)
| VStr (s : string)
| VNone.

Inductive exn : Type :=
| TypeError (msg : string)
| AssertionError (msg : string)
| KeyError (key : value)
| ValueError (msg : string)
| IndexError (msg : string)
| OverflowError (msg : string).

Definition NaN : value := VFloat PrimFloat.nan.

(** [pd.isna] on one cell. *)
Definition isna (v : value) : bool :=
  match v with
  | VFloat x => PrimFloat.is_nan x
  | VNone => true
  | VDate _ | VStr _ => false
  end.

(** Equality of index labels, as [.loc] compares them. *)
Definition label_eqb (a b : value) : bool :=
  match a, b with
  | VFloat x, VFloat y => PrimFloat.eqb x y
  | VDate s, VDate t => Z.eqb s t
  | VStr s, VStr t => String.eqb s t
  | VNone, VNone => true
  | _, _ => false
  end.

(** ** Binary64 arithmetic used by the split *)

(** [float(n)] for a Python int [n >= 0]. *)
Definition float_of_nat (n : nat) : float :=
  SF2Prim (binary_normalize prec emax (Z.of_nat n) 0 false).

(** [int(x)]: truncation toward zero; NaN and the infinities raise. *)
Definition int_of_float (x : float) : exn + Z :=
  match Prim2SF x with
  | S754_nan => inl (ValueError "cannot convert float NaN to integer")
  | S754_infinity _ => inl (OverflowError "cannot convert float infinity to integer")
  | S754_zero _ => inr 0%Z
  | S754_finite s m e => inr (cond_Zopp s (Z.shiftl (Zpos m) e))
  end.

(** ** Python slices and indexing on lists *)

(** The position a slice bound [k] denotes in a sequence of length [n]:
    negative bounds count from the end, and both kinds are clamped. *)
Definition slice_bound (k : Z) (n : nat) : nat :=
  if (k <? 0)%Z then Z.to_nat (Z.max 0 (Z.of_nat n + k))
  else Z.to_nat (Z.min k (Z.of_nat n)).

(** [x[:k]] and [x[k:]]. *)
Definition slice_to {A} (k : Z) (x : list A) : list A :=
  firstn (slice_bound k (length x)) x.
Definition slice_from {A} (k : Z) (x : list A) : list A :=
  skipn (slice_bound k (length x)) x.

(** [x.tail(k)] of pandas, for [k >= 0]: the last [k] rows. *)
Definition tail {A} (k : nat) (x : list A) : list A :=
  skipn (length x - k) x.

(** [col.shift(-k)] of pandas, for [k >= 0]: row [i] receives the value of row
    [i + k]; the last [k] rows receive NaN. *)
Definition shift_back (k : nat) (col : list value) : list value :=
  skipn k col ++ repeat NaN (Nat.min k (length col)).

(** ** collections.deque with a maximal length *)

(** [q.append(x)] on a [deque(maxlen=n)]: the leftmost items beyond [n] are
    discarded (with [n = 0] the deque stays empty). *)
Definition deque_append {A} (maxlen : nat) (q : list A) (x : A) : list A :=
  let q' := q ++ [x] in skipn (length q' - maxlen) q'.

(** ** Results of fallible operations *)

Definition map_result {A B} (f : A -> B) (r : exn + A) : exn + B :=
  match r with
  | inl e => inl e
  | inr a => inr (f a)
  end.

(** Apply a fallible function to every item, left to right; the first
    exception wins. *)
Fixpoint map_exn {A B} (f : A -> exn + B) (l : list A) : exn + list B :=
  match l with
  | [] => inr []
  | a :: l' =>
      match f a with
      | inl e => inl e
      | inr b => map_result (cons b) (map_exn f l')
      end
  end.

(** [x[-1]] *)
Definition item_m1 {A} (x : list A) : exn + A :=
  match rev x with
  | [] => inl (IndexError "index -1 is out of bounds for axis with size 0")
  | a :: _ => inr a
  end.

(** [x[i]] for a Python int [i]: negative indices count from the end. *)
Definition py_index {A} (x : list A) (i : Z) : exn + A :=
  let n := Z.of_nat (length x) in
  let j := if (i <? 0)%Z then (n + i)%Z else i in
  if ((0 <=? j) && (j <? n))%Z
  then match nth_error x (Z.to_nat j) with
       | Some a => inr a
       | None => inl (IndexError "index out of bounds")
       end
  else inl (IndexError "index out of bounds").

(** [x[idx]] for an integer index array [idx]. *)
Definition take {A} (x : list A) (idx : list Z) : exn + list A :=
  map_exn (py_index x) idx.

(** [x[a:b]] *)
Definition slice {A} (a b : Z) (x : list A) : list A :=
  let lo := slice_bound a (length x) in
  let hi := slice_bound b (length x) in
  firstn (hi - lo) (skipn lo x).

(** [np.arange(a, b)] *)
Definition arange (a b : Z) : list Z :=
  map (fun i => (a + Z.of_nat i)%Z) (seq 0 (Z.to_nat (b - a))).

(** ** pandas tables *)

Record Row : Type := { label : value; cells : string -> value }.

Record DataFrame : Type := { columns : list string; rows : list Row }.

(** [c in df.columns] *)
Definition has_column (df : DataFrame) (c : string) : bool :=
  existsb (String.eqb c) (columns df).

Definition column_values (df : DataFrame) (c : string) : list value :=
  map (fun r => cells r c) (rows df).

(** [df[c].values] *)
Definition get_column (df : DataFrame) (c : string) : exn + list value :=
  if has_column df c then inr (column_values df c) else inl (KeyError (VStr c)).

Definition set_cell (rv : Row * value) (c : string) : Row :=
  {| label := label (fst rv);
     cells := fun c' => if String.eqb c' c then snd rv else cells (fst rv) c' |}.

(** [df[c] = vals]: an existing column is overwritten in place, a new one is
    appended; pandas refuses a value array of another length. *)
Definition set_column (df : DataFrame) (c : string) (vals : list value)
  : exn + DataFrame :=
  if length vals =? length (rows df)
  then inr {| columns := if has_column df c then columns df else columns df ++ [c];
              rows := map (fun rv => set_cell rv c) (combine (rows df) vals) |}
  else inl (ValueError "Length of values does not match length of index").

(** [df.index] *)
Definition index (df : DataFrame) : list value := map label (rows df).

(** One row of [df[cs].values]. *)
Definition row_values (cs : list string) (r : Row) : list value :=
  map (cells r) cs.

(** [df[cs].values] *)
Definition frame_values (df : DataFrame) (cs : list string) : list (list value) :=
  map (row_values cs) (rows df).

Definition complete (cs : list string) (r : Row) : bool :=
  negb (existsb (fun c => isna (cells r c)) cs).

(** [df.dropna()]: only the rows with no missing cell in any column stay. *)
Definition dropna (df : DataFrame) : DataFrame :=
  {| columns := columns df; rows := filter (complete (columns df)) (rows df) |}.

(** [df.loc[keys]] for a list of labels: for each key in turn, the rows that
    carry it; a key that labels no row is a [KeyError]. *)
Definition loc_key (df : DataFrame) (k : value) : exn + list Row :=
  match filter (fun r => label_eqb (label r) k) (rows df) with
  | [] => inl (KeyError k)
  | found => inr found
  end.

Definition loc (df : DataFrame) (keys : list value) : exn + DataFrame :=
  map_result (fun found => {| columns := columns df; rows := concat found |})
             (map_exn (loc_key df) keys).

(** [df[~df.index.duplicated(keep='first')]] *)
Fixpoint keep_first (seen : list value) (rs : list Row) : list Row :=
  match rs with
  | [] => []
  | r :: rs' =>
      if existsb (label_eqb (label r)) seen then keep_first seen rs'
      else r :: keep_first (label r :: seen) rs'
  end.

Definition drop_duplicated_index (df : DataFrame) : DataFrame :=
  {| columns := columns df; rows := keep_first [] (rows df) |}.

(** ** NumPy arrays of windows

    [np.array] of a list of windows is three-dimensional only when there is a
    window and the windows are not empty: [np.array([])] has shape [(0,)].
    The shape is therefore kept beside the items; slicing and fancy indexing
    along the first axis keep the trailing dimensions. *)

Record ndarray (A : Type) : Type := { shape : list nat; data : list (list (list A)) }.

Definition np_array {A} (l : list (list (list A))) : ndarray A :=
  {| shape := match l with
              | [] => [0]
              | s :: _ => match s with
                          | [] => [length l; 0]
                          | r :: _ => [length l; length s; length r]
                          end
              end;
     data := l |}.

(** [len(X)] *)
Definition len {A} (X : ndarray A) : nat := length (data X).

Definition reshape0 {A} (sh : list nat) (d : list (list (list A))) : ndarray A :=
  {| shape := match sh with [] => [] | _ :: t => length d :: t end; data := d |}.

(** [X[:k]], [X[k:]] *)
Definition arr_slice_to {A} (k : Z) (X : ndarray A) : ndarray A :=
  reshape0 (shape X) (slice_to k (data X)).
Definition arr_slice_from {A} (k : Z) (X : ndarray A) : ndarray A :=
  reshape0 (shape X) (slice_from k (data X)).

(** [X[idx]] *)
Definition arr_take {A} (X : ndarray A) (idx : list Z) : exn + ndarray A :=
  map_result (reshape0 (shape X)) (take (data X) idx).

(** [s[-1, -1]]: the last cell of the last row of a window; in a window of
    [load_data] that is the date of its last row, the anchor date. *)
Definition anchor_date {A} (s : list (list A)) : exn + A :=
  match item_m1 s with
  | inl e => inl e
  | inr r => item_m1 r
  end.

(** [X[:, -1, -1]]: the last cell of the last row of every window. *)
Definition last_of_last {A} (X : ndarray A) : exn + list A :=
  match shape X with
  | [_; S _; S _] => map_exn anchor_date (data X)
  | [_; _; _] => inl (IndexError "index -1 is out of bounds")
  | _ => inl (IndexError "too many indices for array")
  end.

(** [X[:, :, :k]] *)
Definition truncate_rows {A} (k : nat) (X : ndarray A) : exn + list (list (list A)) :=
  match shape X with
  | [_; _; _] => inr (map (map (firstn k)) (data X))
  | _ => inl (IndexError "too many indices for array")
  end.

(** ** External collaborators

    What the script takes from its libraries and that is not a list or table
    operation: the draws of NumPy's legacy generator, scikit-learn's
    [MinMaxScaler], NumPy's cast to [float32] and yahoo_fin's download. *)

Class Collaborators : Type := {
  (** the state of [np.random] *)
  rng : Type;
  (** one bounded draw: a number in [0..max] and the next state *)
  random_interval : rng -> nat -> nat * rng;
  random_interval_le : forall g max, fst (random_interval g max) <= max;
  (** a fitted scaler, and [MinMaxScaler().fit_transform] on one column *)
  scaler : Type;
  fit_transform : list value -> exn + (scaler * list value);
  (** the cast of one cell by [.astype(np.float32)] *)
  astype_float32 : value -> exn + float;
  (** [si.get_data] *)
  get_data : string -> exn + DataFrame
}.

(** ** np.random.shuffle and shuffle_in_unison *)

(** [x[i] = v] for a position [i] inside [x]. *)
Definition set_item {A} (i : nat) (v : A) (x : list A) : list A :=
  firstn i x ++ v :: skipn (S i) x.

(** [x[i], x[j] = x[j], x[i]] *)
Definition swap {A} (i j : nat) (x : list A) : list A :=
  match nth_error x i, nth_error x j with
  | Some a, Some b => set_item j a (set_item i b x)
  | _, _ => x
  end.

Section Shuffle.
Context {env : Collaborators}.

(** The loop of [RandomState.shuffle]:
    [for i in reversed(range(1, n)): j = random_interval(i); x[i], x[j] = x[j], x[i]]. *)
Fixpoint shuffle_loop {A} (i : nat) (x : list A) (g : rng) : list A * rng :=
  match i with
  | 0 => (x, g)
  | S i' =>
      let (j, g') := random_interval g i in
      shuffle_loop i' (swap i j x) g'
  end.

(** [np.random.shuffle(x)]: in place along the first axis. *)
Definition shuffle {A} (x : list A) (g : rng) : list A * rng :=
  shuffle_loop (length x - 1) x g.

(** [np.random.permutation(n)] *)
Definition permutation (n : nat) (g : rng) : list nat * rng :=
  shuffle (seq 0 n) g.

(** [shuffle_in_unison(a, b)]: the generator state saved before [a] is
    shuffled is restored before [b] is. *)
Definition shuffle_in_unison {A B} (a : list A) (b : list B) (g : rng)
  : (list A * list B) * rng :=
  let state := g in
  let (a', _) := shuffle a g in
  let (b', g') := shuffle b state in
  ((a', b'), g').

End Shuffle.

(** ** sklearn.model_selection.train_test_split *)

(** [math.ceil(x)] *)
Definition math_ceil (x : float) : exn + Z :=
  match Prim2SF x with
  | S754_nan => inl (ValueError "cannot convert float NaN to integer")
  | S754_infinity _ => inl (OverflowError "cannot convert float infinity to integer")
  | S754_zero _ => inr 0%Z
  | S754_finite s m e => inr (- Z.shiftl (- cond_Zopp s (Zpos m)) e)%Z
  end.

(** The sizes of the two parts for a float [test_size]: it must lie strictly
    between 0 and 1, [n_test = ceil(test_size * n_samples)], the rest is the
    train part, which may not be empty. *)
Definition validate_shuffle_split (n_samples : nat) (test_size : float)
  : exn + (Z * Z) :=
  if PrimFloat.leb test_size PrimFloat.zero || PrimFloat.leb PrimFloat.one test_size
  then inl (ValueError "test_size should be in the (0, 1) range")
  else
    match math_ceil (PrimFloat.mul test_size (float_of_nat n_samples)) with
    | inl e => inl e
    | inr n_test =>
        let n_train := (Z.of_nat n_samples - n_test)%Z in
        if (n_train =? 0)%Z
        then inl (ValueError "the resulting train set will be empty")
        else inr (n_train, n_test)
    end.

Section TrainTestSplit.
Context {env : Collaborators}.

(** The train and test positions: without shuffling the first [n_train]
    positions and the [n_test] that follow, with shuffling the matching parts
    of a random permutation (test first). *)
Definition split_indices (n_samples : nat) (test_size : float) (shuffle_ : bool)
           (g : rng) : (exn + (list Z * list Z)) * rng :=
  match validate_shuffle_split n_samples test_size with
  | inl e => (inl e, g)
  | inr (n_train, n_test) =>
      if shuffle_
      then let (perm, g') := permutation n_samples g in
           let perm := map Z.of_nat perm in
           (inr (slice n_test (n_test + n_train) perm, slice_to n_test perm), g')
      else (inr (arange 0 n_train, arange n_train (n_train + n_test)), g)
  end.

(** [train_test_split(X, y, test_size=test_size, shuffle=shuffle)], in the
    order it returns: [X_train, X_test, y_train, y_test]. *)
Definition train_test_split {A B} (X : ndarray A) (y : list B)
           (test_size : float) (shuffle_ : bool) (g : rng)
  : (exn + (ndarray A * ndarray A * list B * list B)) * rng :=
  if negb (len X =? length y)
  then (inl (ValueError "Found input variables with inconsistent numbers of samples"), g)
  else
    match split_indices (len X) test_size shuffle_ g with
    | (inl e, g') => (inl e, g')
    | (inr (train, test), g') =>
        (match arr_take X train, arr_take X test, take y train, take y test with
         | inr X_train, inr X_test, inr y_train, inr y_test =>
             inr (X_train, X_test, y_train, y_test)
         | inl e, _, _, _ => inl e
         | _, inl e, _, _ => inl e
         | _, _, inl e, _ => inl e
         | _, _, _, inl e => inl e
         end, g')
    end.

End TrainTestSplit.

(** ** The state and error monad of [load_data] *)

Definition M (S A : Type) : Type := S -> (exn + A) * S.

Definition ret {S A} (a : A) : M S A := fun s => (inr a, s).

Definition bind {S A B} (m : M S A) (k : A -> M S B) : M S B :=
  fun s => match m s with
           | (inl e, s') => (inl e, s')
           | (inr a, s') => k a s'
           end.

(** Raise the exception of a fallible pure operation, or go on with its value. *)
Definition lift {S A} (r : exn + A) : M S A := fun s => (r, s).

Definition get {S} : M S S := fun s => (inr s, s).

Definition put {S} (s : S) : M S unit := fun _ => (inr tt, s).

Declare Scope monad_scope.
Delimit Scope monad_scope with monad.
Notation "x <- m ;; k" := (bind m (fun x => k))
  (at level 61, m at next level, right associativity) : monad_scope.
Notation "' p <- m ;; k" := (bind m (fun x => let 'p := x in k))
  (at level 61, p pattern, m at next level, right associativity) : monad_scope.

(** ** load_data *)

(** What the caller passes as [ticker]. *)
Inductive PyObj : Type :=
| PStr (s : string)
| PFrame (df : DataFrame)
| POther.

(** [d[k] = v] on a dictionary kept in insertion order. *)
Fixpoint dict_set {V} (k : string) (v : V) (d : list (string * V)) : list (string * V) :=
  match d with
  | [] => [(k, v)]
  | (k', v') :: d' => if String.eqb k' k then (k, v) :: d' else (k', v') :: dict_set k v d'
  end.

(** [for col in feature_columns: assert col in df.columns, ...] *)
Fixpoint assert_columns (df : DataFrame) (feature_columns : list string) : exn + unit :=
  match feature_columns with
  | [] => inr tt
  | col :: rest =>
      if has_column df col then assert_columns df rest
      else inl (AssertionError (String.append "'" (String.append col
                                 "' does not exist in the dataframe.")))
  end.

(** One turn of the windowing loop: the entry goes into the deque, and a full
    deque is recorded with the target of the entry just added. *)
Definition window_step (n_steps : nat)
           (st : list (list (list value) * value) * list (list value))
           (et : list value * value)
  : list (list (list value) * value) * list (list value) :=
  let (sequence_data, sequences) := st in
  let (entry, target) := et in
  let sequences := deque_append n_steps sequences entry in
  (if length sequences =? n_steps
   then sequence_data ++ [(sequences, target)]
   else sequence_data,
   sequences).

(** [for entry, target in zip(entries, targets): ...], from an empty
    [sequence_data] and an empty deque. *)
Definition window_loop (n_steps : nat) (entries : list (list value))
           (targets : list value)
  : list (list (list value) * value) * list (list value) :=
  fold_left (window_step n_steps) (combine entries targets) ([], []).

(** Lines 55 to 61 on the prepared table: [sequence_data] and the deque as
    the loop leaves it. *)
Definition windows (n_steps : nat) (feature_columns : list string) (df : DataFrame)
  : list (list (list value) * value) * list (list value) :=
  window_loop n_steps (frame_values df (feature_columns ++ ["date"]))
              (column_values df "future").

Section LoadData.
Context {env : Collaborators}.
Local Open Scope monad_scope.

(** The state of [load_data]: [w_df] is the table the name [df] is bound to,
    [w_rng] the state of [np.random]. *)
Record World : Type := { w_df : DataFrame; w_rng : rng }.

(** Run a table computation on the table of the world. *)
Definition on_df {A} (m : M DataFrame A) : M World A :=
  fun w => let (r, df) := m (w_df w) in (r, {| w_df := df; w_rng := w_rng w |}).

(** Run a generator computation on the generator of the world. *)
Definition with_rng {A} (f : rng -> A * rng) : M World A :=
  fun w => let (a, g) := f (w_rng w) in (inr a, {| w_df := w_df w; w_rng := g |}).

Definition with_rng_exn {A} (f : rng -> (exn + A) * rng) : M World A :=
  fun w => let (r, g) := f (w_rng w) in (r, {| w_df := w_df w; w_rng := g |}).

(** The dictionary [load_data] returns. [column_scaler] is absent when
    [scale] is false. *)
Record Result : Type := {
  r_df : DataFrame;
  column_scaler : option (list (string * scaler));
  last_sequence : list (list float);
  X_train : list (list (list float));
  y_train : list value;
  X_test : list (list (list float));
  y_test : list value;
  test_df : DataFrame
}.

(** [df[c]] read from the current table. *)
Definition read_column (c : string) : M DataFrame (list value) :=
  df <- get ;; lift (get_column df c).

(** [df[c] = vals] on the current table. *)
Definition write_column (c : string) (vals : list value) : M DataFrame unit :=
  df <- get ;; df' <- lift (set_column df c vals) ;; put df'.

(** [if "date" not in df.columns: df["date"] = df.index] *)
Definition ensure_date : M DataFrame unit :=
  df <- get ;;
  if has_column df "date" then ret tt else write_column "date" (index df).

(** The body of [if scale:], one feature column after the other. *)
Fixpoint scale_columns (feature_columns : list string)
         (column_scaler : list (string * scaler))
  : M DataFrame (list (string * scaler)) :=
  match feature_columns with
  | [] => ret column_scaler
  | column :: rest =>
      vals <- read_column column ;;
      ' (sc, scaled) <- lift (fit_transform vals) ;;
      _ <- write_column column scaled ;;
      scale_columns rest (dict_set column sc column_scaler)
  end.

(** Lines 34 to 51: the copy kept for the caller, the column check, the date
    column, the scaling and the [future] column. All of it acts on the table
    [df] is bound to. Returns [result['df']] and [result['column_scaler']]. *)
Definition add_future (scale : bool) (lookup_step : nat) (feature_columns : list string)
  : M DataFrame (DataFrame * option (list (string * scaler))) :=
  df <- get ;;
  let result_df := df in
  _ <- lift (assert_columns df feature_columns) ;;
  _ <- ensure_date ;;
  column_scaler <- (if scale
                    then cs <- scale_columns feature_columns [] ;; ret (Some cs)
                    else ret None) ;;
  adjclose <- read_column "adjclose" ;;
  _ <- write_column "future" (shift_back lookup_step adjclose) ;;
  ret (result_df, column_scaler).

(** Lines 34 to 53: [add_future], then the tail rows set aside for the last
    sequence and the removal of the incomplete rows. *)
Definition prepare (scale : bool) (lookup_step : nat) (feature_columns : list string)
  : M DataFrame (DataFrame * option (list (string * scaler)) * list (list value)) :=
  ' (result_df, column_scaler) <- add_future scale lookup_step feature_columns ;;
  df <- get ;;
  let last_rows := tail lookup_step (frame_values df feature_columns) in
  _ <- put (dropna df) ;;
  ret (result_df, column_scaler, last_rows).

(** [np.array(rows).astype(np.float32)] on a list of rows. *)
Definition astype_rows (x : list (list value)) : exn + list (list float) :=
  map_exn (map_exn astype_float32) x.

(** [int((1 - test_size) * len(X))] *)
Definition train_samples (test_size : float) (n : nat) : exn + Z :=
  int_of_float (PrimFloat.mul (PrimFloat.sub PrimFloat.one test_size) (float_of_nat n)).

(** The chronological split, with its optional shuffles. *)
Definition split_by_position (X : ndarray value) (y : list value)
           (test_size : float) (shuffle_ : bool)
  : M World (ndarray value * ndarray value * list value * list value) :=
  train_samples <- lift (train_samples test_size (len X)) ;;
  let X_train := arr_slice_to train_samples X in
  let y_train := slice_to train_samples y in
  let X_test := arr_slice_from train_samples X in
  let y_test := slice_from train_samples y in
  if shuffle_
  then ' (Xd_train, y_train) <- with_rng (shuffle_in_unison (data X_train) y_train) ;;
       ' (Xd_test, y_test) <- with_rng (shuffle_in_unison (data X_test) y_test) ;;
       ret (reshape0 (shape X_train) Xd_train, reshape0 (shape X_test) Xd_test,
            y_train, y_test)
  else ret (X_train, X_test, y_train, y_test).

(** Lines 75 to 86: the split of [X] and [y]. *)
Definition split (X : ndarray value) (y : list value) (split_by_date : bool)
           (test_size : float) (shuffle_ : bool)
  : M World (ndarray value * ndarray value * list value * list value) :=
  if split_by_date
  then split_by_position X y test_size shuffle_
  else with_rng_exn (train_test_split X y test_size shuffle_).

(** What lines 34 to 86 hand over to the end of the function. *)
Record Built : Type := {
  b_df : DataFrame;
  b_column_scaler : option (list (string * scaler));
  b_last_sequence : list (list float);
  b_X_train : ndarray value;
  b_y_train : list value;
  b_X_test : ndarray value;
  b_y_test : list value
}.

(** Lines 34 to 86. *)
Definition build (n_steps : nat) (scale shuffle_ : bool) (lookup_step : nat)
           (split_by_date : bool) (test_size : float) (feature_columns : list string)
  : M World Built :=
  ' (result_df, column_scaler, last_rows) <-
    on_df (prepare scale lookup_step feature_columns) ;;
  df <- on_df get ;;
  let (sequence_data, sequences) := windows n_steps feature_columns df in
  last_sequence <- lift (astype_rows
                           (map (firstn (length feature_columns)) sequences
                            ++ last_rows)) ;;
  let X := np_array (map fst sequence_data) in
  let y := map snd sequence_data in
  ' (X_train, X_test, y_train, y_test) <- split X y split_by_date test_size shuffle_ ;;
  ret {| b_df := result_df; b_column_scaler := column_scaler;
         b_last_sequence := last_sequence;
         b_X_train := X_train; b_y_train := y_train;
         b_X_test := X_test; b_y_test := y_test |}.

(** Lines 88 to 94: the rows of the test windows' anchor dates in the copy of
    the table, then the windows without their date cell, cast to [float32]. *)
Definition finish (feature_columns : list string) (b : Built) : M World Result :=
  dates <- lift (last_of_last (b_X_test b)) ;;
  test_rows <- lift (loc (b_df b) dates) ;;
  let test_df := drop_duplicated_index test_rows in
  X_train <- lift (truncate_rows (length feature_columns) (b_X_train b)) ;;
  X_train <- lift (map_exn astype_rows X_train) ;;
  X_test <- lift (truncate_rows (length feature_columns) (b_X_test b)) ;;
  X_test <- lift (map_exn astype_rows X_test) ;;
  ret {| r_df := b_df b; column_scaler := b_column_scaler b;
         last_sequence := b_last_sequence b;
         X_train := X_train; y_train := b_y_train b;
         X_test := X_test; y_test := b_y_test b;
         test_df := test_df |}.

(** The body of [load_data] once [df] is bound. *)
Definition load_frame (n_steps : nat) (scale shuffle_ : bool) (lookup_step : nat)
           (split_by_date : bool) (test_size : float) (feature_columns : list string)
  : M World Result :=
  b <- build n_steps scale shuffle_ lookup_step split_by_date test_size feature_columns ;;
  finish feature_columns b.

(** Lines 27 to 32: a string is downloaded into a fresh table, a table is used
    as it is, anything else is a [TypeError]. *)
Definition bind_df (ticker : PyObj) : exn + DataFrame :=
  match ticker with
  | PStr s => get_data s
  | PFrame df => inr df
  | POther => inl (TypeError "ticker can be either a str or a `pd.DataFrame` instances")
  end.

(** [load_data]. Returns the outcome, the object passed as [ticker] as the
    call leaves it (a table passed in is the very table [df] names, so it
    carries every change made to [df]), and the generator state. *)
Definition load_data (ticker : PyObj) (n_steps : nat) (scale shuffle_ : bool)
           (lookup_step : nat) (split_by_date : bool) (test_size : float)
           (feature_columns : list string) (g : rng)
  : (exn + Result) * PyObj * rng :=
  match bind_df ticker with
  | inl e => (inl e, ticker, g)
  | inr df =>
      let (r, w) := load_frame n_steps scale shuffle_ lookup_step split_by_date
                               test_size feature_columns
                               {| w_df := df; w_rng := g |} in
      (r, match ticker with PFrame _ => PFrame (w_df w) | _ => ticker end, w_rng w)
  end.

(** *** Quantities the properties speak of *)

(** The table as the windowing loop reads it (when the preparation raised,
    the table as the exception left it). *)
Definition prepared_table (scale : bool) (lookup_step : nat)
           (feature_columns : list string) (df : DataFrame) : DataFrame :=
  snd (prepare scale lookup_step feature_columns df).

(** The number of rows left after [dropna]; no row is usable when the
    preparation raised. *)
Definition usable_rows (scale : bool) (lookup_step : nat)
           (feature_columns : list string) (df : DataFrame) : nat :=
  match prepare scale lookup_step feature_columns df with
  | (inr _, df') => length (rows df')
  | (inl _, _) => 0
  end.

(** The (sequence, target) pairs the windowing loop emits. *)
Definition sequence_data (n_steps : nat) (scale : bool) (lookup_step : nat)
           (feature_columns : list string) (df : DataFrame)
  : list (list (list value) * value) :=
  match prepare scale lookup_step feature_columns df with
  | (inr _, df') => fst (windows n_steps feature_columns df')
  | (inl _, _) => []
  end.

End LoadData.

(** ** create_model

    The Keras calls of [create_model] as data: a layer is the constructor
    called with its arguments, a [Sequential] model is the list of the layers
    added to it, in order, with the arguments of [compile] once it has been
    called. [Cell] stands for the recurrent layer classes ([LSTM], [GRU],
    ...), [Loss] and [Optimizer] for what [compile] accepts. *)

Section CreateModel.
Variables Cell Loss Optimizer : Type.

Inductive layer : Type :=
| Recurrent (cell : Cell) (units : Z) (return_sequences : bool)
            (input_shape : option (Z * Z))
| Bidirectional (inner : layer) (input_shape : option (Z * Z))
| Dropout (rate : float)
| Dense (units : Z) (activation : string).

Record Model : Type := {
  layers : list layer;
  compiled : option (Loss * list string * Optimizer)
}.

(** [Sequential()] *)
Definition Sequential : Model := {| layers := []; compiled := None |}.

(** [model.add(l)] *)
Definition add (model : Model) (l : layer) : Model :=
  {| layers := layers model ++ [l]; compiled := compiled model |}.

(** [model.compile(loss=..., metrics=..., optimizer=...)] *)
Definition compile (model : Model) (loss : Loss) (metrics : list string)
           (optimizer : Optimizer) : Model :=
  {| layers := layers model; compiled := Some (loss, metrics, optimizer) |}.

(** [range(n)] *)
Definition range (n : Z) : list Z := map Z.of_nat (seq 0 (Z.to_nat n)).

(** The body of the loop of [create_model], for one [i]. *)
Definition add_recurrent (sequence_length n_features units : Z) (cell : Cell)
           (n_layers : Z) (dropout : float) (bidirectional : bool)
           (model : Model) (i : Z) : Model :=
  let model :=
    if (i =? 0)%Z then
      if bidirectional
      then add model (Bidirectional (Recurrent cell units true None)
                                    (Some (sequence_length, n_features)))
      else add model (Recurrent cell units true (Some (sequence_length, n_features)))
    else if (i =? n_layers - 1)%Z then
      if bidirectional
      then add model (Bidirectional (Recurrent cell units false None) None)
      else add model (Recurrent cell units false None)
    else
      if bidirectional
      then add model (Bidirectional (Recurrent cell units true None) None)
      else add model (Recurrent cell units true None) in
  add model (Dropout dropout).

Definition create_model (sequence_length n_features units : Z) (cell : Cell)
           (n_layers : Z) (dropout : float) (loss : Loss) (optimizer : Optimizer)
           (bidirectional : bool) : Model :=
  let model := Sequential in
  let model := fold_left (add_recurrent sequence_length n_features units cell n_layers
                                        dropout bidirectional)
                         (range n_layers) model in
  let model := add model (Dense 1 "linear") in
  compile model loss ["mean_absolute_error"] optimizer.

(** What a layer of the stack is made of: the recurrent cell it holds, with
    its [units] and [return_sequences], whether a [Bidirectional] wraps it,
    and the [input_shape] it is given. *)
Definition recurrent_of (l : layer) : option (Cell * Z * bool) :=
  match l with
  | Recurrent cell units rs _ => Some (cell, units, rs)
  | Bidirectional (Recurrent cell units rs _) _ => Some (cell, units, rs)
  | _ => None
  end.

Definition is_bidirectional (l : layer) : bool :=
  match l with
  | Bidirectional _ _ => true
  | _ => false
  end.

Definition input_shape_of (l : layer) : option (Z * Z) :=
  match l with
  | Recurrent _ _ _ shape => shape
  | Bidirectional _ shape => shape
  | _ => None
  end.

End CreateModel.

Arguments Dropout {Cell} rate.
Arguments Dense {Cell} units activation.

(** ** A concrete set of collaborators, to run the builder

  A linear congruential generator stands for NumPy's Mersenne Twister, the
  scaler is scikit-learn's min-max rule in binary64, the cast rounds to
  binary32, and the download returns a fixed table. *)

Module Demo.

Definition lcg_next (g : Z) : Z := ((g * 1103515245 + 12345) mod 2147483648)%Z.

Definition lcg_interval (g : Z) (max : nat) : nat * Z :=
  (Z.to_nat ((g / 65536) mod (Z.of_nat max + 1)), lcg_next g).

Lemma lcg_interval_le (g : Z) (max : nat) : fst (lcg_interval g max) <= max.
Proof.
  unfold lcg_interval; cbn [fst].
  pose proof (Z.mod_pos_bound (g / 65536) (Z.of_nat max + 1)) as Hb.
  lia.
Qed.

(** The numeric content of a column, as scikit-learn's input validation
    converts it. *)
Definition to_float (v : value) : exn + float :=
  match v with
  | VFloat x => inr x
  | VNone => inr PrimFloat.nan
  | VDate _ => inl (TypeError "float() argument must be a string or a number")
  | VStr _ => inl (ValueError "could not convert string to float")
  end.

(** [np.nanmin] and [np.nanmax] *)
Definition nan_fold (better : float -> float -> bool) (l : list float) : float :=
  fold_left (fun acc x =>
               if PrimFloat.is_nan x then acc
               else if PrimFloat.is_nan acc then x
                    else if better x acc then x else acc) l PrimFloat.nan.

Definition minmax_fit (col : list float) : float * float :=
  let data_min := nan_fold PrimFloat.ltb col in
  let data_max := nan_fold (fun x y => PrimFloat.ltb y x) col in
  let data_range := PrimFloat.sub data_max data_min in
  let eps10 := PrimFloat.mul 10 0x1p-52 in
  let scale_ := PrimFloat.div 1 (if PrimFloat.ltb data_range eps10 then 1%float
                                 else data_range) in
  (scale_, PrimFloat.sub 0 (PrimFloat.mul data_min scale_)).

Definition minmax_fit_transform (col : list value) : exn + (float * float * list value) :=
  match map_exn to_float col with
  | inl e => inl e
  | inr [] => inl (ValueError "Found array with 0 sample(s)")
  | inr xs =>
      let (scale_, min_) := minmax_fit xs in
      inr (scale_, min_,
           map (fun x => VFloat (PrimFloat.add (PrimFloat.mul x scale_) min_)) xs)
  end.

(** Rounding of a binary64 number to the nearest binary32 number. *)
Definition to_float32 (x : float) : float :=
  match Prim2SF x with
  | S754_finite s m e => SF2Prim (binary_round 24 128 s m e)
  | _ => x
  end.

Definition cast_float32 (v : value) : exn + float :=
  map_result to_float32 (to_float v).

(** A table of [n] daily rows, day [i] labelled [VDate i], with the five
    price columns of yahoo_fin. *)
Definition day (i : nat) : Row :=
  {| label := VDate (Z.of_nat i);
     cells := fun c =>
       if String.eqb c "adjclose" then VFloat (float_of_nat (100 + i))
       else if String.eqb c "volume" then VFloat (float_of_nat (1000 + 7 * i))
       else if String.eqb c "open" then VFloat (float_of_nat (99 + i))
       else if String.eqb c "high" then VFloat (float_of_nat (102 + i))
       else if String.eqb c "low" then VFloat (float_of_nat (98 + i))
       else VNone |}.

Definition prices (n : nat) : DataFrame :=
  {| columns := ["open"; "high"; "low"; "adjclose"; "volume"];
     rows := map day (seq 0 n) |}.

#[export] Instance collaborators : Collaborators :=
  {| rng := Z;
     random_interval := lcg_interval;
     random_interval_le := lcg_interval_le;
     scaler := float * float;
     fit_transform := minmax_fit_transform;
     astype_float32 := cast_float32;
     get_data := fun _ => inr (prices 30) |}.

Definition features : list string := ["adjclose"; "volume"; "open"; "high"; "low"].

End Demo.

(** * Properties *)

(** ** Lists, slices and fallible maps *)

Lemma slice_bound_le (k : Z) (n : nat) : slice_bound k n <= n.
Proof. unfold slice_bound; destruct (Z.ltb_spec k 0); lia. Qed.

Lemma slice_to_from {A} (k : Z) (x : list A) : slice_to k x ++ slice_from k x = x.
Proof. apply firstn_skipn. Qed.

Lemma slice_to_length {A} (k : Z) (x : list A) :
  length (slice_to k x) = slice_bound k (length x).
Proof.
  unfold slice_to. rewrite length_firstn.
  pose proof (slice_bound_le k (length x)); lia.
Qed.

Lemma slice_from_length {A} (k : Z) (x : list A) :
  length (slice_from k x) = length x - slice_bound k (length x).
Proof. unfold slice_from. apply length_skipn. Qed.

Lemma nth_error_in_range {A} (l : list A) (k : nat) (a : A) :
  nth_error l k = Some a -> k < length l.
Proof. intros H. apply nth_error_Some. congruence. Qed.

Lemma map_result_inr {A B} (f : A -> B) (r : exn + A) (b : B) :
  map_result f r = inr b -> exists a, r = inr a /\ b = f a.
Proof. destruct r as [e | a]; simpl; intros H; inversion H; eauto. Qed.

Lemma map_exn_inr {A B} (f : A -> exn + B) (l : list A) (l' : list B) :
  map_exn f l = inr l' -> Forall2 (fun a b => f a = inr b) l l'.
Proof.
  revert l'; induction l as [| a l IH]; simpl; intros l' H.
  - inversion H; constructor.
  - destruct (f a) as [e | b] eqn:Ha; [discriminate |].
    apply map_result_inr in H as (t & Ht & ->).
    constructor; auto.
Qed.

Lemma Forall2_In_l {A B} (P : A -> B -> Prop) (l : list A) (l' : list B) (a : A) :
  Forall2 P l l' -> In a l -> exists b, In b l' /\ P a b.
Proof.
  induction 1 as [| x y l l' Hxy _ IH]; intros Hin; [destruct Hin |].
  destruct Hin as [-> | Hin].
  - exists y. split; [left; reflexivity | assumption].
  - destruct (IH Hin) as (b & Hb & Hab). exists b. split; [right; assumption | assumption].
Qed.

Lemma map_exn_length {A B} (f : A -> exn + B) (l : list A) (l' : list B) :
  map_exn f l = inr l' -> length l' = length l.
Proof. intros H; apply map_exn_inr in H. symmetry; eapply Forall2_length; eauto. Qed.

Lemma take_length {A} (x : list A) (idx : list Z) (x' : list A) :
  take x idx = inr x' -> length x' = length idx.
Proof. apply map_exn_length. Qed.

(** ** np.random.shuffle *)

Lemma set_item_split {A} (l1 l2 : list A) (c v : A) :
  set_item (length l1) v (l1 ++ c :: l2) = l1 ++ v :: l2.
Proof.
  unfold set_item. induction l1 as [| a l1 IH]; simpl.
  - reflexivity.
  - f_equal. exact IH.
Qed.

Lemma set_item_perm {A} (i : nat) (v c : A) (x : list A) :
  nth_error x i = Some c -> Permutation (v :: x) (c :: set_item i v x).
Proof.
  intros H. apply nth_error_split in H as (l1 & l2 & -> & <-).
  rewrite set_item_split.
  rewrite <- !Permutation_middle. apply perm_swap.
Qed.

Lemma set_item_same {A} (i : nat) (v c : A) (x : list A) :
  nth_error x i = Some c -> nth_error (set_item i v x) i = Some v.
Proof.
  intros H. apply nth_error_split in H as (l1 & l2 & -> & <-).
  rewrite set_item_split. rewrite nth_error_app2, Nat.sub_diag by lia. reflexivity.
Qed.

Lemma set_item_other {A} (i j : nat) (v c : A) (x : list A) :
  nth_error x i = Some c -> j <> i -> nth_error (set_item i v x) j = nth_error x j.
Proof.
  intros H Hj. apply nth_error_split in H as (l1 & l2 & -> & <-).
  rewrite set_item_split.
  destruct (Nat.lt_ge_cases j (length l1)).
  - rewrite !nth_error_app1 by lia. reflexivity.
  - rewrite !nth_error_app2 by lia.
    destruct (j - length l1) eqn:E; [lia | reflexivity].
Qed.

Lemma swap_perm {A} (i j : nat) (x : list A) : Permutation (swap i j x) x.
Proof.
  unfold swap.
  destruct (nth_error x i) as [a |] eqn:Hi; [| reflexivity].
  destruct (nth_error x j) as [b |] eqn:Hj; [| reflexivity].
  assert (H1 : Permutation (b :: x) (a :: set_item i b x))
    by (apply set_item_perm; assumption).
  assert (Hj' : nth_error (set_item i b x) j = Some b).
  { destruct (Nat.eq_dec j i) as [-> | Hne].
    - eapply set_item_same; eauto.
    - erewrite set_item_other; eauto. }
  assert (H2 : Permutation (a :: set_item i b x) (b :: set_item j a (set_item i b x)))
    by (apply set_item_perm; assumption).
  symmetry. eapply Permutation_cons_inv. etransitivity; eauto.
Qed.

Lemma set_item_map {A B} (f : A -> B) (i : nat) (v : A) (x : list A) :
  set_item i (f v) (map f x) = map f (set_item i v x).
Proof. unfold set_item. rewrite firstn_map, skipn_map, map_app. reflexivity. Qed.

Lemma swap_map {A B} (f : A -> B) (i j : nat) (x : list A) :
  swap i j (map f x) = map f (swap i j x).
Proof.
  unfold swap. rewrite !nth_error_map.
  destruct (nth_error x i) as [a |]; simpl; [| reflexivity].
  destruct (nth_error x j) as [b |]; simpl; [| reflexivity].
  rewrite !set_item_map. reflexivity.
Qed.

Section ShuffleFacts.
Context {env : Collaborators}.

(** The loop draws the same numbers whatever the items are, and moves the
    items of [map f x] as it moves those of [x]. *)
Lemma shuffle_loop_map {A B} (f : A -> B) (i : nat) (x : list A) (g : rng) :
  shuffle_loop i (map f x) g
  = (map f (fst (shuffle_loop i x g)), snd (shuffle_loop i x g)).
Proof.
  revert x g; induction i as [| i IH]; intros x g; simpl.
  - reflexivity.
  - destruct (random_interval g (S i)) as [j g'].
    rewrite swap_map. apply IH.
Qed.

Lemma shuffle_map {A B} (f : A -> B) (x : list A) (g : rng) :
  shuffle (map f x) g = (map f (fst (shuffle x g)), snd (shuffle x g)).
Proof. unfold shuffle. rewrite length_map. apply shuffle_loop_map. Qed.

Lemma shuffle_loop_perm {A} (i : nat) (x : list A) (g : rng) :
  Permutation (fst (shuffle_loop i x g)) x.
Proof.
  revert x g; induction i as [| i IH]; intros x g; simpl.
  - reflexivity.
  - destruct (random_interval g (S i)) as [j g'].
    etransitivity; [apply IH | apply swap_perm].
Qed.

Lemma shuffle_perm {A} (x : list A) (g : rng) : Permutation (fst (shuffle x g)) x.
Proof. apply shuffle_loop_perm. Qed.

Lemma shuffle_length {A} (x : list A) (g : rng) : length (fst (shuffle x g)) = length x.
Proof. apply Permutation_length, shuffle_perm. Qed.

Lemma nth_error_seq_all {A} (x : list A) :
  map (nth_error x) (seq 0 (length x)) = map Some x.
Proof.
  induction x as [| a x IH]; simpl; [reflexivity |].
  f_equal. rewrite <- seq_shift, map_map. exact IH.
Qed.

(** Shuffling [x] is reading [x] through the shuffled list of its positions. *)
Lemma shuffle_by_positions {A} (x : list A) (g : rng) :
  map Some (fst (shuffle x g))
  = map (nth_error x) (fst (permutation (length x) g))
  /\ snd (shuffle x g) = snd (permutation (length x) g).
Proof.
  unfold permutation.
  pose proof (shuffle_map (@Some A) x g) as H1.
  pose proof (shuffle_map (nth_error x) (seq 0 (length x)) g) as H2.
  rewrite nth_error_seq_all in H2. rewrite H2 in H1.
  injection H1 as Ha Hb. split; symmetry; assumption.
Qed.

End ShuffleFacts.

Lemma read_through_positions {A} (x x' : list A) (pi : list nat) (i : nat) :
  map Some x' = map (nth_error x) pi ->
  i < length pi ->
  nth_error x' i = nth_error x (nth i pi 0).
Proof.
  intros H Hi.
  assert (Hn : nth_error (map Some x') i = nth_error (map (nth_error x) pi) i)
    by (rewrite H; reflexivity).
  rewrite !nth_error_map in Hn.
  rewrite (nth_error_nth' pi 0 Hi) in Hn. simpl in Hn.
  destruct (nth_error x' i) as [v |]; simpl in Hn; [| discriminate].
  injection Hn as Hn. exact Hn.
Qed.

(** C7. Co-shuffling two arrays of the same length applies one permutation to
    both: for every generator state there is a permutation [pi] of the
    positions such that, after [shuffle_in_unison], item [i] of the first
    array is the original item [pi(i)] of the first and item [i] of the second
    array is the original item [pi(i)] of the second. *)
Theorem shuffle_in_unison_same_permutation
        {env : Collaborators} {A B} (a : list A) (b : list B) (g : rng) :
  length a = length b ->
  exists pi : list nat,
    Permutation pi (seq 0 (length a)) /\
    length (fst (fst (shuffle_in_unison a b g))) = length a /\
    length (snd (fst (shuffle_in_unison a b g))) = length b /\
    forall i, i < length a ->
      nth_error (fst (fst (shuffle_in_unison a b g))) i = nth_error a (nth i pi 0) /\
      nth_error (snd (fst (shuffle_in_unison a b g))) i = nth_error b (nth i pi 0).
Proof.
  intros Hlen.
  exists (fst (permutation (length a) g)).
  assert (Hpi : Permutation (fst (permutation (length a) g)) (seq 0 (length a)))
    by apply shuffle_perm.
  assert (Hl : length (fst (permutation (length a) g)) = length a)
    by (rewrite (Permutation_length Hpi); apply length_seq).
  destruct (shuffle_by_positions a g) as [Ha _].
  destruct (shuffle_by_positions b g) as [Hb _].
  rewrite <- Hlen in Hb.
  pose proof (shuffle_length a g) as La.
  pose proof (shuffle_length b g) as Lb.
  unfold shuffle_in_unison.
  destruct (shuffle a g) as [a' ga]; destruct (shuffle b g) as [b' gb].
  cbn [fst snd] in *.
  repeat split; auto.
  - apply read_through_positions; [assumption | lia].
  - apply read_through_positions; [assumption | lia].
Qed.

Lemma shuffle_in_unison_same_permutation_witness :
  length [1; 2; 3; 4] = length ["a"; "b"; "c"; "d"] /\
  exists pi : list nat,
    Permutation pi (seq 0 4) /\
    length (fst (fst (shuffle_in_unison (env := Demo.collaborators) [1; 2; 3; 4] ["a"; "b"; "c"; "d"] 314%Z))) = 4 /\
    length (snd (fst (shuffle_in_unison (env := Demo.collaborators) [1; 2; 3; 4] ["a"; "b"; "c"; "d"] 314%Z))) = 4 /\
    forall i, i < 4 ->
      nth_error (fst (fst (shuffle_in_unison (env := Demo.collaborators) [1; 2; 3; 4] ["a"; "b"; "c"; "d"] 314%Z))) i
      = nth_error [1; 2; 3; 4] (nth i pi 0) /\
      nth_error (snd (fst (shuffle_in_unison (env := Demo.collaborators) [1; 2; 3; 4] ["a"; "b"; "c"; "d"] 314%Z))) i
      = nth_error ["a"; "b"; "c"; "d"] (nth i pi 0).
Proof.
  split; [reflexivity |].
  apply (@shuffle_in_unison_same_permutation Demo.collaborators nat string
           [1; 2; 3; 4] ["a"; "b"; "c"; "d"] 314%Z).
  reflexivity.
Defined.

(** ** The windowing loop *)

(** The last [n] items of [x]. *)
Definition last_n {A} (n : nat) (x : list A) : list A := skipn (length x - n) x.

Lemma last_n_length {A} (n : nat) (x : list A) : length (last_n n x) = Nat.min n (length x).
Proof. unfold last_n. rewrite length_skipn. lia. Qed.

(** A bounded deque that has received the items of [x] holds the last
    [maxlen] of them. *)
Lemma deque_append_last_n {A} (n : nat) (x : list A) (a : A) :
  deque_append n (last_n n x) a = last_n n (x ++ [a]).
Proof.
  unfold deque_append, last_n.
  assert (E : skipn (length x - n) x ++ [a] = skipn (length x - n) (x ++ [a])).
  { rewrite skipn_app. replace (length x - n - length x) with 0 by lia. reflexivity. }
  rewrite E, skipn_skipn. f_equal.
  rewrite length_skipn, !length_app. simpl. lia.
Qed.

Lemma last_n_window {A} (n : nat) (x : list A) :
  n <= length x -> last_n n x = firstn n (skipn (length x - n) x).
Proof.
  intros H. unfold last_n. symmetry. apply firstn_all2.
  rewrite length_skipn. lia.
Qed.

Lemma firstn_skipn_app {A} (n k : nat) (x y : list A) :
  k + n <= length x -> firstn n (skipn k (x ++ y)) = firstn n (skipn k x).
Proof.
  intros H. rewrite skipn_app, firstn_app.
  replace (n - length (skipn k x)) with 0 by (rewrite length_skipn; lia).
  simpl. apply app_nil_r.
Qed.

(** What the loop has done once it has read the pairs [l]: the deque holds
    the last [n_steps] entries, every recorded window has [n_steps] rows, and
    for a positive [n_steps] there is one window per position at which
    [n_steps] entries have been read, paired with the target read last. *)
Lemma window_fold_spec (n_steps : nat) (l : list (list value * value)) :
  let st := fold_left (window_step n_steps) l ([], []) in
  snd st = last_n n_steps (map fst l) /\
  Forall (fun p => length (fst p) = n_steps) (fst st) /\
  (0 < n_steps ->
   length (fst st) = length l + 1 - n_steps /\
   forall k s t, nth_error (fst st) k = Some (s, t) ->
     s = firstn n_steps (skipn k (map fst l)) /\
     nth_error (map snd l) (k + n_steps - 1) = Some t).
Proof.
  induction l as [| [e t] l IH] using rev_ind; simpl.
  - split; [reflexivity |]. split; [constructor |].
    intros Hn. split; [destruct n_steps; [lia | reflexivity] |].
    intros k s t Hk. destruct k; discriminate.
  - rewrite fold_left_app. simpl.
    destruct (fold_left (window_step n_steps) l ([], [])) as [sd q].
    simpl in IH. destruct IH as (Hq & Hall & Hpos). subst q.
    unfold window_step at 1.
    rewrite !map_app; simpl. rewrite deque_append_last_n.
    pose proof (last_n_length n_steps (map fst l ++ [e])) as Hlen.
    rewrite length_app, length_map in Hlen; simpl in Hlen.
    destruct (Nat.eqb_spec (length (last_n n_steps (map fst l ++ [e]))) n_steps) as [Heq | Hne];
      simpl.
    + split; [reflexivity |]. split.
      * apply Forall_app; split; [assumption |]. constructor; [exact Heq | constructor].
      * intros Hn. destruct (Hpos Hn) as (Hsd & Hnth).
        rewrite !length_app; simpl. split; [lia |].
        intros k s t' Hk.
        assert (Hk' : k < length sd \/ k = length sd).
        { apply nth_error_in_range in Hk. rewrite length_app in Hk; simpl in Hk. lia. }
        destruct Hk' as [Hk' | ->].
        -- rewrite nth_error_app1 in Hk by assumption.
           destruct (Hnth _ _ _ Hk) as (-> & Ht).
           split.
           ++ symmetry. apply firstn_skipn_app. rewrite length_map. lia.
           ++ rewrite nth_error_app1 by (rewrite length_map; lia). exact Ht.
        -- rewrite nth_error_app2, Nat.sub_diag in Hk by lia. simpl in Hk.
           injection Hk as <- <-. split.
           ++ rewrite last_n_window by (rewrite length_app, length_map; simpl; lia).
              rewrite length_app, length_map; simpl. f_equal. f_equal. lia.
           ++ rewrite nth_error_app2 by (rewrite length_map; lia).
              rewrite length_map.
              replace (length sd + n_steps - 1 - length l) with 0 by lia. reflexivity.
    + split; [reflexivity |]. split; [assumption |].
      intros Hn. destruct (Hpos Hn) as (Hsd & Hnth).
      rewrite length_app; simpl. split; [lia |].
      intros k s t' Hk.
      destruct (Hnth _ _ _ Hk) as (-> & Ht).
      apply nth_error_in_range in Hk. lia.
Qed.

(** ** The monad *)

Lemma bind_inr {S A B} (m : M S A) (k : A -> M S B) (s s' : S) (b : B) :
  bind m k s = (inr b, s') ->
  exists a s1, m s = (inr a, s1) /\ k a s1 = (inr b, s').
Proof.
  unfold bind. destruct (m s) as [[e | a] s1]; intros H; [discriminate | eauto].
Qed.

Lemma lift_inr {S A} (r : exn + A) (s s' : S) (a : A) :
  lift r s = (inr a, s') -> r = inr a /\ s' = s.
Proof. unfold lift. intros H. injection H as -> ->. auto. Qed.

Lemma ret_inr {S A} (a a' : A) (s s' : S) :
  ret a s = (inr a', s') -> a' = a /\ s' = s.
Proof. unfold ret. intros H. injection H as -> ->. auto. Qed.

Lemma get_inr {S} (s s' a : S) : get s = (inr a, s') -> a = s /\ s' = s.
Proof. unfold get. intros H. injection H as -> ->. auto. Qed.

Lemma put_inr {S} (x s s' : S) (u : unit) : put x s = (inr u, s') -> s' = x.
Proof. unfold put. intros H. injection H as _ ->. reflexivity. Qed.

(** Take a successful run apart, one step at a time. *)
Ltac run_inv H :=
  match type of H with
  | bind _ _ _ = (inr _, _) =>
      let a := fresh "a" in let s := fresh "s" in
      let H1 := fresh "Hrun" in let H2 := fresh "Hrun" in
      apply bind_inr in H as (a & s & H1 & H2);
      run_inv H1; run_inv H2
  | lift _ _ = (inr _, _) =>
      let E := fresh "E" in apply lift_inr in H as (E & ->)
  | ret _ _ = (inr _, _) =>
      let E := fresh "E" in apply ret_inr in H as (E & ->)
  | get _ = (inr _, _) =>
      let E := fresh "E" in apply get_inr in H as (E & ->)
  | put _ _ = (inr _, _) => apply put_inr in H
  | _ => idtac
  end.

(** ** Tables *)

Lemma map_fst_combine {A B} (l : list A) (l' : list B) :
  length l = length l' -> map fst (combine l l') = l.
Proof.
  revert l'; induction l as [| a l IH]; intros [| b l'] H; simpl in *;
    try discriminate; [reflexivity |].
  f_equal. apply IH. lia.
Qed.

Lemma map_snd_combine {A B} (l : list A) (l' : list B) :
  length l = length l' -> map snd (combine l l') = l'.
Proof.
  revert l'; induction l as [| a l IH]; intros [| b l'] H; simpl in *;
    try discriminate; [reflexivity |].
  f_equal. apply IH. lia.
Qed.

Lemma has_column_In (df : DataFrame) (c : string) :
  has_column df c = true <-> In c (columns df).
Proof.
  unfold has_column. rewrite existsb_exists. split.
  - intros (x & Hx & E). apply String.eqb_eq in E. subst. assumption.
  - intros H. exists c. split; [assumption | apply String.eqb_refl].
Qed.

(** What [df[c] = vals] changes: the column [c], and nothing else. *)
Lemma set_column_inr (df df' : DataFrame) (c : string) (vals : list value) :
  set_column df c vals = inr df' ->
  length vals = length (rows df) /\
  column_values df' c = vals /\
  (forall c', c' <> c -> column_values df' c' = column_values df c') /\
  index df' = index df /\
  has_column df' c = true /\
  (forall c', has_column df c' = true -> has_column df' c' = true).
Proof.
  unfold set_column.
  destruct (Nat.eqb_spec (length vals) (length (rows df))) as [Hl | Hl]; [| discriminate].
  intros H; injection H as <-.
  unfold column_values, index, has_column; simpl.
  split; [assumption |]. split; [| split; [| split; [| split]]].
  - rewrite map_map; simpl. rewrite String.eqb_refl.
    apply map_snd_combine. lia.
  - intros c' Hc. rewrite map_map; simpl.
    apply String.eqb_neq in Hc. rewrite Hc.
    rewrite <- (map_map fst (fun r => cells r c')).
    rewrite map_fst_combine by lia. reflexivity.
  - rewrite map_map; simpl.
    rewrite <- (map_map fst label).
    rewrite map_fst_combine by lia. reflexivity.
  - destruct (existsb (String.eqb c) (columns df)) eqn:E; [exact E |].
    rewrite existsb_app; simpl. rewrite String.eqb_refl. apply orb_true_r.
  - intros c' Hc.
    destruct (existsb (String.eqb c) (columns df)); [exact Hc |].
    rewrite existsb_app, Hc. reflexivity.
Qed.

Lemma column_values_length (df : DataFrame) (c : string) :
  length (column_values df c) = length (rows df).
Proof. apply length_map. Qed.

Lemma index_length (df : DataFrame) : length (index df) = length (rows df).
Proof. apply length_map. Qed.

Lemma set_column_rows_length (df df' : DataFrame) (c : string) (vals : list value) :
  set_column df c vals = inr df' -> length (rows df') = length (rows df).
Proof.
  intros H. apply set_column_inr in H as (Hl & Hc & _).
  rewrite <- (column_values_length df' c), Hc. exact Hl.
Qed.

(** ** The preparation of the table *)

(** The dates the windows are anchored on: the [date] column when the table
    has one, the index otherwise. *)
Definition dates_of (df : DataFrame) : list value :=
  if has_column df "date" then column_values df "date" else index df.

(** [df'] has the rows of [df], in the same order and under the same labels,
    with the same cells outside the columns [cs], and at least its columns. *)
Definition same_outside (cs : list string) (df df' : DataFrame) : Prop :=
  length (rows df') = length (rows df) /\
  index df' = index df /\
  (forall c, ~ In c cs -> column_values df' c = column_values df c) /\
  (forall c, has_column df c = true -> has_column df' c = true).

Lemma same_outside_refl (cs : list string) (df : DataFrame) : same_outside cs df df.
Proof. repeat split; auto. Qed.

Lemma same_outside_trans (cs : list string) (df1 df2 df3 : DataFrame) :
  same_outside cs df1 df2 -> same_outside cs df2 df3 -> same_outside cs df1 df3.
Proof.
  intros (L1 & I1 & C1 & H1) (L2 & I2 & C2 & H2). repeat split.
  - congruence.
  - congruence.
  - intros c Hc. rewrite C2, C1; auto.
  - auto.
Qed.

Lemma same_outside_weaken (cs cs' : list string) (df df' : DataFrame) :
  (forall c, In c cs -> In c cs') -> same_outside cs df df' -> same_outside cs' df df'.
Proof. intros Hsub (L & I & C & H). repeat split; auto. Qed.

Lemma set_column_same_outside (df df' : DataFrame) (c : string) (vals : list value) :
  set_column df c vals = inr df' -> same_outside [c] df df'.
Proof.
  intros H. pose proof (set_column_rows_length _ _ _ H) as Hl.
  apply set_column_inr in H as (_ & _ & Hc & Hi & _ & Hh).
  repeat split; auto.
  intros c' Hin. apply Hc. intros ->. apply Hin. left; reflexivity.
Qed.

Section Preparation.
Context {env : Collaborators}.

Lemma read_column_inr (c : string) (df df' : DataFrame) (vals : list value) :
  read_column c df = (inr vals, df') ->
  df' = df /\ has_column df c = true /\ vals = column_values df c.
Proof.
  unfold read_column. intros H. run_inv H. subst.
  unfold get_column in E0. destruct (has_column df c); [| discriminate].
  injection E0 as <-. auto.
Qed.

Lemma write_column_inr (c : string) (vals : list value) (df df' : DataFrame) (u : unit) :
  write_column c vals df = (inr u, df') -> set_column df c vals = inr df'.
Proof. unfold write_column. intros H. run_inv H. subst. assumption. Qed.

Lemma ensure_date_inr (df df' : DataFrame) (u : unit) :
  ensure_date df = (inr u, df') ->
  same_outside ["date"] df df' /\
  has_column df' "date" = true /\
  column_values df' "date" = dates_of df.
Proof.
  unfold ensure_date, dates_of. intros H.
  apply bind_inr in H as (d & s & Hg & H). apply get_inr in Hg as (-> & ->).
  destruct (has_column df "date") eqn:Hd.
  - apply ret_inr in H as (_ & ->). split; [apply same_outside_refl | auto].
  - apply write_column_inr in H.
    split; [eapply set_column_same_outside; eauto |].
    apply set_column_inr in H as (_ & Hc & _ & _ & Hh & _). auto.
Qed.

Lemma scale_columns_inr (feature_columns : list string) (cs cs' : list (string * scaler))
      (df df' : DataFrame) :
  scale_columns feature_columns cs df = (inr cs', df') ->
  same_outside feature_columns df df'.
Proof.
  revert cs df; induction feature_columns as [| c rest IH]; intros cs df H; simpl in H.
  - apply ret_inr in H as (_ & ->). apply same_outside_refl.
  - apply bind_inr in H as (vals & s1 & Hr & H).
    apply read_column_inr in Hr as (-> & _ & _).
    apply bind_inr in H as ([sc scaled] & s2 & Hf & H).
    apply lift_inr in Hf as (_ & ->).
    apply bind_inr in H as (u & s3 & Hw & H).
    apply write_column_inr in Hw. apply IH in H.
    eapply same_outside_trans.
    + eapply same_outside_weaken; [| eapply set_column_same_outside; eauto].
      intros x [<- | []]. left; reflexivity.
    + eapply same_outside_weaken; [| exact H]. intros x Hx. right; assumption.
Qed.

(** A successful [add_future]: the copy kept for the caller is the table as
    it came in; the table itself keeps its rows, has a [date] column and a
    [future] column, and the [future] of a row is the primary feature
    [lookup_step] rows further down, as the table now holds it. *)
Lemma add_future_inr (scale : bool) (lookup_step : nat) (feature_columns : list string)
      (df df1 result_df : DataFrame) (cs : option (list (string * scaler))) :
  add_future scale lookup_step feature_columns df = (inr (result_df, cs), df1) ->
  result_df = df /\
  assert_columns df feature_columns = inr tt /\
  same_outside ("date" :: "future" :: feature_columns) df df1 /\
  has_column df1 "date" = true /\
  has_column df1 "future" = true /\
  has_column df1 "adjclose" = true /\
  column_values df1 "future" = shift_back lookup_step (column_values df1 "adjclose") /\
  (~ In "date" feature_columns -> column_values df1 "date" = dates_of df).
Proof.
  unfold add_future. intros H.
  apply bind_inr in H as (d & s & Hg & H). apply get_inr in Hg as (-> & ->).
  apply bind_inr in H as ([] & s & Ha & H). apply lift_inr in Ha as (Ha & ->).
  apply bind_inr in H as ([] & df_d & Hd & H).
  apply ensure_date_inr in Hd as (Sd & Hdate & Hdates).
  apply bind_inr in H as (cs0 & df_s & Hs & H).
  assert (Ss : same_outside feature_columns df_d df_s).
  { destruct scale.
    - apply bind_inr in Hs as (cs1 & s1 & Hs & Hr). apply ret_inr in Hr as (_ & ->).
      eapply scale_columns_inr; eauto.
    - apply ret_inr in Hs as (_ & ->). apply same_outside_refl. }
  clear Hs.
  apply bind_inr in H as (adj & s & Hr & H).
  apply read_column_inr in Hr as (-> & Hadj & ->).
  apply bind_inr in H as ([] & df_f & Hw & H).
  apply write_column_inr in Hw.
  apply ret_inr in H as (E & Es). subst df_f. injection E as -> ->.
  pose proof (set_column_same_outside _ _ _ Hw) as Sf.
  apply set_column_inr in Hw as (_ & Hfut & Hother & _ & Hhas & Hmono).
  assert (Hadjcol : column_values df1 "adjclose" = column_values df_s "adjclose")
    by (apply Hother; discriminate).
  destruct Ss as (Ls & Is & Cs & Hs). destruct Sd as (Ld & Id & Cd & Hd).
  destruct Sf as (Lf & If & Cf & Hf).
  split; [reflexivity |]. split; [destruct (assert_columns df feature_columns) as [|[]]; congruence|].
  split; [| split; [| split; [| split; [| split]]]].
  - repeat split; try congruence.
    + intros c Hc. simpl in Hc.
      rewrite Cf, Cs, Cd; auto; intros Hin; apply Hc; simpl in Hin; tauto.
    + auto.
  - auto.
  - assumption.
  - auto.
  - rewrite Hadjcol. exact Hfut.
  - intros Hnd. rewrite Cf, Cs; auto. intros [E | []]; discriminate.
Qed.

(** A successful [prepare] is a successful [add_future] followed by [dropna]. *)
Lemma prepare_inr (scale : bool) (lookup_step : nat) (feature_columns : list string)
      (df df' result_df : DataFrame) (cs : option (list (string * scaler)))
      (last_rows : list (list value)) :
  prepare scale lookup_step feature_columns df = (inr (result_df, cs, last_rows), df') ->
  exists df1,
    add_future scale lookup_step feature_columns df = (inr (result_df, cs), df1) /\
    last_rows = tail lookup_step (frame_values df1 feature_columns) /\
    df' = dropna df1.
Proof.
  unfold prepare. intros H.
  apply bind_inr in H as ([rdf cs0] & df1 & Ha & H).
  apply bind_inr in H as (d & s & Hg & H). apply get_inr in Hg as (-> & ->).
  apply bind_inr in H as ([] & s & Hp & H). apply put_inr in Hp. subst s.
  apply ret_inr in H as (E & ->). injection E as -> -> ->.
  exists df1. auto.
Qed.

Lemma prepare_of_add_future (scale : bool) (lookup_step : nat)
      (feature_columns : list string) (df : DataFrame) :
  prepare scale lookup_step feature_columns df
  = match add_future scale lookup_step feature_columns df with
    | (inl e, df1) => (inl e, df1)
    | (inr (result_df, cs), df1) =>
        (inr (result_df, cs, tail lookup_step (frame_values df1 feature_columns)),
         dropna df1)
    end.
Proof.
  unfold prepare, bind.
  destruct (add_future scale lookup_step feature_columns df) as [[e | [rdf cs]] df1];
    reflexivity.
Qed.

End Preparation.

(** ** A missing feature column *)

Definition missing_column_message (col : string) : string :=
  String.append "'" (String.append col "' does not exist in the dataframe.").

Lemma assert_columns_missing (df : DataFrame) (feature_columns : list string) :
  (exists c, In c feature_columns /\ has_column df c = false) ->
  exists c, In c feature_columns /\ has_column df c = false /\
            assert_columns df feature_columns
            = inl (AssertionError (missing_column_message c)).
Proof.
  induction feature_columns as [| col rest IH]; intros (c & Hin & Hc).
  - destruct Hin.
  - simpl. destruct (has_column df col) eqn:Hcol.
    + destruct Hin as [-> | Hin]; [congruence |].
      destruct IH as (c' & Hin' & Hc' & E); [eauto |].
      exists c'. split; [right; assumption | auto].
    + exists col. split; [left; reflexivity | auto].
Qed.

(** C8. When a requested feature column is not a column of the table,
    [load_data] raises at once the assertion error that names it: it returns
    no dataset, and neither the table nor the generator has been touched. *)
Theorem missing_feature_column_fails
        {env : Collaborators} (ticker : PyObj) (df : DataFrame)
        (n_steps : nat) (scale shuffle_ : bool) (lookup_step : nat)
        (split_by_date : bool) (test_size : float) (feature_columns : list string)
        (g : rng) :
  bind_df ticker = inr df ->
  (exists c, In c feature_columns /\ has_column df c = false) ->
  exists c, In c feature_columns /\ has_column df c = false /\
    load_data ticker n_steps scale shuffle_ lookup_step split_by_date test_size
              feature_columns g
    = (inl (AssertionError (missing_column_message c)), ticker, g).
Proof.
  intros Hdf Hmiss.
  destruct (assert_columns_missing df feature_columns Hmiss) as (c & Hin & Hc & E).
  exists c. split; [assumption |]. split; [assumption |].
  unfold load_data. rewrite Hdf.
  unfold load_frame, build, on_df, prepare, add_future, bind, get, lift. simpl.
  rewrite E. simpl.
  destruct ticker as [s | d |]; simpl in *; try reflexivity.
  - injection Hdf as ->. reflexivity.
Qed.

Lemma missing_feature_column_fails_witness :
  exists c, In c ("not_a_real_column" :: Demo.features) /\
    has_column (Demo.prices 10) c = false /\
    load_data (env := Demo.collaborators) (PFrame (Demo.prices 10)) 5 true true 1 true
              0.5%float ("not_a_real_column" :: Demo.features) 314%Z
    = (inl (AssertionError (missing_column_message c)), PFrame (Demo.prices 10), 314%Z).
Proof.
  apply (@missing_feature_column_fails Demo.collaborators (PFrame (Demo.prices 10))
           (Demo.prices 10) 5 true true 1 true 0.5%float
           ("not_a_real_column" :: Demo.features) 314%Z).
  - reflexivity.
  - exists "not_a_real_column". split; [left; reflexivity | reflexivity].
Defined.

(** ** Arrays *)

Lemma reshape0_shape {A} (sh : list nat) (d : list (list (list A))) :
  tl (shape (reshape0 sh d)) = tl sh /\ length (shape (reshape0 sh d)) = length sh.
Proof. destruct sh; simpl; auto. Qed.

Lemma np_array_shape {A} (l : list (list (list A))) (b c : nat) :
  tl (shape (np_array l)) = [b; c] ->
  exists r s l', l = (r :: s) :: l'.
Proof.
  destruct l as [| [| r s] l']; simpl; intros H; try discriminate. eauto.
Qed.

Lemma last_of_last_inr {A} (X : ndarray A) (dates : list A) :
  last_of_last X = inr dates ->
  (exists a b c, shape X = [a; S b; S c]) /\ length dates = length (data X).
Proof.
  unfold last_of_last.
  destruct (shape X) as [| a [| [| b] [| [| c] [| ? ?]]]]; try discriminate.
  intros H. apply map_exn_length in H. split; eauto.
Qed.

Lemma truncate_rows_inr {A} (k : nat) (X : ndarray A) (d : list (list (list A))) :
  truncate_rows k X = inr d -> length d = length (data X).
Proof.
  unfold truncate_rows.
  destruct (shape X) as [| a [| b [| c [| ? ?]]]]; try discriminate.
  intros H. injection H as <-. apply length_map.
Qed.

Lemma arr_take_inr {A} (X X' : ndarray A) (idx : list Z) :
  arr_take X idx = inr X' ->
  take (data X) idx = inr (data X') /\ tl (shape X') = tl (shape X) /\
  length (data X') = length idx.
Proof.
  unfold arr_take. intros H. apply map_result_inr in H as (d & Hd & ->).
  split; [exact Hd |]. split; [apply reshape0_shape | apply (take_length _ _ Hd)].
Qed.

(** ** The split *)

Section SplitFacts.
Context {env : Collaborators}.

Lemma with_rng_inr {A} (f : rng -> A * rng) (w w' : World) (a : A) :
  with_rng f w = (inr a, w') ->
  a = fst (f (w_rng w)) /\ w_df w' = w_df w /\ w_rng w' = snd (f (w_rng w)).
Proof.
  unfold with_rng. destruct (f (w_rng w)) as [a0 g]. intros H.
  injection H as <- <-. auto.
Qed.

Lemma with_rng_exn_inr {A} (f : rng -> (exn + A) * rng) (w w' : World) (a : A) :
  with_rng_exn f w = (inr a, w') ->
  f (w_rng w) = (inr a, w_rng w') /\ w_df w' = w_df w.
Proof.
  unfold with_rng_exn. destruct (f (w_rng w)) as [r g]. intros H.
  injection H as -> <-. auto.
Qed.

Lemma shuffle_in_unison_lengths {A B} (a : list A) (b : list B) (g : rng) :
  length (fst (fst (shuffle_in_unison a b g))) = length a /\
  length (snd (fst (shuffle_in_unison a b g))) = length b.
Proof.
  unfold shuffle_in_unison.
  pose proof (shuffle_length a g). pose proof (shuffle_length b g).
  destruct (shuffle a g), (shuffle b g). simpl in *. auto.
Qed.

(** The chronological split: the two parts are the windows before and from
    position [slice_bound train_samples], each possibly shuffled in unison
    with its targets. *)
Lemma split_by_position_inr (X X_train X_test : ndarray value)
      (y y_train y_test : list value) (test_size : float) (shuffle_ : bool)
      (w w' : World) :
  split_by_position X y test_size shuffle_ w = (inr (X_train, X_test, y_train, y_test), w') ->
  exists k, train_samples test_size (len X) = inr k /\
    w_df w' = w_df w /\
    tl (shape X_train) = tl (shape X) /\ tl (shape X_test) = tl (shape X) /\
    length (data X_train) = slice_bound k (len X) /\
    length (data X_test) = len X - slice_bound k (len X) /\
    length y_train = slice_bound k (length y) /\
    length y_test = length y - slice_bound k (length y) /\
    (shuffle_ = false ->
     data X_train = slice_to k (data X) /\ data X_test = slice_from k (data X) /\
     y_train = slice_to k y /\ y_test = slice_from k y /\ w' = w).
Proof.
  unfold split_by_position. intros H.
  apply bind_inr in H as (k & s & Hk & H). apply lift_inr in Hk as (Hk & ->).
  exists k. split; [assumption |].
  destruct shuffle_.
  - apply bind_inr in H as ([Xd ytr] & w1 & H1 & H).
    apply bind_inr in H as ([Xe yte] & w2 & H2 & H).
    apply ret_inr in H as (E & ->). injection E as -> -> -> ->.
    apply with_rng_inr in H1 as (E1 & D1 & _).
    apply with_rng_inr in H2 as (E2 & D2 & _).
    match type of E1 with _ = fst (shuffle_in_unison ?a ?b ?g) =>
      destruct (shuffle_in_unison_lengths a b g) as (La & Lb) end.
    match type of E2 with _ = fst (shuffle_in_unison ?a ?b ?g) =>
      destruct (shuffle_in_unison_lengths a b g) as (La' & Lb') end.
    rewrite <- E1 in La, Lb. rewrite <- E2 in La', Lb'.
    unfold arr_slice_to, arr_slice_from in *.
    cbn [fst snd data reshape0] in *.
    rewrite slice_to_length in La. rewrite slice_to_length in Lb.
    rewrite slice_from_length in La'. rewrite slice_from_length in Lb'.
    split; [congruence |].
    split; [destruct (shape X); reflexivity |].
    split; [destruct (shape X); reflexivity |].
    unfold len. repeat split; auto; discriminate.
  - apply ret_inr in H as (E & ->). injection E as -> -> -> ->.
    unfold arr_slice_to, arr_slice_from, len. simpl.
    rewrite !slice_to_length, !slice_from_length.
    split; [reflexivity |].
    split; [destruct (shape X); reflexivity |].
    split; [destruct (shape X); reflexivity |].
    repeat split; auto.
Qed.

(** The random split: both arrays are read through the same positions. *)
Lemma train_test_split_inr {A B} (X X_train X_test : ndarray A)
      (y y_train y_test : list B) (test_size : float) (shuffle_ : bool) (g g' : rng) :
  train_test_split X y test_size shuffle_ g = (inr (X_train, X_test, y_train, y_test), g') ->
  exists train test,
    len X = length y /\
    split_indices (len X) test_size shuffle_ g = (inr (train, test), g') /\
    take (data X) train = inr (data X_train) /\
    take (data X) test = inr (data X_test) /\
    take y train = inr y_train /\ take y test = inr y_test /\
    tl (shape X_train) = tl (shape X) /\ tl (shape X_test) = tl (shape X).
Proof.
  unfold train_test_split.
  destruct (Nat.eqb_spec (len X) (length y)) as [Hl | Hl]; simpl; [| discriminate].
  destruct (split_indices (len X) test_size shuffle_ g) as [[e | [train test]] g1];
    [discriminate |].
  destruct (arr_take X train) as [e | Xtr] eqn:E1; [discriminate |].
  destruct (arr_take X test) as [e | Xte] eqn:E2; [discriminate |].
  destruct (take y train) as [e | ytr] eqn:E3; [discriminate |].
  destruct (take y test) as [e | yte] eqn:E4; [discriminate |].
  intros H. injection H as -> -> -> -> ->.
  apply arr_take_inr in E1 as (T1 & S1 & _).
  apply arr_take_inr in E2 as (T2 & S2 & _).
  exists train, test. repeat split; auto.
Qed.

(** In every successful split the windows and the targets of a part are as
    many, and the parts keep the trailing dimensions of [X]. *)
Lemma split_inr (X X_train X_test : ndarray value) (y y_train y_test : list value)
      (split_by_date : bool) (test_size : float) (shuffle_ : bool) (w w' : World) :
  len X = length y ->
  split X y split_by_date test_size shuffle_ w
  = (inr (X_train, X_test, y_train, y_test), w') ->
  w_df w' = w_df w /\
  tl (shape X_train) = tl (shape X) /\ tl (shape X_test) = tl (shape X) /\
  length (data X_train) = length y_train /\
  length (data X_test) = length y_test.
Proof.
  intros Hl. unfold split. destruct split_by_date; intros H.
  - apply split_by_position_inr in H
      as (k & _ & Hw & S1 & S2 & L1 & L2 & L3 & L4 & _).
    rewrite <- Hl in L3, L4. repeat split; auto; congruence.
  - apply with_rng_exn_inr in H as (H & Hw).
    apply train_test_split_inr in H
      as (train & test & _ & _ & T1 & T2 & T3 & T4 & S1 & S2).
    apply take_length in T1, T2, T3, T4.
    repeat split; auto; congruence.
Qed.

End SplitFacts.

(** ** Successful runs of [load_data] *)

Section Runs.
Context {env : Collaborators}.

Lemma on_df_inr {A} (m : M DataFrame A) (w w' : World) (a : A) :
  on_df m w = (inr a, w') -> m (w_df w) = (inr a, w_df w') /\ w_rng w' = w_rng w.
Proof.
  unfold on_df. destruct (m (w_df w)) as [r df]. intros H.
  injection H as -> <-. auto.
Qed.

Lemma build_inr (n_steps : nat) (scale shuffle_ : bool) (lookup_step : nat)
      (split_by_date : bool) (test_size : float) (feature_columns : list string)
      (w w' : World) (b : Built) :
  build n_steps scale shuffle_ lookup_step split_by_date test_size feature_columns w
  = (inr b, w') ->
  exists df1 sd q,
    add_future scale lookup_step feature_columns (w_df w)
    = (inr (b_df b, b_column_scaler b), df1) /\
    windows n_steps feature_columns (dropna df1) = (sd, q) /\
    astype_rows (map (firstn (length feature_columns)) q
                 ++ tail lookup_step (frame_values df1 feature_columns))
    = inr (b_last_sequence b) /\
    split (np_array (map fst sd)) (map snd sd) split_by_date test_size shuffle_
          {| w_df := dropna df1; w_rng := w_rng w |}
    = (inr (b_X_train b, b_X_test b, b_y_train b, b_y_test b), w').
Proof.
  unfold build. intros H.
  apply bind_inr in H as ([[rdf cs] last_rows] & w1 & Hp & H).
  apply on_df_inr in Hp as (Hp & Hg1).
  apply prepare_inr in Hp as (df1 & Ha & -> & Hd).
  apply bind_inr in H as (d & w2 & Hg & H).
  apply on_df_inr in Hg as (Hg & Hg2). apply get_inr in Hg as (-> & Hw2).
  assert (Ew : w2 = {| w_df := dropna df1; w_rng := w_rng w |}).
  { destruct w2 as [d2 g2]; simpl in *. congruence. }
  subst w2. simpl in H. clear Hw2 Hg2.
  destruct (windows n_steps feature_columns (w_df w1)) as [sd q] eqn:Hwin.
  apply bind_inr in H as (ls & w3 & Hl & H). apply lift_inr in Hl as (Hl & ->).
  apply bind_inr in H as ([[[Xtr Xte] ytr] yte] & w4 & Hs & H).
  apply ret_inr in H as (-> & ->). simpl.
  rewrite Hd in *.
  exists df1, sd, q. auto.
Qed.

Lemma finish_inr (feature_columns : list string) (b : Built) (w w' : World) (r : Result) :
  finish feature_columns b w = (inr r, w') ->
  w' = w /\
  r_df r = b_df b /\ column_scaler r = b_column_scaler b /\
  last_sequence r = b_last_sequence b /\
  y_train r = b_y_train b /\ y_test r = b_y_test b /\
  length (X_train r) = len (b_X_train b) /\
  length (X_test r) = len (b_X_test b) /\
  (exists n s c, shape (b_X_test b) = [n; S s; S c]) /\
  map_exn astype_rows (map (map (firstn (length feature_columns))) (data (b_X_train b)))
  = inr (X_train r) /\
  map_exn astype_rows (map (map (firstn (length feature_columns))) (data (b_X_test b)))
  = inr (X_test r).
Proof.
  unfold finish. intros H.
  apply bind_inr in H as (dates & s1 & Hd & H). apply lift_inr in Hd as (Hd & ->).
  apply bind_inr in H as (tr & s1 & Ht & H). apply lift_inr in Ht as (Ht & ->).
  apply bind_inr in H as (X1 & s1 & H1 & H). apply lift_inr in H1 as (H1 & ->).
  apply bind_inr in H as (X2 & s1 & H2 & H). apply lift_inr in H2 as (H2 & ->).
  apply bind_inr in H as (X3 & s1 & H3 & H). apply lift_inr in H3 as (H3 & ->).
  apply bind_inr in H as (X4 & s1 & H4 & H). apply lift_inr in H4 as (H4 & ->).
  apply ret_inr in H as (-> & ->). simpl.
  apply last_of_last_inr in Hd as (Hsh & _).
  pose proof (truncate_rows_inr _ _ H1) as L1.
  pose proof (truncate_rows_inr _ _ H3) as L3.
  pose proof (map_exn_length _ _ H2) as L2.
  pose proof (map_exn_length _ _ H4) as L4.
  unfold truncate_rows in H1, H3.
  destruct (shape (b_X_train b)) as [| ? [| ? [| ? [| ? ?]]]]; try discriminate.
  destruct (shape (b_X_test b)) as [| ? [| ? [| ? [| ? ?]]]]; try discriminate.
  injection H1 as <-. injection H3 as <-.
  unfold len. repeat split; auto; congruence.
Qed.

(** A run of the stage before the end that cannot be completed: when the
    test windows are not a three-dimensional array, [finish] raises the
    [IndexError] of the anchor-date extraction. *)
Lemma finish_flat (feature_columns : list string) (b : Built) (w : World) :
  length (shape (b_X_test b)) <> 3 ->
  finish feature_columns b w = (inl (IndexError "too many indices for array"), w).
Proof.
  intros H. unfold finish, bind, lift, last_of_last.
  destruct (shape (b_X_test b)) as [| a [| b0 [| c [| ? ?]]]]; simpl in H;
    try congruence; try reflexivity.
  - destruct b0; reflexivity.
  - destruct b0; [reflexivity |]. destruct c; reflexivity.
Qed.

Lemma load_data_inr (ticker obj : PyObj) (n_steps : nat) (scale shuffle_ : bool)
      (lookup_step : nat) (split_by_date : bool) (test_size : float)
      (feature_columns : list string) (g g' : rng) (r : Result) :
  load_data ticker n_steps scale shuffle_ lookup_step split_by_date test_size
            feature_columns g = (inr r, obj, g') ->
  exists df w',
    bind_df ticker = inr df /\
    load_frame n_steps scale shuffle_ lookup_step split_by_date test_size
               feature_columns {| w_df := df; w_rng := g |} = (inr r, w') /\
    obj = match ticker with PFrame _ => PFrame (w_df w') | _ => ticker end /\
    g' = w_rng w'.
Proof.
  unfold load_data. destruct (bind_df ticker) as [e | df]; [discriminate |].
  destruct (load_frame _ _ _ _ _ _ _ _) as [o w'] eqn:E.
  intros H. injection H as -> <- <-. exists df, w'. auto.
Qed.

(** Everything a successful run of the body went through. *)
Lemma load_frame_inr (n_steps : nat) (scale shuffle_ : bool) (lookup_step : nat)
      (split_by_date : bool) (test_size : float) (feature_columns : list string)
      (w w' : World) (r : Result) :
  load_frame n_steps scale shuffle_ lookup_step split_by_date test_size
             feature_columns w = (inr r, w') ->
  exists df1 sd q b,
    add_future scale lookup_step feature_columns (w_df w)
    = (inr (r_df r, column_scaler r), df1) /\
    w_df w' = dropna df1 /\
    windows n_steps feature_columns (dropna df1) = (sd, q) /\
    astype_rows (map (firstn (length feature_columns)) q
                 ++ tail lookup_step (frame_values df1 feature_columns))
    = inr (last_sequence r) /\
    split (np_array (map fst sd)) (map snd sd) split_by_date test_size shuffle_
          {| w_df := dropna df1; w_rng := w_rng w |}
    = (inr (b_X_train b, b_X_test b, y_train r, y_test r), w') /\
    length (X_train r) = len (b_X_train b) /\
    length (X_test r) = len (b_X_test b) /\
    sd <> [] /\ 0 < n_steps /\
    map_exn astype_rows (map (map (firstn (length feature_columns))) (data (b_X_train b)))
    = inr (X_train r) /\
    map_exn astype_rows (map (map (firstn (length feature_columns))) (data (b_X_test b)))
    = inr (X_test r).
Proof.
  unfold load_frame. intros H.
  apply bind_inr in H as (b & w1 & Hb & Hf).
  apply finish_inr in Hf
    as (-> & E1 & E2 & E3 & E4 & E5 & L1 & L2 & (n & s & c & Hsh) & C1 & C2).
  apply build_inr in Hb as (df1 & sd & q & Ha & Hw & Hl & Hs).
  rewrite <- E1, <- E2 in Ha. rewrite <- E3 in Hl. rewrite <- E4, <- E5 in Hs.
  assert (Hlen : len (np_array (map fst sd)) = length (map snd sd))
    by (unfold len; simpl; rewrite !length_map; reflexivity).
  pose proof Hs as Hs'.
  apply split_inr in Hs' as (Hdf & _ & S2 & _ & _); [| exact Hlen].
  rewrite Hsh in S2. simpl in S2. symmetry in S2.
  apply np_array_shape in S2 as (row & s' & l' & Hsd).
  assert (Hne : sd <> []) by (intros ->; discriminate).
  assert (Hn : 0 < n_steps).
  { pose proof (window_fold_spec n_steps
                  (combine (frame_values (dropna df1) (feature_columns ++ ["date"]))
                           (column_values (dropna df1) "future"))) as (_ & Hall & _).
    unfold windows, window_loop in Hw. rewrite Hw in Hall. simpl in Hall.
    destruct sd as [| [s0 t0] sd']; [congruence |].
    apply Forall_inv in Hall. simpl in Hall, Hsd.
    injection Hsd as Hs0 _. subst s0. simpl in Hall. lia. }
  exists df1, sd, q, b. repeat split; auto.
Qed.

End Runs.

(** ** Rounding of the binary64 product in the random split

  scikit-learn takes [n_test = ceil(test_size * n_samples)] in binary64.  For
  [0 < test_size < 1] and fewer than [2^53] samples the rounded product does
  not exceed [n_samples], so the train part is not of negative size. *)

Section BinaryRounding.
Local Open Scope Z_scope.
Local Unset Implicit Arguments.

(** [digits2_pos] counts the binary digits. *)
Lemma digits2_size (p : positive) : digits2_pos p = Pos.size p.
Proof. induction p; simpl; congruence. Qed.

Lemma digits2_bounds (p : positive) :
  2 ^ (Zpos (digits2_pos p) - 1) <= Zpos p < 2 ^ Zpos (digits2_pos p).
Proof.
  rewrite digits2_size. split.
  - pose proof (Pos.size_le p) as H.
    assert (H' : (Zpos (2 ^ Pos.size p) <= Zpos p~0)) by exact H.
    rewrite Pos2Z.inj_pow in H'.
    replace (Zpos (Pos.size p)) with ((Zpos (Pos.size p) - 1) + 1) in H' by lia.
    rewrite Z.pow_add_r in H' by lia. lia.
  - pose proof (Pos.size_gt p) as H.
    assert (H' : (Zpos p < Zpos (2 ^ Pos.size p))) by exact H.
    rewrite Pos2Z.inj_pow in H'. exact H'.
Qed.

Lemma digits2_le (p : positive) (d : Z) : Zpos p < 2 ^ d -> Zpos (digits2_pos p) <= d.
Proof.
  intros H. destruct (digits2_bounds p) as (Hl & _).
  destruct (Z.le_gt_cases (Zpos (digits2_pos p)) d) as [|Hgt]; [assumption |].
  exfalso.
  assert (0 <= d \/ d < 0) as [Hd | Hd] by lia.
  - assert (2 ^ d <= 2 ^ (Zpos (digits2_pos p) - 1)) by (apply Z.pow_le_mono_r; lia). lia.
  - rewrite Z.pow_neg_r in H by assumption. lia.
Qed.

Lemma digits2_mul (p q : positive) :
  Zpos (digits2_pos (p * q)) <= Zpos (digits2_pos p) + Zpos (digits2_pos q).
Proof.
  apply digits2_le. rewrite Pos2Z.inj_mul, Z.pow_add_r by lia.
  destruct (digits2_bounds p) as (_ & Hp). destruct (digits2_bounds q) as (_ & Hq).
  nia.
Qed.

(** One shift to the right halves the mantissa of a rounding record. *)
Lemma shr_1_m (mrs : shr_record) :
  0 <= shr_m mrs -> shr_m (shr_1 mrs) = shr_m mrs / 2 /\ 0 <= shr_m (shr_1 mrs).
Proof.
  destruct mrs as [m r s]. simpl. intros Hm.
  destruct m as [| p | p]; [| | lia].
  - simpl. split; [reflexivity | lia].
  - destruct p as [p | p |]; simpl.
    + split; [| lia]. apply (Z.div_unique _ _ _ 1); lia.
    + split; [| lia]. apply (Z.div_unique _ _ _ 0); lia.
    + split; [reflexivity | lia].
Qed.

Lemma pow2_xO (p : positive) : 2 ^ Zpos p~0 = 2 ^ Zpos p * 2 ^ Zpos p.
Proof. rewrite <- Z.pow_add_r by lia. f_equal. lia. Qed.

Lemma pow2_xI (p : positive) : 2 ^ Zpos p~1 = 2 * (2 ^ Zpos p * 2 ^ Zpos p).
Proof.
  rewrite <- Z.pow_add_r by lia.
  replace (Zpos p~1) with (1 + (Zpos p + Zpos p)) by lia.
  rewrite Z.pow_add_r by lia. reflexivity.
Qed.

Lemma iter_shr_m (p : positive) (mrs : shr_record) :
  0 <= shr_m mrs ->
  shr_m (iter_pos shr_1 p mrs) = shr_m mrs / 2 ^ Zpos p /\
  0 <= shr_m (iter_pos shr_1 p mrs).
Proof.
  revert mrs. induction p as [p IH | p IH |]; intros mrs Hm; cbn [iter_pos].
  - destruct (shr_1_m mrs Hm) as (E1 & P1).
    destruct (IH _ P1) as (E2 & P2). destruct (IH _ P2) as (E3 & P3).
    split; [| assumption].
    assert (0 < 2 ^ Zpos p) by (apply Z.pow_pos_nonneg; lia).
    rewrite E3, E2, E1, !Z.div_div by lia.
    rewrite pow2_xI. f_equal; lia.
  - destruct (IH _ Hm) as (E2 & P2). destruct (IH _ P2) as (E3 & P3).
    split; [| assumption].
    assert (0 < 2 ^ Zpos p) by (apply Z.pow_pos_nonneg; lia).
    rewrite E3, E2, !Z.div_div by lia.
    rewrite pow2_xO. reflexivity.
  - apply shr_1_m. assumption.
Qed.

Lemma fexp_eq (e : Z) : fexp prec emax e = Z.max (e - 53) (-1074).
Proof. reflexivity. Qed.

Lemma shr_record_of_loc_m (m : Z) (l : location) : shr_m (shr_record_of_loc m l) = m.
Proof. destruct l as [| []]; reflexivity. Qed.

(** The alignment before rounding: the mantissa loses the [k] digits that
    do not fit the format, and nothing when [k = 0]. *)
Lemma shr_fexp_spec (m e : Z) (l : location) :
  0 <= m ->
  let k := Z.max 0 (fexp prec emax (Zdigits2 m + e) - e) in
  shr_m (fst (shr_fexp prec emax m e l)) = m / 2 ^ k /\
  snd (shr_fexp prec emax m e l) = e + k /\
  (k = 0 -> fst (shr_fexp prec emax m e l) = shr_record_of_loc m l).
Proof.
  intros Hm k. unfold shr_fexp, shr. subst k.
  destruct (fexp prec emax (Zdigits2 m + e) - e) as [| p | p]; cbn [fst snd].
  - rewrite shr_record_of_loc_m. rewrite Z.max_id. simpl (2 ^ 0).
    rewrite Z.div_1_r. repeat split; lia.
  - replace (Z.max 0 (Zpos p)) with (Zpos p) by lia.
    destruct (iter_shr_m p (shr_record_of_loc m l)) as (E & _);
      [rewrite shr_record_of_loc_m; assumption |].
    rewrite E, shr_record_of_loc_m. repeat split; lia.
  - replace (Z.max 0 (Zneg p)) with 0 by lia.
    rewrite shr_record_of_loc_m. simpl (2 ^ 0).
    rewrite Z.div_1_r. repeat split; lia.
Qed.

(** Rounding to nearest even adds at most one unit in the last place. *)
Lemma rne_bounds (mx : Z) (lx : location) :
  mx <= round_nearest_even mx lx <= mx + 1.
Proof. destruct lx as [| []]; simpl; try lia. destruct (Z.even mx); lia. Qed.

(** The rounded product does not exceed a bound that the exact product is
    strictly below, when the bound is a multiple of the unit in the last
    place of the result. *)
Lemma round_aux_bound (s s' : bool) (M m : positive) (E N eN e : Z) :
  let u := E + Z.max 0 (fexp prec emax (Zdigits2 (Zpos M) + E) - E) in
  u <= eN ->
  Zpos M < N * 2 ^ (eN - E) ->
  binary_round_aux prec emax s (Zpos M) E loc_Exact = S754_finite s' m e ->
  u <= e /\ Zpos m * 2 ^ (e - u) <= N * 2 ^ (eN - u).
Proof.
  intros u Hu HM. unfold binary_round_aux.
  pose proof (shr_fexp_spec (Zpos M) E loc_Exact) as S1.
  destruct (shr_fexp prec emax (Zpos M) E loc_Exact) as [mrs1 e1].
  cbn [fst snd] in S1. destruct S1 as (Hm1 & He1 & Hex1); [lia |].
  set (k1 := Z.max 0 (fexp prec emax (Zdigits2 (Zpos M) + E) - E)) in *.
  assert (Hk1 : 0 <= k1) by (unfold k1; lia).
  assert (He1u : e1 = u) by (unfold u; lia).
  set (m2 := round_nearest_even (shr_m mrs1) (loc_of_shr_record mrs1)).
  assert (Hm1pos : 0 <= shr_m mrs1).
  { rewrite Hm1. apply Z.div_pos; [lia | apply Z.pow_pos_nonneg; lia]. }
  assert (Hm2 : 0 <= m2 /\ m2 <= N * 2 ^ (eN - u)).
  { pose proof (rne_bounds (shr_m mrs1) (loc_of_shr_record mrs1)) as Hr. fold m2 in Hr.
    split; [lia |].
    destruct (Z.eq_dec k1 0) as [Hz | Hnz].
    - specialize (Hex1 Hz). unfold m2. rewrite Hex1. simpl.
      replace u with E by (unfold u; fold k1; lia). lia.
    - assert (Hlt : Zpos M / 2 ^ k1 < N * 2 ^ (eN - u)).
      { apply Z.div_lt_upper_bound; [apply Z.pow_pos_nonneg; lia |].
        replace (eN - E) with (k1 + (eN - u)) in HM by (unfold u; fold k1; lia).
        rewrite Z.pow_add_r in HM by lia. lia. }
      lia. }
  pose proof (shr_fexp_spec m2 e1 loc_Exact) as S2.
  destruct (shr_fexp prec emax m2 e1 loc_Exact) as [mrs2 e2].
  cbn [fst snd] in S2. destruct S2 as (Hm3 & He2 & _); [lia |].
  set (k2 := Z.max 0 (fexp prec emax (Zdigits2 m2 + e1) - e1)) in *.
  assert (Hk2 : 0 <= k2) by (unfold k2; lia).
  destruct (shr_m mrs2) as [| m3 | m3] eqn:E3; try discriminate.
  destruct (e2 <=? emax - prec); [| discriminate].
  intros H. injection H as _ <- <-.
  split; [lia |].
  replace (e2 - u) with k2 by lia.
  rewrite Hm3.
  assert (2 ^ k2 * (m2 / 2 ^ k2) <= m2)
    by (apply Z.mul_div_le; apply Z.pow_pos_nonneg; lia).
  lia.
Qed.

(** The ceiling of a number that is at most the integer [n] is at most [n]. *)
Lemma ceil_bound (m : positive) (e u eN n N : Z) :
  u <= e -> u <= eN -> eN <= 0 -> 0 <= n -> N = n * 2 ^ (- eN) ->
  Zpos m * 2 ^ (e - u) <= N * 2 ^ (eN - u) ->
  - Z.shiftl (- Zpos m) e <= n.
Proof.
  intros Hue HueN HeN Hn -> H.
  rewrite <- Z.mul_assoc, <- Z.pow_add_r in H by lia.
  replace (- eN + (eN - u)) with (- u) in H by lia.
  destruct (Z.le_gt_cases 0 e) as [He | He].
  - rewrite Z.shiftl_mul_pow2 by assumption.
    replace (e - u) with (e + - u) in H by lia.
    rewrite Z.pow_add_r, Z.mul_assoc in H by lia.
    apply Z.mul_le_mono_pos_r in H; [lia | apply Z.pow_pos_nonneg; lia].
  - rewrite Z.shiftl_div_pow2 by lia.
    assert (Hp : 0 < 2 ^ (- e)) by (apply Z.pow_pos_nonneg; lia).
    assert (Hq : - n <= - Zpos m / 2 ^ (- e)).
    { apply Z.div_le_lower_bound; [assumption |].
      replace (- u) with (- e + (e - u)) in H by lia.
      rewrite Z.pow_add_r, Z.mul_assoc in H by lia.
      apply Z.mul_le_mono_pos_r in H; [lia | apply Z.pow_pos_nonneg; lia]. }
    lia.
Qed.

Lemma iter_xO_spec (p k : positive) :
  Zpos (Pos.iter xO p k) = Zpos p * 2 ^ Zpos k /\
  Zpos (digits2_pos (Pos.iter xO p k)) = Zpos (digits2_pos p) + Zpos k.
Proof.
  induction k as [| k IH] using Pos.peano_ind.
  - simpl. split; lia.
  - rewrite Pos.iter_succ. destruct IH as (E1 & E2).
    cbn [digits2_pos]. rewrite Pos2Z.inj_xO, E1, !Pos2Z.inj_succ, E2.
    rewrite Z.pow_succ_r by lia. split; lia.
Qed.

(** [float(n)] is exact below [2^53]. *)
Lemma normalize_small (p : positive) :
  Zpos p < 2 ^ 53 ->
  exists mn en,
    binary_normalize prec emax (Zpos p) 0 false = S754_finite false mn en /\
    -52 <= en <= 0 /\
    Zpos mn = Zpos p * 2 ^ (- en) /\
    Zpos (digits2_pos mn) = 53 /\
    SpecFloat.valid_binary prec emax (S754_finite false mn en) = true.
Proof.
  intros Hp.
  pose proof (digits2_le p 53 Hp) as Hd.
  assert (Hd1 : 1 <= Zpos (digits2_pos p)) by lia.
  set (d := Zpos (digits2_pos p)) in *.
  assert (Hshl : exists mn,
             shl_align p 0 (fexp prec emax (d + 0)) = (mn, d - 53) /\
             Zpos mn = Zpos p * 2 ^ (53 - d) /\ Zpos (digits2_pos mn) = 53).
  { rewrite fexp_eq. replace (Z.max (d + 0 - 53) (-1074)) with (d - 53) by lia.
    unfold shl_align.
    destruct (d - 53 - 0) as [| k | k] eqn:Ek; [| lia |].
    - exists p. replace (d - 53) with 0 by lia. replace (53 - d) with 0 by lia.
      simpl (2 ^ 0). repeat split; [lia | fold d; lia].
    - exists (Pos.iter xO p k). destruct (iter_xO_spec p k) as (E1 & E2).
      replace (53 - d) with (Zpos k) by lia. fold d in E2. repeat split; [assumption | lia]. }
  destruct Hshl as (mn & Hshl & Hmn & Hdig).
  exists mn, (d - 53).
  assert (Hval : SpecFloat.valid_binary prec emax (S754_finite false mn (d - 53)) = true).
  { unfold SpecFloat.valid_binary, bounded, canonical_mantissa.
    rewrite Hdig, fexp_eq.
    replace (Z.max (53 + (d - 53) - 53) (-1074)) with (d - 53) by lia.
    rewrite Z.eqb_refl. cbn [andb]. apply Z.leb_le. change (emax - prec) with 971. lia. }
  split; [| split; [lia | split; [| split; assumption]]].
  - unfold binary_normalize, binary_round. fold d. rewrite Hshl.
    unfold binary_round_aux.
    assert (Hno : forall e1, e1 = d - 53 ->
              shr_fexp prec emax (Zpos mn) e1 loc_Exact
              = (shr_record_of_loc (Zpos mn) loc_Exact, e1)).
    { intros e1 ->.
      pose proof (shr_fexp_spec (Zpos mn) (d - 53) loc_Exact) as S.
      destruct (shr_fexp prec emax (Zpos mn) (d - 53) loc_Exact) as [mrs e'].
      cbn [fst snd] in S. destruct S as (_ & He & Hex); [lia |].
      assert (Hk : Z.max 0 (fexp prec emax (Zdigits2 (Zpos mn) + (d - 53)) - (d - 53)) = 0).
      { unfold Zdigits2. rewrite Hdig, fexp_eq. lia. }
      rewrite Hk in He. rewrite (Hex Hk). f_equal. lia. }
    rewrite (Hno _ eq_refl). cbn [shr_record_of_loc shr_m loc_of_shr_record
                                  round_nearest_even].
    rewrite (Hno _ eq_refl). cbn [shr_record_of_loc shr_m].
    assert (Hle : (d - 53 <=? emax - prec) = true)
      by (apply Z.leb_le; change (emax - prec) with 971; lia).
    rewrite Hle. reflexivity.
  - replace (- (d - 53)) with (53 - d) by lia. assumption.
Qed.

Lemma prim_zero : Prim2SF zero = S754_zero false.
Proof. reflexivity. Qed.

Lemma prim_one : Prim2SF one = S754_finite false 4503599627370496 (-52).
Proof. reflexivity. Qed.

(** A number that is neither [<= 0] nor [>= 1] is NaN or a positive number
    below one. *)

Lemma between_zero_and_one (t : float) :
  PrimFloat.leb t zero = false -> PrimFloat.leb one t = false ->
  Prim2SF t = S754_nan \/
  exists mt et, Prim2SF t = S754_finite false mt et /\ et < 0 /\ Zpos mt < 2 ^ (- et).
Proof.
  intros H0 H1.
  rewrite leb_spec in H0. rewrite leb_spec in H1.
  rewrite prim_zero in H0. rewrite prim_one in H1. revert H0 H1.
  pose proof (Prim2SF_valid t) as Hv.
  destruct (Prim2SF t) as [s | s | | s mt et]; intros H0 H1.
  - destruct s; discriminate.
  - destruct s; discriminate.
  - left; reflexivity.
  - right. destruct s; [discriminate |]. exists mt, et. split; [reflexivity |].
    unfold SpecFloat.valid_binary, bounded, canonical_mantissa in Hv.
    apply andb_true_iff in Hv as (Hc & _). apply Z.eqb_eq in Hc.
    rewrite fexp_eq in Hc.
    assert (Hdig : Zpos (digits2_pos mt) <= 53) by lia.
    destruct (digits2_bounds mt) as (_ & Hub).
    unfold SFleb, SFcompare in H1.
    destruct (Z.compare_spec (-52) et) as [Heq | Hlt | Hgt]; try discriminate.
    + subst et.
      destruct (Pos.compare_cont Eq 4503599627370496 mt) eqn:Hcmp; try discriminate.
      change (Pos.compare 4503599627370496 mt = Gt) in Hcmp.
      apply Pos.compare_gt_iff in Hcmp.
      split; [reflexivity |]. exact Hcmp.
    + split; [lia |].
      assert (2 ^ Zpos (digits2_pos mt) <= 2 ^ (- et)) by (apply Z.pow_le_mono_r; lia).
      lia.
Qed.

Lemma shiftl_nonneg_pos (m : positive) (e : Z) : 0 <= Z.shiftl (Zpos m) e.
Proof. apply Z.shiftl_nonneg. lia. Qed.

(** [ceil(test_size * n)] does not exceed [n] for [test_size] below one. *)
Lemma ceil_product_le (n : nat) (t : float) (k : Z) :
  Z.of_nat n < 2 ^ 53 ->
  PrimFloat.leb t zero = false -> PrimFloat.leb one t = false ->
  math_ceil (PrimFloat.mul t (float_of_nat n)) = inr k ->
  k <= Z.of_nat n.
Proof.
  intros Hn H0 H1. unfold math_ceil. rewrite mul_spec.
  destruct (between_zero_and_one t H0 H1) as [Hnan | (mt & et & Ht & Het & Hmt)].
  - rewrite Hnan. discriminate.
  - rewrite Ht. unfold float_of_nat.
    destruct (Z.of_nat n) as [| p | p] eqn:Hp; [| | lia].
    + cbn. intros H. injection H as <-. lia.
    + destruct (normalize_small p Hn) as (mn & en & Hnorm & Hen & Hmn & Hdig & Hval).
      rewrite Hnorm, (Prim2SF_SF2Prim _ Hval).
      unfold SF64mul. cbn [SFmul xorb].
      destruct (binary_round_aux prec emax false (Zpos (mt * mn)) (et + en) loc_Exact)
        as [s | s | | s m e] eqn:Hr; try discriminate.
      * cbv beta iota. intros H. injection H as <-. lia.
      * cbv beta iota. intros H. injection H as <-.
        destruct s.
        { cbn [cond_Zopp]. rewrite Z.opp_involutive.
          pose proof (shiftl_nonneg_pos m e). lia. }
        cbn [cond_Zopp].
        pose proof (digits2_le mt (- et) Hmt) as Hdt.
        pose proof (digits2_mul mt mn) as Hdm.
        assert (Hu : et + en + Z.max 0 (fexp prec emax (Zdigits2 (Zpos (mt * mn)) + (et + en))
                                        - (et + en)) <= en).
        { rewrite fexp_eq. unfold Zdigits2. lia. }
        assert (HM : Zpos (mt * mn) < Zpos mn * 2 ^ (en - (et + en))).
        { replace (en - (et + en)) with (- et) by lia. rewrite Pos2Z.inj_mul. nia. }
        destruct (round_aux_bound false false (mt * mn) m (et + en) (Zpos mn) en e Hu HM Hr) as (Hue & Hb).
        eapply ceil_bound with (N := Zpos mn) (eN := en); eauto; lia.
Qed.

End BinaryRounding.

(** ** The sizes of the random split *)

Lemma validate_shuffle_split_inr (n : nat) (test_size : float) (n_train n_test : Z) :
  validate_shuffle_split n test_size = inr (n_train, n_test) ->
  (n_train + n_test = Z.of_nat n)%Z /\ n_train <> 0%Z.
Proof.
  unfold validate_shuffle_split.
  destruct (_ || _); [discriminate |].
  destruct (math_ceil _) as [e | k]; [discriminate |].
  destruct (Z.eqb_spec (Z.of_nat n - k) 0); [discriminate |].
  intros H. injection H as <- <-. split; [lia | assumption].
Qed.

(** The train part scikit-learn computes is not of negative size. *)
Definition n_test_in_range (test_size : float) (n : nat) : Prop :=
  forall n_train n_test,
    validate_shuffle_split n test_size = inr (n_train, n_test) -> (0 <= n_train)%Z.

(** It holds for every array of fewer than [2^53] samples. *)
Lemma n_test_in_range_small (test_size : float) (n : nat) :
  (Z.of_nat n < 2 ^ 53)%Z -> n_test_in_range test_size n.
Proof.
  intros Hn n_train n_test. unfold validate_shuffle_split.
  destruct (PrimFloat.leb test_size zero) eqn:H0; [discriminate |].
  destruct (PrimFloat.leb one test_size) eqn:H1; [discriminate |].
  cbn [orb].
  destruct (math_ceil _) as [e | k] eqn:Hc; [discriminate |].
  pose proof (ceil_product_le n test_size k Hn H0 H1 Hc) as Hk.
  destruct (Z.eqb_spec (Z.of_nat n - k) 0); [discriminate |].
  intros H. injection H as <- <-. lia.
Qed.

Lemma arange_length (a b : Z) : length (arange a b) = Z.to_nat (b - a).
Proof. unfold arange. rewrite length_map, length_seq. reflexivity. Qed.

Lemma slice_length {A} (a b : Z) (x : list A) :
  length (slice a b x)
  = Nat.min (slice_bound b (length x) - slice_bound a (length x))
            (length x - slice_bound a (length x)).
Proof. unfold slice. rewrite length_firstn, length_skipn. reflexivity. Qed.

Lemma slice_bound_all (n : nat) : slice_bound (Z.of_nat n) n = n.
Proof. unfold slice_bound. destruct (Z.ltb_spec (Z.of_nat n) 0); lia. Qed.

Lemma take_arange_bound {A} (x x' : list A) (k : Z) :
  take x (arange 0 k) = inr x' -> (k <= Z.of_nat (length x))%Z.
Proof.
  intros H. apply map_exn_inr in H.
  destruct (Z.le_gt_cases k (Z.of_nat (length x))) as [Hle | Hgt]; [assumption |].
  exfalso.
  assert (Hin : In (Z.of_nat (length x)) (arange 0 k)).
  { unfold arange. apply in_map_iff. exists (length x). split; [lia |].
    apply in_seq. lia. }
  destruct (@Forall2_In_l _ _ _ _ _ _ H Hin) as (b & _ & Hb). unfold py_index in Hb.
  destruct (Z.ltb_spec (Z.of_nat (length x)) 0); [lia |].
  destruct (Z.leb_spec 0 (Z.of_nat (length x))); [| lia].
  destruct (Z.ltb_spec (Z.of_nat (length x)) (Z.of_nat (length x))); [lia |].
  discriminate.
Qed.

Section SplitSizes.
Context {env : Collaborators}.


End SplitSizes.

(** ** The windows of a prepared table *)

Lemma windows_spec (n_steps : nat) (feature_columns : list string) (df : DataFrame) :
  let entries := frame_values df (feature_columns ++ ["date"]) in
  snd (windows n_steps feature_columns df) = last_n n_steps entries /\
  Forall (fun p => length (fst p) = n_steps) (fst (windows n_steps feature_columns df)) /\
  (0 < n_steps ->
   length (fst (windows n_steps feature_columns df)) = length (rows df) + 1 - n_steps /\
   forall k s t, nth_error (fst (windows n_steps feature_columns df)) k = Some (s, t) ->
     s = firstn n_steps (skipn k entries) /\
     nth_error (column_values df "future") (k + n_steps - 1) = Some t).
Proof.
  intros entries. unfold windows, window_loop. fold entries.
  assert (Hl : length entries = length (column_values df "future"))
    by (unfold entries, frame_values, column_values; rewrite !length_map; reflexivity).
  pose proof (window_fold_spec n_steps (combine entries (column_values df "future")))
    as (Hq & Hall & Hpos).
  rewrite map_fst_combine in Hq, Hpos by assumption.
  rewrite map_snd_combine in Hpos by assumption.
  rewrite length_combine, <- Hl, Nat.min_id in Hpos.
  replace (length entries) with (length (rows df)) in Hpos
    by (unfold entries, frame_values; rewrite length_map; reflexivity).
  auto.
Qed.

Section Quantities.
Context {env : Collaborators}.

Lemma quantities_of_add_future (n_steps : nat) (scale : bool) (lookup_step : nat)
      (feature_columns : list string) (df df1 result_df : DataFrame)
      (cs : option (list (string * scaler))) :
  add_future scale lookup_step feature_columns df = (inr (result_df, cs), df1) ->
  prepared_table scale lookup_step feature_columns df = dropna df1 /\
  usable_rows scale lookup_step feature_columns df = length (rows (dropna df1)) /\
  sequence_data n_steps scale lookup_step feature_columns df
  = fst (windows n_steps feature_columns (dropna df1)).
Proof.
  intros H. unfold prepared_table, usable_rows, sequence_data.
  rewrite prepare_of_add_future, H. auto.
Qed.

(** The number of windows, whether the call goes through or not. *)
Lemma sequence_data_length (n_steps : nat) (scale : bool) (lookup_step : nat)
      (feature_columns : list string) (df : DataFrame) :
  0 < n_steps ->
  length (sequence_data n_steps scale lookup_step feature_columns df)
  = usable_rows scale lookup_step feature_columns df + 1 - n_steps.
Proof.
  intros Hn. unfold sequence_data, usable_rows.
  destruct (prepare scale lookup_step feature_columns df) as [[e | p] df'].
  - destruct n_steps; [lia | reflexivity].
  - apply (windows_spec n_steps feature_columns df'). assumption.
Qed.

End Quantities.

(** ** C1 and C10: the sizes of the splits *)

(** C10. In every dataset [load_data] returns, under both split policies and
    with or without shuffling, the train sequences are as many as the train
    targets and the test sequences as many as the test targets. *)
Theorem splits_length_consistent
        {env : Collaborators} (ticker obj : PyObj) (n_steps : nat) (scale shuffle_ : bool)
        (lookup_step : nat) (split_by_date : bool) (test_size : float)
        (feature_columns : list string) (g g' : rng) (r : Result) :
  load_data ticker n_steps scale shuffle_ lookup_step split_by_date test_size
            feature_columns g = (inr r, obj, g') ->
  length (X_train r) = length (y_train r) /\
  length (X_test r) = length (y_test r).
Proof.
  intros H.
  apply load_data_inr in H as (df & w' & _ & H & _ & _).
  apply load_frame_inr in H as (df1 & sd & q & b & _ & _ & _ & _ & Hs & L1 & L2 & _).
  apply split_inr in Hs as (_ & _ & _ & E1 & E2).
  - unfold len in L1, L2. split; congruence.
  - unfold len. simpl. rewrite !length_map. reflexivity.
Qed.



(** ** Runs of the builder on the tables of [Demo] *)

(** Twelve days, windows of three, random split of a quarter, shuffled. *)
Definition run_random_shuffled :=
  Eval vm_compute in
    load_data (env := Demo.collaborators) (PFrame (Demo.prices 12)) 3 true true 1 false
              0.25%float Demo.features 314%Z.

Lemma run_random_shuffled_eq :
  load_data (env := Demo.collaborators) (PFrame (Demo.prices 12)) 3 true true 1 false
            0.25%float Demo.features 314%Z = run_random_shuffled.
Proof. vm_cast_no_check (eq_refl run_random_shuffled). Qed.

(** The same, not shuffled. *)
Definition run_random_plain :=
  Eval vm_compute in
    load_data (env := Demo.collaborators) (PFrame (Demo.prices 12)) 3 true false 1 false
              0.25%float Demo.features 314%Z.

Lemma run_random_plain_eq :
  load_data (env := Demo.collaborators) (PFrame (Demo.prices 12)) 3 true false 1 false
            0.25%float Demo.features 314%Z = run_random_plain.
Proof. vm_cast_no_check (eq_refl run_random_plain). Qed.

Lemma splits_length_consistent_witness :
  exists r obj g',
    load_data (env := Demo.collaborators) (PFrame (Demo.prices 12)) 3 true true 1 false
              0.25%float Demo.features 314%Z = (inr r, obj, g') /\
    length (X_train r) = length (y_train r) /\
    length (X_test r) = length (y_test r).
Proof.
  pose proof run_random_shuffled_eq as E. unfold run_random_shuffled in E.
  eexists _, _, _. split; [exact E |].
  exact (@splits_length_consistent Demo.collaborators _ _ _ _ _ _ _ _ _ _ _ _ E).
Defined.


(** ** C2: the target of a window *)

(** The positions, in [l], of the items [filter p l] keeps. *)
Fixpoint positions {A} (p : A -> bool) (l : list A) : list nat :=
  match l with
  | [] => []
  | a :: l' => (if p a then [0] else []) ++ map S (positions p l')
  end.

(** The positions of the rows [dropna] keeps. *)
Definition kept_positions (df : DataFrame) : list nat :=
  positions (complete (columns df)) (rows df).

Lemma filter_positions {A} (p : A -> bool) (l : list A) (k : nat) (a : A) :
  nth_error (filter p l) k = Some a ->
  exists i, nth_error (positions p l) k = Some i /\ nth_error l i = Some a /\ p a = true.
Proof.
  revert k; induction l as [| x l IH]; intros k H; simpl in *.
  - destruct k; discriminate.
  - destruct (p x) eqn:Hp; simpl.
    + destruct k as [| k]; simpl in H.
      * injection H as <-. exists 0. auto.
      * destruct (IH _ H) as (i & Hi & Hl & Ha).
        exists (S i). simpl. rewrite nth_error_map, Hi. auto.
    + destruct (IH _ H) as (i & Hi & Hl & Ha).
      exists (S i). rewrite nth_error_map, Hi. auto.
Qed.

Lemma isna_NaN : isna NaN = true.
Proof. reflexivity. Qed.

Lemma shift_back_length (k : nat) (col : list value) :
  length (shift_back k col) = length col.
Proof. unfold shift_back. rewrite length_app, length_skipn, repeat_length. lia. Qed.

(** A [future] that is not missing is the value [k] rows further down. *)
Lemma shift_back_nth (k : nat) (col : list value) (i : nat) (v : value) :
  nth_error (shift_back k col) i = Some v -> isna v = false ->
  nth_error col (i + k) = Some v.
Proof.
  unfold shift_back. intros H Hv.
  destruct (Nat.lt_ge_cases i (length (skipn k col))) as [Hi | Hi].
  - rewrite nth_error_app1 in H by assumption.
    rewrite nth_error_skipn in H. rewrite Nat.add_comm. exact H.
  - rewrite nth_error_app2 in H by assumption.
    apply nth_error_In, repeat_spec in H. subst v.
    rewrite isna_NaN in Hv. discriminate.
Qed.

Lemma complete_cell (cs : list string) (r : Row) (c : string) :
  complete cs r = true -> In c cs -> isna (cells r c) = false.
Proof.
  unfold complete. intros H Hin. apply negb_true_iff in H.
  destruct (isna (cells r c)) eqn:E; [| reflexivity].
  assert (existsb (fun c0 => isna (cells r c0)) cs = true)
    by (apply existsb_exists; eauto).
  congruence.
Qed.

Lemma item_m1_window {A} (x : list A) (j n : nat) (a : A) :
  0 < n -> nth_error x (j + n - 1) = Some a ->
  item_m1 (firstn n (skipn j x)) = inr a.
Proof.
  intros Hn H. apply nth_error_split in H as (x1 & x2 & -> & Hl).
  rewrite skipn_app, firstn_app.
  replace (j - length x1) with 0 by lia. simpl skipn.
  rewrite length_skipn.
  rewrite (firstn_all2 (n := n) (skipn j x1)) by (rewrite length_skipn; lia).
  replace (n - (length x1 - j)) with 1 by lia. simpl.
  unfold item_m1. rewrite rev_app_distr. reflexivity.
Qed.

Section Targets.
Context {env : Collaborators}.

(** The table with its [future] column, before the incomplete rows go. *)
Definition table_with_future (scale : bool) (lookup_step : nat)
           (feature_columns : list string) (df : DataFrame) : DataFrame :=
  snd (add_future scale lookup_step feature_columns df).

(** In the table [add_future] leaves, a complete row at position [i] has as
    [future] the primary feature of the row at position [i + lookup_step]. *)
Lemma complete_row_future (scale : bool) (lookup_step : nat)
      (feature_columns : list string) (df df1 result_df : DataFrame)
      (cs : option (list (string * scaler))) (i : nat) (row : Row) :
  add_future scale lookup_step feature_columns df = (inr (result_df, cs), df1) ->
  nth_error (rows df1) i = Some row ->
  complete (columns df1) row = true ->
  nth_error (column_values df1 "adjclose") (i + lookup_step) = Some (cells row "future").
Proof.
  intros Ha Hi Hc.
  apply add_future_inr in Ha as (_ & _ & _ & _ & Hf & _ & Hfut & _).
  apply shift_back_nth.
  - rewrite <- Hfut. unfold column_values. rewrite nth_error_map, Hi. reflexivity.
  - eapply complete_cell; eauto. apply has_column_In. assumption.
Qed.

(** The content of an emitted pair: its window, the row its window ends on
    and its target. *)
Lemma emitted_pair_spec
        (n_steps : nat) (scale : bool) (lookup_step : nat)
        (feature_columns : list string) (df : DataFrame)
        (j : nat) (seq : list (list value)) (target : value) :
  0 < n_steps ->
  nth_error (sequence_data n_steps scale lookup_step feature_columns df) j
  = Some (seq, target) ->
  let df1 := table_with_future scale lookup_step feature_columns df in
  seq = firstn n_steps
          (skipn j (frame_values (prepared_table scale lookup_step feature_columns df)
                                 (feature_columns ++ ["date"]))) /\
  exists i row,
    nth_error (kept_positions df1) (j + n_steps - 1) = Some i /\
    nth_error (rows df1) i = Some row /\
    item_m1 seq = inr (row_values (feature_columns ++ ["date"]) row) /\
    nth_error (column_values df1 "adjclose") (i + lookup_step) = Some target.
Proof.
  intros Hn H df1. unfold table_with_future in df1.
  unfold sequence_data, prepared_table in *.
  rewrite prepare_of_add_future in *.
  destruct (add_future scale lookup_step feature_columns df)
    as [[e | [rdf cs]] d1] eqn:Ha; simpl in H, df1.
  - destruct j; discriminate.
  - subst df1. simpl.
    pose proof (windows_spec n_steps feature_columns (dropna d1)) as (_ & _ & Hpos).
    destruct (Hpos Hn) as (_ & Hnth). destruct (Hnth _ _ _ H) as (Hseq & Ht).
    split; [exact Hseq |].
    unfold column_values in Ht. rewrite nth_error_map in Ht.
    destruct (nth_error (rows (dropna d1)) (j + n_steps - 1)) as [row |] eqn:Hrow;
      [| discriminate].
    simpl in Ht. injection Ht as <-.
    simpl in Hrow. apply filter_positions in Hrow as (i & Hi & Hri & Hc).
    exists i, row. split; [exact Hi |]. split; [exact Hri |]. split.
    + rewrite Hseq. apply item_m1_window; [assumption |].
      unfold frame_values. rewrite nth_error_map. simpl.
      destruct (nth_error (filter (complete (columns d1)) (rows d1)) (j + n_steps - 1))
        as [row' |] eqn:E.
      * apply filter_positions in E as (i' & Hi' & Hri' & _).
        unfold kept_positions in Hi. rewrite Hi in Hi'. injection Hi' as <-.
        rewrite Hri in Hri'. injection Hri' as <-. reflexivity.
      * exfalso. apply nth_error_None in E.
        apply nth_error_in_range in Hi. unfold kept_positions in Hi.
        assert (length (positions (complete (columns d1)) (rows d1))
                = length (filter (complete (columns d1)) (rows d1))).
        { clear. induction (rows d1) as [| x l IH]; simpl; [reflexivity |].
          destruct (complete (columns d1) x); simpl; rewrite length_map; lia. }
        lia.
    + eapply complete_row_future; eauto.
Qed.


(** C2. Every emitted pair is a window of [n_steps] consecutive usable rows
    and the primary feature (as scaled) [lookup_step] rows after the window's
    last row: if that last row is row [i] of the table, the target is the
    [adjclose] cell of row [i + lookup_step]. *)
Theorem target_follows_last_row
        (n_steps : nat) (scale : bool) (lookup_step : nat)
        (feature_columns : list string) (df : DataFrame)
        (j : nat) (seq : list (list value)) (target : value) :
  0 < n_steps ->
  nth_error (sequence_data n_steps scale lookup_step feature_columns df) j
  = Some (seq, target) ->
  let df1 := table_with_future scale lookup_step feature_columns df in
  seq = firstn n_steps
          (skipn j (frame_values (prepared_table scale lookup_step feature_columns df)
                                 (feature_columns ++ ["date"]))) /\
  exists i row,
    nth_error (kept_positions df1) (j + n_steps - 1) = Some i /\
    nth_error (rows df1) i = Some row /\
    item_m1 seq = inr (row_values (feature_columns ++ ["date"]) row) /\
    nth_error (column_values df1 "adjclose") (i + lookup_step) = Some target.
Proof. apply emitted_pair_spec. Qed.

End Targets.

Definition demo_first_pair :=
  Eval vm_compute in
    nth_error (sequence_data (env := Demo.collaborators) 2 true 1 Demo.features
                             (Demo.prices 6)) 0.

Lemma demo_first_pair_eq :
  nth_error (sequence_data (env := Demo.collaborators) 2 true 1 Demo.features
                           (Demo.prices 6)) 0 = demo_first_pair.
Proof. vm_cast_no_check (eq_refl demo_first_pair). Qed.

Lemma target_follows_last_row_witness :
  exists seq target,
    0 < 2 /\
    nth_error (sequence_data (env := Demo.collaborators) 2 true 1 Demo.features
                             (Demo.prices 6)) 0 = Some (seq, target) /\
    let df1 := table_with_future (env := Demo.collaborators) true 1 Demo.features
                                 (Demo.prices 6) in
    seq = firstn 2
            (skipn 0 (frame_values
                        (prepared_table (env := Demo.collaborators) true 1 Demo.features
                                        (Demo.prices 6))
                        (Demo.features ++ ["date"]))) /\
    exists i row,
      nth_error (kept_positions df1) (0 + 2 - 1) = Some i /\
      nth_error (rows df1) i = Some row /\
      item_m1 seq = inr (row_values (Demo.features ++ ["date"]) row) /\
      nth_error (column_values df1 "adjclose") (i + 1) = Some target.
Proof.
  pose proof demo_first_pair_eq as E. unfold demo_first_pair in E.
  eexists _, _. split; [lia |]. split; [exact E |].
  apply (@target_follows_last_row Demo.collaborators 2 true 1 Demo.features
           (Demo.prices 6) 0); [lia | exact E].
Defined.

(** ** C3: the length of the last sequence *)

Lemma tail_length {A} (k : nat) (x : list A) : length (tail k x) = Nat.min k (length x).
Proof. unfold tail. rewrite length_skipn. lia. Qed.

(** C3, as the code has it. In every dataset [load_data] returns, the last
    sequence has [n_steps + lookup_step] rows: the [n_steps] rows left in the
    deque, then the [lookup_step] tail rows that have no future. *)
Theorem last_sequence_rows
        {env : Collaborators} (ticker obj : PyObj) (n_steps : nat) (scale shuffle_ : bool)
        (lookup_step : nat) (split_by_date : bool) (test_size : float)
        (feature_columns : list string) (g g' : rng) (r : Result) :
  load_data ticker n_steps scale shuffle_ lookup_step split_by_date test_size
            feature_columns g = (inr r, obj, g') ->
  length (last_sequence r) = n_steps + lookup_step.
Proof.
  intros H.
  apply load_data_inr in H as (df & w' & _ & H & _ & _).
  apply load_frame_inr in H as (df1 & sd & q & b & Ha & _ & Hw & Hl & _ & _ & _ & Hne & Hn & _).
  simpl in Ha.
  apply map_exn_length in Hl. rewrite Hl.
  rewrite length_app, length_map, tail_length.
  pose proof (windows_spec n_steps feature_columns (dropna df1)) as (Hq & _ & Hpos).
  destruct (Hpos Hn) as (Hsd & _). rewrite Hw in Hq, Hsd. cbn [fst snd] in Hq, Hsd.
  assert (Hrows : n_steps <= length (rows (dropna df1))).
  { destruct sd; [congruence | cbn [length] in Hsd; lia]. }
  rewrite Hq, last_n_length. unfold frame_values. rewrite !length_map.
  assert (Hk : lookup_step <= length (rows df1)).
  { destruct (nth_error (rows (dropna df1)) 0) as [row |] eqn:E;
      [| apply nth_error_None in E; lia].
    unfold dropna in E. cbn [rows] in E.
    apply filter_positions in E as (i & _ & Hi & Hc).
    pose proof Hc as Hf. eapply complete_row_future in Hf; [| exact Ha | exact Hi].
    apply nth_error_in_range in Hf. rewrite column_values_length in Hf. lia. }
  lia.
Qed.

(** Six days, windows of two, one day ahead, chronological split. *)
Definition run_small :=
  Eval vm_compute in
    load_data (env := Demo.collaborators) (PFrame (Demo.prices 6)) 2 true false 1 true
              0.2%float Demo.features 314%Z.

Lemma run_small_eq :
  load_data (env := Demo.collaborators) (PFrame (Demo.prices 6)) 2 true false 1 true
            0.2%float Demo.features 314%Z = run_small.
Proof. vm_cast_no_check (eq_refl run_small). Qed.

Lemma last_sequence_rows_witness :
  exists r obj g',
    load_data (env := Demo.collaborators) (PFrame (Demo.prices 6)) 2 true false 1 true
              0.2%float Demo.features 314%Z = (inr r, obj, g') /\
    length (last_sequence r) = 2 + 1.
Proof.
  pose proof run_small_eq as E. unfold run_small in E.
  eexists _, _, _. split; [exact E |].
  exact (@last_sequence_rows Demo.collaborators _ _ _ _ _ _ _ _ _ _ _ _ E).
Defined.

(** With [n_steps = 2] and [lookup_step = 1] the last sequence of a six-day
    table does not have [n_steps] rows. *)
Lemma last_sequence_rows_counterexample :
  exists r obj g',
    load_data (env := Demo.collaborators) (PFrame (Demo.prices 6)) 2 true false 1 true
              0.2%float Demo.features 314%Z = (inr r, obj, g') /\
    length (last_sequence r) <> 2.
Proof.
  pose proof run_small_eq as E. unfold run_small in E.
  eexists _, _, _. split; [exact E |].
  vm_compute. discriminate.
Qed.

(** ** C4: what becomes of the caller's table *)

Lemma dropna_columns (df : DataFrame) (c : string) :
  has_column (dropna df) c = has_column df c.
Proof. reflexivity. Qed.

(** C4, as the code has it. When the caller passes a table, [result['df']]
    is that table as it was passed in, and the caller's table itself is the
    one the preparation worked on: after a successful call it has a [date]
    and a [future] column and holds the usable rows only. *)
Theorem caller_table_after_load_data
        {env : Collaborators} (df : DataFrame) (obj : PyObj) (n_steps : nat)
        (scale shuffle_ : bool) (lookup_step : nat) (split_by_date : bool)
        (test_size : float) (feature_columns : list string) (g g' : rng) (r : Result) :
  load_data (PFrame df) n_steps scale shuffle_ lookup_step split_by_date test_size
            feature_columns g = (inr r, obj, g') ->
  r_df r = df /\
  obj = PFrame (prepared_table scale lookup_step feature_columns df) /\
  has_column (prepared_table scale lookup_step feature_columns df) "date" = true /\
  has_column (prepared_table scale lookup_step feature_columns df) "future" = true /\
  length (rows (prepared_table scale lookup_step feature_columns df))
  = usable_rows scale lookup_step feature_columns df.
Proof.
  intros H.
  apply load_data_inr in H as (df0 & w' & Hdf & H & -> & _).
  simpl in Hdf. injection Hdf as <-.
  apply load_frame_inr in H as (df1 & sd & q & b & Ha & Hw' & _).
  simpl in Ha.
  destruct (quantities_of_add_future n_steps _ _ _ _ Ha) as (Hp & Hu & _).
  apply add_future_inr in Ha as (Hr & _ & _ & Hd & Hf & _).
  rewrite Hp, Hu, Hw', !dropna_columns. auto.
Qed.

Lemma caller_table_after_load_data_witness :
  exists r obj g',
    load_data (env := Demo.collaborators) (PFrame (Demo.prices 6)) 2 true false 1 true
              0.2%float Demo.features 314%Z = (inr r, obj, g') /\
    r_df r = Demo.prices 6 /\
    obj = PFrame (prepared_table (env := Demo.collaborators) true 1 Demo.features
                                 (Demo.prices 6)) /\
    has_column (prepared_table (env := Demo.collaborators) true 1 Demo.features
                               (Demo.prices 6)) "date" = true /\
    has_column (prepared_table (env := Demo.collaborators) true 1 Demo.features
                               (Demo.prices 6)) "future" = true /\
    length (rows (prepared_table (env := Demo.collaborators) true 1 Demo.features
                                 (Demo.prices 6)))
    = usable_rows (env := Demo.collaborators) true 1 Demo.features (Demo.prices 6).
Proof.
  pose proof run_small_eq as E. unfold run_small in E.
  eexists _, _, _. split; [exact E |].
  exact (@caller_table_after_load_data Demo.collaborators _ _ _ _ _ _ _ _ _ _ _ _ E).
Defined.

(** The caller's six-day table of five columns comes back with seven columns
    and five rows. *)
Lemma caller_table_unchanged_counterexample :
  exists r df' g',
    load_data (env := Demo.collaborators) (PFrame (Demo.prices 6)) 2 true false 1 true
              0.2%float Demo.features 314%Z = (inr r, PFrame df', g') /\
    columns df' = ["open"; "high"; "low"; "adjclose"; "volume"; "date"; "future"] /\
    length (rows df') = 5 /\
    columns (Demo.prices 6) = ["open"; "high"; "low"; "adjclose"; "volume"] /\
    length (rows (Demo.prices 6)) = 6 /\
    PFrame df' <> PFrame (Demo.prices 6).
Proof.
  pose proof run_small_eq as E. unfold run_small in E.
  eexists _, _, _. split; [exact E |].
  split; [reflexivity |]. split; [reflexivity |].
  split; [reflexivity |]. split; [reflexivity |].
  intros Heq.
  apply (f_equal (fun o => match o with
                           | PFrame d => length (columns d)
                           | _ => 0
                           end)) in Heq.
  vm_compute in Heq. discriminate.
Qed.

(** ** C9: a table with fewer usable rows than a window *)

(** C9. When fewer than [n_steps] rows are usable, [load_data] returns no
    dataset, whatever the policy: it raises. No window has been emitted, the
    array of windows is one-dimensional, and a run that reaches the
    extraction of the test anchor dates raises its [IndexError] there. *)
Theorem undersized_table_fails
        {env : Collaborators} (ticker : PyObj) (df : DataFrame) (n_steps : nat)
        (scale shuffle_ : bool) (lookup_step : nat) (split_by_date : bool)
        (test_size : float) (feature_columns : list string) (g : rng) :
  bind_df ticker = inr df ->
  usable_rows scale lookup_step feature_columns df < n_steps ->
  (exists e, fst (fst (load_data ticker n_steps scale shuffle_ lookup_step split_by_date
                                 test_size feature_columns g)) = inl e) /\
  sequence_data n_steps scale lookup_step feature_columns df = [] /\
  forall b w',
    build n_steps scale shuffle_ lookup_step split_by_date test_size feature_columns
          {| w_df := df; w_rng := g |} = (inr b, w') ->
    finish feature_columns b w' = (inl (IndexError "too many indices for array"), w').
Proof.
  intros Hdf Hu.
  assert (Hn : 0 < n_steps) by lia.
  assert (Hsd : sequence_data n_steps scale lookup_step feature_columns df = []).
  { pose proof (sequence_data_length scale lookup_step feature_columns df Hn) as Hl.
    destruct (sequence_data n_steps scale lookup_step feature_columns df);
      [reflexivity | simpl in Hl; lia]. }
  assert (Hfin : forall b w',
             build n_steps scale shuffle_ lookup_step split_by_date test_size
                   feature_columns {| w_df := df; w_rng := g |} = (inr b, w') ->
             finish feature_columns b w'
             = (inl (IndexError "too many indices for array"), w')).
  { intros b w' Hb. apply finish_flat.
    apply build_inr in Hb as (df1 & sd & q & Ha & Hw & _ & Hs). simpl in Ha.
    destruct (quantities_of_add_future n_steps _ _ _ _ Ha) as (_ & _ & Hsd').
    rewrite Hsd, Hw in Hsd'. simpl in Hsd'. subst sd.
    apply split_inr in Hs as (_ & _ & S2 & _); [| reflexivity].
    simpl in S2. destruct (shape (b_X_test b)) as [| a [| ? ?]]; simpl in *;
      try discriminate; lia. }
  split; [| split; assumption].
  unfold load_data. rewrite Hdf. unfold load_frame, bind.
  destruct (build _ _ _ _ _ _ _ _) as [[e | b] w'] eqn:Hb.
  - exists e. reflexivity.
  - rewrite (Hfin _ _ eq_refl). eexists. reflexivity.
Qed.

Lemma undersized_table_fails_witness :
  bind_df (env := Demo.collaborators) (PFrame (Demo.prices 4)) = inr (Demo.prices 4) /\
  usable_rows (env := Demo.collaborators) true 1 Demo.features (Demo.prices 4) < 5 /\
  (exists e, fst (fst (load_data (env := Demo.collaborators) (PFrame (Demo.prices 4)) 5
                                 true true 1 true 0.2%float Demo.features 314%Z))
             = inl e) /\
  sequence_data (env := Demo.collaborators) 5 true 1 Demo.features (Demo.prices 4) = [] /\
  forall b w',
    build (env := Demo.collaborators) 5 true true 1 true 0.2%float Demo.features
          (@Build_World Demo.collaborators (Demo.prices 4) 314%Z) = (inr b, w') ->
    finish Demo.features b w' = (inl (IndexError "too many indices for array"), w').
Proof.
  assert (Hu : usable_rows (env := Demo.collaborators) true 1 Demo.features
                           (Demo.prices 4) < 5).
  { vm_compute. lia. }
  split; [reflexivity |]. split; [exact Hu |].
  apply (@undersized_table_fails Demo.collaborators (PFrame (Demo.prices 4))
           (Demo.prices 4) 5 true true 1 true 0.2%float Demo.features 314%Z).
  - reflexivity.
  - exact Hu.
Defined.

(** ** C5: the chronological split keeps the order of the dates *)

Lemma strongly_sorted_nth (l : list Z) (a b : nat) (x y : Z) :
  StronglySorted Z.lt l -> a < b ->
  nth_error l a = Some x -> nth_error l b = Some y -> (x < y)%Z.
Proof.
  intros Hs. revert a b. induction Hs as [| z l Hs IH Hall]; intros a b Hab Ha Hb.
  - destruct a; discriminate.
  - destruct b as [| b]; [lia |]. simpl in Hb.
    destruct a as [| a]; simpl in Ha.
    + injection Ha as <-. apply nth_error_In in Hb.
      rewrite Forall_forall in Hall. auto.
    + apply (IH a b); [lia | assumption | assumption].
Qed.

(** The positions [filter] keeps come in increasing order. *)
Lemma positions_increasing {A} (p : A -> bool) (l : list A) (a b i i' : nat) :
  a < b -> nth_error (positions p l) a = Some i -> nth_error (positions p l) b = Some i' ->
  i < i'.
Proof.
  revert a b i i'; induction l as [| x l IH]; intros a b i i' Hab Ha Hb; simpl in *.
  - destruct a; discriminate.
  - assert (Hshift : forall k j, nth_error (map S (positions p l)) k = Some j ->
                                 exists j0, j = S j0 /\ nth_error (positions p l) k = Some j0).
    { intros k j Hk. rewrite nth_error_map in Hk.
      destruct (nth_error (positions p l) k) as [j0 |]; [| discriminate].
      injection Hk as <-. eauto. }
    destruct (p x); simpl in Ha, Hb.
    + destruct b as [| b]; [lia |]. simpl in Hb.
      apply Hshift in Hb as (j' & -> & Hb).
      destruct a as [| a]; simpl in Ha.
      * injection Ha as <-. lia.
      * apply Hshift in Ha as (j & -> & Ha).
        assert (j < j') by (apply (IH a b); [lia | assumption | assumption]). lia.
    + apply Hshift in Ha as (j & -> & Ha). apply Hshift in Hb as (j' & -> & Hb).
      assert (j < j') by (apply (IH a b); assumption). lia.
Qed.

Lemma item_m1_snoc {A} (l : list A) (a : A) : item_m1 (l ++ [a]) = inr a.
Proof. unfold item_m1. rewrite rev_app_distr. reflexivity. Qed.

Lemma In_firstn_nth {A} (n : nat) (l : list A) (a : A) :
  In a (firstn n l) -> exists j, j < n /\ nth_error l j = Some a.
Proof.
  intros H. apply In_nth_error in H as (j & Hj).
  pose proof (nth_error_in_range _ _ Hj) as Hr. rewrite length_firstn in Hr.
  exists j. split; [lia |].
  rewrite <- (firstn_skipn n l). rewrite nth_error_app1; [assumption |].
  rewrite length_firstn. lia.
Qed.

Lemma In_skipn_nth {A} (n : nat) (l : list A) (a : A) :
  In a (skipn n l) -> exists j, n <= j /\ nth_error l j = Some a.
Proof.
  intros H. apply In_nth_error in H as (j & Hj).
  rewrite nth_error_skipn in Hj. exists (n + j). split; [lia | assumption].
Qed.

Section ChronologicalOrder.
Context {env : Collaborators}.

(** The anchor date of an emitted window is the date of the usable row it
    ends on, and later windows end on later rows of the table. *)
Lemma emitted_anchor (n_steps : nat) (scale : bool) (lookup_step : nat)
      (feature_columns : list string) (df : DataFrame) (ts : list Z)
      (j : nat) (seq : list (list value)) :
  0 < n_steps ->
  ~ In "date" feature_columns ->
  dates_of df = map VDate ts ->
  nth_error (map fst (sequence_data n_steps scale lookup_step feature_columns df)) j
  = Some seq ->
  exists i t,
    nth_error (kept_positions (table_with_future scale lookup_step feature_columns df))
              (j + n_steps - 1) = Some i /\
    nth_error ts i = Some t /\
    anchor_date seq = inr (VDate t).
Proof.
  intros Hn Hnd Hts Hj.
  rewrite nth_error_map in Hj.
  destruct (nth_error (sequence_data n_steps scale lookup_step feature_columns df) j)
    as [[s target] |] eqn:E; [| discriminate].
  simpl in Hj. injection Hj as ->.
  destruct (emitted_pair_spec _ _ _ _ _ Hn E) as (_ & i & row & Hi & Hrow & Hlast & _).
  unfold table_with_future in *.
  destruct (add_future scale lookup_step feature_columns df) as [[e | [rdf cs]] df1] eqn:Ha.
  - unfold sequence_data in E. rewrite prepare_of_add_future, Ha in E.
    destruct j; discriminate.
  - simpl in Hi, Hrow.
    apply add_future_inr in Ha as (_ & _ & _ & _ & _ & _ & _ & Hdate).
    specialize (Hdate Hnd). rewrite Hts in Hdate.
    assert (Hcell : nth_error (map VDate ts) i = Some (cells row "date")).
    { rewrite <- Hdate. unfold column_values. rewrite nth_error_map, Hrow. reflexivity. }
    rewrite nth_error_map in Hcell.
    destruct (nth_error ts i) as [t |] eqn:Et; [| discriminate].
    simpl in Hcell. injection Hcell as Hcell.
    exists i, t. split; [assumption |]. split; [assumption |].
    unfold anchor_date. rewrite Hlast.
    unfold row_values. rewrite map_app. simpl. rewrite item_m1_snoc. congruence.
Qed.

(** C5, as the code has it. The chronological split cuts by position and the
    code neither sorts the rows nor checks their dates: on a table whose dates
    increase strictly, without shuffling, every window of the train part is
    anchored on a date that precedes the anchor date of every window of the
    test part. *)
Theorem chronological_split_order
        (n_steps : nat) (scale : bool) (lookup_step : nat)
        (feature_columns : list string) (df : DataFrame) (ts : list Z)
        (test_size : float) (w w' : World)
        (X_train X_test : ndarray value) (y_train y_test : list value) :
  0 < n_steps ->
  ~ In "date" feature_columns ->
  dates_of df = map VDate ts ->
  StronglySorted Z.lt ts ->
  split (np_array (map fst (sequence_data n_steps scale lookup_step feature_columns df)))
        (map snd (sequence_data n_steps scale lookup_step feature_columns df))
        true test_size false w
  = (inr (X_train, X_test, y_train, y_test), w') ->
  forall s s', In s (data X_train) -> In s' (data X_test) ->
  exists t t',
    anchor_date s = inr (VDate t) /\ anchor_date s' = inr (VDate t') /\ (t < t')%Z.
Proof.
  intros Hn Hnd Hts Hsorted Hs s s' Hin Hin'.
  unfold split in Hs.
  apply split_by_position_inr in Hs as (k & _ & _ & _ & _ & _ & _ & _ & _ & Hplain).
  destruct (Hplain eq_refl) as (Htr & Hte & _). simpl in Htr, Hte.
  rewrite Htr in Hin. rewrite Hte in Hin'.
  unfold slice_to in Hin. unfold slice_from in Hin'.
  apply In_firstn_nth in Hin as (j & Hj & Hsj).
  apply In_skipn_nth in Hin' as (j' & Hj' & Hsj').
  destruct (emitted_anchor scale lookup_step feature_columns df ts j Hn Hnd Hts Hsj)
    as (i & t & Hi & Ht & Ha).
  destruct (emitted_anchor scale lookup_step feature_columns df ts j' Hn Hnd Hts Hsj')
    as (i' & t' & Hi' & Ht' & Ha').
  exists t, t'. split; [assumption |]. split; [assumption |].
  eapply strongly_sorted_nth; [exact Hsorted | | exact Ht | exact Ht'].
  unfold kept_positions in Hi, Hi'.
  eapply positions_increasing; [| exact Hi | exact Hi']. lia.
Qed.

End ChronologicalOrder.

(** The chronological split, not shuffled, of the nine windows of twelve days. *)
Definition demo_split :=
  Eval vm_compute in
    split (env := Demo.collaborators)
          (np_array (map fst (sequence_data (env := Demo.collaborators) 3 true 1
                                            Demo.features (Demo.prices 12))))
          (map snd (sequence_data (env := Demo.collaborators) 3 true 1
                                  Demo.features (Demo.prices 12)))
          true 0.25%float false
          (@Build_World Demo.collaborators (Demo.prices 12) 314%Z).

Lemma demo_split_eq :
  split (env := Demo.collaborators)
        (np_array (map fst (sequence_data (env := Demo.collaborators) 3 true 1
                                          Demo.features (Demo.prices 12))))
        (map snd (sequence_data (env := Demo.collaborators) 3 true 1
                                Demo.features (Demo.prices 12)))
        true 0.25%float false
        (@Build_World Demo.collaborators (Demo.prices 12) 314%Z) = demo_split.
Proof. vm_cast_no_check (eq_refl demo_split). Qed.

Lemma chronological_split_order_witness :
  exists X_train X_test y_train y_test w',
    0 < 3 /\
    ~ In "date" Demo.features /\
    dates_of (Demo.prices 12) = map VDate (map Z.of_nat (seq 0 12)) /\
    StronglySorted Z.lt (map Z.of_nat (seq 0 12)) /\
    split (env := Demo.collaborators)
          (np_array (map fst (sequence_data (env := Demo.collaborators) 3 true 1
                                            Demo.features (Demo.prices 12))))
          (map snd (sequence_data (env := Demo.collaborators) 3 true 1
                                  Demo.features (Demo.prices 12)))
          true 0.25%float false
          (@Build_World Demo.collaborators (Demo.prices 12) 314%Z)
    = (inr (X_train, X_test, y_train, y_test), w') /\
    length (data X_train) = 6 /\ length (data X_test) = 3 /\
    forall s s', In s (data X_train) -> In s' (data X_test) ->
    exists t t',
      anchor_date s = inr (VDate t) /\ anchor_date s' = inr (VDate t') /\ (t < t')%Z.
Proof.
  pose proof demo_split_eq as E. unfold demo_split in E.
  assert (Hn : 0 < 3) by lia.
  assert (Hnd : ~ In "date" Demo.features)
    by (simpl; intuition discriminate).
  assert (Hts : dates_of (Demo.prices 12) = map VDate (map Z.of_nat (seq 0 12)))
    by reflexivity.
  assert (Hsorted : StronglySorted Z.lt (map Z.of_nat (seq 0 12))).
  { simpl. repeat (apply SSorted_cons || apply SSorted_nil
                   || apply Forall_cons || apply Forall_nil || lia). }
  eexists _, _, _, _, _.
  split; [exact Hn |]. split; [exact Hnd |]. split; [exact Hts |].
  split; [exact Hsorted |]. split; [exact E |].
  split; [reflexivity |]. split; [reflexivity |].
  exact (@chronological_split_order Demo.collaborators 3 true 1 Demo.features
           (Demo.prices 12) (map Z.of_nat (seq 0 12)) 0.25%float _ _ _ _ _ _
           Hn Hnd Hts Hsorted E).
Defined.

(** The twelve days of [Demo.prices 12] with the newest row first: the code
    neither sorts the rows nor checks their dates. *)
Definition prices_newest_first : DataFrame :=
  {| columns := columns (Demo.prices 12); rows := rev (rows (Demo.prices 12)) |}.

Definition run_newest_first :=
  Eval vm_compute in
    load_data (env := Demo.collaborators) (PFrame prices_newest_first) 3 true false 1 true
              0.25%float Demo.features 314%Z.

Lemma run_newest_first_eq :
  load_data (env := Demo.collaborators) (PFrame prices_newest_first) 3 true false 1 true
            0.25%float Demo.features 314%Z = run_newest_first.
Proof. vm_cast_no_check (eq_refl run_newest_first). Qed.

Definition demo_split_newest_first :=
  Eval vm_compute in
    split (env := Demo.collaborators)
          (np_array (map fst (sequence_data (env := Demo.collaborators) 3 true 1
                                            Demo.features prices_newest_first)))
          (map snd (sequence_data (env := Demo.collaborators) 3 true 1
                                  Demo.features prices_newest_first))
          true 0.25%float false
          (@Build_World Demo.collaborators prices_newest_first 314%Z).

Lemma demo_split_newest_first_eq :
  split (env := Demo.collaborators)
        (np_array (map fst (sequence_data (env := Demo.collaborators) 3 true 1
                                          Demo.features prices_newest_first)))
        (map snd (sequence_data (env := Demo.collaborators) 3 true 1
                                Demo.features prices_newest_first))
        true 0.25%float false
        (@Build_World Demo.collaborators prices_newest_first 314%Z)
  = demo_split_newest_first.
Proof. vm_cast_no_check (eq_refl demo_split_newest_first). Qed.

(** On the newest-first table [load_data] returns a dataset, split by date
    and not shuffled, in which every train window is anchored on a later date
    than every test window. *)
Lemma chronological_split_order_counterexample :
  exists r obj g' (W_train W_test : ndarray value) (t_train t_test : list value) w',
    load_data (env := Demo.collaborators) (PFrame prices_newest_first) 3 true false 1 true
              0.25%float Demo.features 314%Z = (inr r, obj, g') /\
    length (X_train r) = 6 /\ length (X_test r) = 3 /\
    dates_of prices_newest_first
    = map VDate [11; 10; 9; 8; 7; 6; 5; 4; 3; 2; 1; 0]%Z /\
    split (env := Demo.collaborators)
          (np_array (map fst (sequence_data (env := Demo.collaborators) 3 true 1
                                            Demo.features prices_newest_first)))
          (map snd (sequence_data (env := Demo.collaborators) 3 true 1
                                  Demo.features prices_newest_first))
          true 0.25%float false
          (@Build_World Demo.collaborators prices_newest_first 314%Z)
    = (inr (W_train, W_test, t_train, t_test), w') /\
    map anchor_date (data W_train) = map (fun t => inr (VDate t)) [9; 8; 7; 6; 5; 4]%Z /\
    map anchor_date (data W_test) = map (fun t => inr (VDate t)) [3; 2; 1]%Z /\
    ~ (forall s s', In s (data W_train) -> In s' (data W_test) ->
       exists t t',
         anchor_date s = inr (VDate t) /\ anchor_date s' = inr (VDate t') /\ (t < t')%Z).
Proof.
  pose proof run_newest_first_eq as E. unfold run_newest_first in E.
  pose proof demo_split_newest_first_eq as S. unfold demo_split_newest_first in S.
  eexists _, _, _, _, _, _, _, _.
  split; [exact E |]. split; [reflexivity |]. split; [reflexivity |].
  split; [reflexivity |]. split; [exact S |].
  split; [reflexivity |]. split; [reflexivity |].
  intros H.
  destruct (H _ _ (or_introl eq_refl) (or_introl eq_refl)) as (t & t' & Ha & Ha' & Hlt).
  vm_compute in Ha, Ha'. injection Ha as <-. injection Ha' as <-. lia.
Qed.

(** ** C6: the sizes of the chronological split *)

(** The numbers of train and test windows of a returned dataset. *)
Definition split_sizes {env : Collaborators} (o : (exn + Result) * PyObj * rng)
  : option (nat * nat) :=
  match o with
  | (inr r, _, _) => Some (length (X_train r), length (X_test r))
  | (inl _, _, _) => None
  end.

Section ChronologicalSizes.
Context {env : Collaborators}.

Lemma shuffle_in_unison_perm {A B} (a : list A) (b : list B) (g : rng) :
  Permutation (fst (fst (shuffle_in_unison a b g))) a /\
  Permutation (snd (fst (shuffle_in_unison a b g))) b.
Proof.
  unfold shuffle_in_unison.
  pose proof (shuffle_perm a g). pose proof (shuffle_perm b g).
  destruct (shuffle a g), (shuffle b g). simpl in *. auto.
Qed.

(** Shuffled or not, each part of the chronological split holds the targets
    of its side of the cut. *)
Lemma split_by_position_targets (X X_train X_test : ndarray value)
      (y y_train y_test : list value) (test_size : float) (shuffle_ : bool)
      (w w' : World) (k : Z) :
  split_by_position X y test_size shuffle_ w = (inr (X_train, X_test, y_train, y_test), w') ->
  train_samples test_size (len X) = inr k ->
  Permutation y_train (slice_to k y) /\ Permutation y_test (slice_from k y).
Proof.
  unfold split_by_position. intros H Hk.
  apply bind_inr in H as (k' & s & Hk' & H). apply lift_inr in Hk' as (Hk' & ->).
  assert (k' = k) by congruence. subst k'.
  destruct shuffle_.
  - apply bind_inr in H as ([Xd ytr] & w1 & H1 & H).
    apply bind_inr in H as ([Xe yte] & w2 & H2 & H).
    apply ret_inr in H as (E & ->). injection E as -> -> -> ->.
    apply with_rng_inr in H1 as (E1 & _). apply with_rng_inr in H2 as (E2 & _).
    match type of E1 with _ = fst (shuffle_in_unison ?a ?b ?g) =>
      destruct (shuffle_in_unison_perm a b g) as (_ & P1) end.
    match type of E2 with _ = fst (shuffle_in_unison ?a ?b ?g) =>
      destruct (shuffle_in_unison_perm a b g) as (_ & P2) end.
    rewrite <- E1 in P1. rewrite <- E2 in P2. auto.
  - apply ret_inr in H as (E & ->). injection E as -> -> -> ->. auto.
Qed.

Lemma chronological_sizes_of_run (ticker obj : PyObj) (df : DataFrame) (n_steps : nat)
      (scale shuffle_ : bool) (lookup_step : nat) (test_size : float)
      (feature_columns : list string) (g g' : rng) (r : Result) :
  bind_df ticker = inr df ->
  load_data ticker n_steps scale shuffle_ lookup_step true test_size feature_columns g
  = (inr r, obj, g') ->
  let sd := sequence_data n_steps scale lookup_step feature_columns df in
  exists k,
    train_samples test_size (length sd) = inr k /\
    length (X_train r) = slice_bound k (length sd) /\
    length (X_test r) = length sd - slice_bound k (length sd) /\
    Permutation (y_train r) (slice_to k (map snd sd)) /\
    Permutation (y_test r) (slice_from k (map snd sd)) /\
    (shuffle_ = false ->
     y_train r = slice_to k (map snd sd) /\
     y_test r = slice_from k (map snd sd) /\
     map_exn astype_rows
             (map (map (firstn (length feature_columns))) (slice_to k (map fst sd)))
     = inr (X_train r) /\
     map_exn astype_rows
             (map (map (firstn (length feature_columns))) (slice_from k (map fst sd)))
     = inr (X_test r)).
Proof.
  intros Hdf H sd.
  apply load_data_inr in H as (df0 & w' & Hdf0 & H & _ & _).
  assert (df0 = df) by congruence. subst df0.
  apply load_frame_inr in H
    as (df1 & sd' & q & b & Ha & _ & Hw & _ & Hs & L1 & L2 & _ & _ & C1 & C2).
  simpl in Ha.
  destruct (quantities_of_add_future n_steps _ _ _ _ Ha) as (_ & _ & Hsd).
  rewrite Hw in Hsd. simpl in Hsd. fold sd in Hsd. subst sd'.
  unfold split in Hs.
  pose proof Hs as Hs'.
  apply split_by_position_inr in Hs as (k & Hk & _ & _ & _ & T1 & T2 & _ & _ & Hplain).
  destruct (split_by_position_targets _ _ _ _ _ Hs' Hk) as (P1 & P2).
  unfold len in *. simpl in Hk, T1, T2. rewrite length_map in Hk, T1, T2.
  exists k. split; [assumption |]. split; [congruence |]. split; [congruence |].
  split; [assumption |]. split; [assumption |].
  intros ->. destruct (Hplain eq_refl) as (D1 & D2 & Y1 & Y2 & _).
  simpl in D1, D2. rewrite D1 in C1. rewrite D2 in C2. auto.
Qed.

End ChronologicalSizes.

(** C6. Under the chronological policy the train part is the windows before
    position [int((1 - test_size) * len(X))] and the test part the windows
    from it on: they have those sizes and hold those targets, in that order
    when no shuffle is asked for. On a hundred days with [n_steps = 5],
    [lookup_step = 1] and [test_size = 0.2], 99 rows are usable and 95
    windows are emitted, of which 76 go to the train part and 19 to the test
    part. *)
Theorem chronological_split_sizes :
  (forall (env : Collaborators) (ticker obj : PyObj) (df : DataFrame) (n_steps : nat)
          (scale shuffle_ : bool) (lookup_step : nat) (test_size : float)
          (feature_columns : list string) (g g' : rng) (r : Result),
      bind_df ticker = inr df ->
      load_data ticker n_steps scale shuffle_ lookup_step true test_size feature_columns g
      = (inr r, obj, g') ->
      let sd := sequence_data n_steps scale lookup_step feature_columns df in
      exists k,
        train_samples test_size (length sd) = inr k /\
        length (X_train r) = slice_bound k (length sd) /\
        length (X_test r) = length sd - slice_bound k (length sd) /\
        Permutation (y_train r) (slice_to k (map snd sd)) /\
        Permutation (y_test r) (slice_from k (map snd sd)) /\
        (shuffle_ = false ->
         y_train r = slice_to k (map snd sd) /\
         y_test r = slice_from k (map snd sd) /\
         map_exn astype_rows
                 (map (map (firstn (length feature_columns))) (slice_to k (map fst sd)))
         = inr (X_train r) /\
         map_exn astype_rows
                 (map (map (firstn (length feature_columns))) (slice_from k (map fst sd)))
         = inr (X_test r))) /\
  usable_rows (env := Demo.collaborators) true 1 Demo.features (Demo.prices 100) = 99 /\
  length (sequence_data (env := Demo.collaborators) 5 true 1 Demo.features
                        (Demo.prices 100)) = 95 /\
  train_samples 0.2%float 95 = inr 76%Z /\
  slice_bound 76 95 = 76 /\
  split_sizes (load_data (env := Demo.collaborators) (PFrame (Demo.prices 100)) 5 true true
                         1 true 0.2%float Demo.features 314%Z) = Some (76, 19) /\
  split_sizes (load_data (env := Demo.collaborators) (PFrame (Demo.prices 100)) 5 true false
                         1 true 0.2%float Demo.features 314%Z) = Some (76, 19).
Proof.
  split.
  - intros env ticker obj df n_steps scale shuffle_ lookup_step test_size
           feature_columns g g' r Hdf H.
    eapply chronological_sizes_of_run; eassumption.
  - repeat split;
      match goal with
      | |- ?l = ?r => vm_cast_no_check (eq_refl r)
      end.
Qed.

Lemma chronological_split_sizes_witness :
  exists r obj g',
    bind_df (env := Demo.collaborators) (PFrame (Demo.prices 6)) = inr (Demo.prices 6) /\
    load_data (env := Demo.collaborators) (PFrame (Demo.prices 6)) 2 true false 1 true
              0.2%float Demo.features 314%Z = (inr r, obj, g') /\
    let sd := sequence_data (env := Demo.collaborators) 2 true 1 Demo.features
                            (Demo.prices 6) in
    exists k,
      train_samples 0.2%float (length sd) = inr k /\
      length (X_train r) = slice_bound k (length sd) /\
      length (X_test r) = length sd - slice_bound k (length sd) /\
      Permutation (y_train r) (slice_to k (map snd sd)) /\
      Permutation (y_test r) (slice_from k (map snd sd)) /\
      (false = false ->
       y_train r = slice_to k (map snd sd) /\
       y_test r = slice_from k (map snd sd) /\
       map_exn (astype_rows (env := Demo.collaborators))
               (map (map (firstn (length Demo.features))) (slice_to k (map fst sd)))
       = inr (X_train r) /\
       map_exn (astype_rows (env := Demo.collaborators))
               (map (map (firstn (length Demo.features))) (slice_from k (map fst sd)))
       = inr (X_test r)).
Proof.
  pose proof run_small_eq as E. unfold run_small in E.
  eexists _, _, _. split; [reflexivity |]. split; [exact E |].
  exact (proj1 chronological_split_sizes Demo.collaborators (PFrame (Demo.prices 6)) _
               (Demo.prices 6) _ _ _ _ _ _ _ _ _ eq_refl E).
Defined.

(** * Further properties of the script *)

(** ** What a run leaves of the generator and of the table *)

Section Frames.
Context {env : Collaborators}.

(** [m] leaves the component [f] of the world as it found it, whether it
    returns or raises. *)
Definition keeps {T A} (f : World -> T) (m : M World A) : Prop :=
  forall w, f (snd (m w)) = f w.

Lemma keeps_bind {T A B} (f : World -> T) (m : M World A) (k : A -> M World B) :
  keeps f m -> (forall a, keeps f (k a)) -> keeps f (bind m k).
Proof.
  intros Hm Hk w. unfold bind. specialize (Hm w).
  destruct (m w) as [[e | a] w1]; simpl in *; [assumption |].
  rewrite Hk. assumption.
Qed.

Lemma keeps_lift {T A} (f : World -> T) (r : exn + A) : keeps f (lift r).
Proof. intros w. reflexivity. Qed.

Lemma keeps_ret {T A} (f : World -> T) (a : A) : keeps f (ret a).
Proof. intros w. reflexivity. Qed.

Lemma on_df_keeps_rng {A} (m : M DataFrame A) : keeps w_rng (on_df m).
Proof. intros w. unfold on_df. destruct (m (w_df w)). reflexivity. Qed.

Lemma with_rng_keeps_df {A} (f : rng -> A * rng) : keeps w_df (with_rng f).
Proof. intros w. unfold with_rng. destruct (f (w_rng w)). reflexivity. Qed.

Lemma with_rng_exn_keeps_df {A} (f : rng -> (exn + A) * rng) : keeps w_df (with_rng_exn f).
Proof. intros w. unfold with_rng_exn. destruct (f (w_rng w)). reflexivity. Qed.

Lemma with_rng_exn_keeps_rng {A} (f : rng -> (exn + A) * rng) :
  (forall g, snd (f g) = g) -> keeps w_rng (with_rng_exn f).
Proof.
  intros Hf w. unfold with_rng_exn. specialize (Hf (w_rng w)).
  destruct (f (w_rng w)). assumption.
Qed.

Lemma train_test_split_plain_rng {A B} (X : ndarray A) (y : list B)
      (test_size : float) (g : rng) :
  snd (train_test_split X y test_size false g) = g.
Proof.
  unfold train_test_split. destruct (negb (len X =? length y)); [reflexivity |].
  unfold split_indices.
  destruct (validate_shuffle_split (len X) test_size) as [e | [n_train n_test]];
    reflexivity.
Qed.

Lemma split_keeps_df (X : ndarray value) (y : list value) (split_by_date : bool)
      (test_size : float) (shuffle_ : bool) :
  keeps w_df (split X y split_by_date test_size shuffle_).
Proof.
  unfold split. destruct split_by_date; [| apply with_rng_exn_keeps_df].
  unfold split_by_position. apply keeps_bind; [apply keeps_lift |]. intros k.
  destruct shuffle_; [| apply keeps_ret].
  apply keeps_bind; [apply with_rng_keeps_df |]. intros [Xd ytr].
  apply keeps_bind; [apply with_rng_keeps_df |]. intros [Xe yte].
  apply keeps_ret.
Qed.

Lemma split_plain_keeps_rng (X : ndarray value) (y : list value) (split_by_date : bool)
      (test_size : float) :
  keeps w_rng (split X y split_by_date test_size false).
Proof.
  unfold split. destruct split_by_date.
  - unfold split_by_position. apply keeps_bind; [apply keeps_lift |]. intros k.
    apply keeps_ret.
  - apply with_rng_exn_keeps_rng. intros g. apply train_test_split_plain_rng.
Qed.

Lemma finish_keeps {T} (f : World -> T) (feature_columns : list string) (b : Built) :
  keeps f (finish feature_columns b).
Proof.
  unfold finish.
  repeat (apply keeps_bind; [apply keeps_lift | intros ?]).
  apply keeps_ret.
Qed.

Lemma load_frame_plain_keeps_rng (n_steps : nat) (scale : bool) (lookup_step : nat)
      (split_by_date : bool) (test_size : float) (feature_columns : list string) :
  keeps w_rng (load_frame n_steps scale false lookup_step split_by_date test_size
                          feature_columns).
Proof.
  unfold load_frame. apply keeps_bind; [| intros b; apply finish_keeps].
  unfold build. apply keeps_bind; [apply on_df_keeps_rng |]. intros [[rdf cs] last_rows].
  apply keeps_bind; [apply on_df_keeps_rng |]. intros df.
  destruct (windows n_steps feature_columns df) as [sd q].
  apply keeps_bind; [apply keeps_lift |]. intros ls.
  apply keeps_bind; [apply split_plain_keeps_rng |]. intros [[[Xtr Xte] ytr] yte].
  apply keeps_ret.
Qed.

Lemma bind_keeps_after {T A B} (f : World -> T) (m : M World A) (k : A -> M World B)
      (w : World) :
  (forall a, keeps f (k a)) -> f (snd (bind m k w)) = f (snd (m w)).
Proof.
  intros Hk. unfold bind. destruct (m w) as [[e | a] w1]; [reflexivity |]. apply Hk.
Qed.

(** After the preparation the body does not touch the table any more. *)
Lemma load_frame_table (n_steps : nat) (scale shuffle_ : bool) (lookup_step : nat)
      (split_by_date : bool) (test_size : float) (feature_columns : list string)
      (w : World) :
  w_df (snd (load_frame n_steps scale shuffle_ lookup_step split_by_date test_size
                        feature_columns w))
  = prepared_table scale lookup_step feature_columns (w_df w).
Proof.
  unfold load_frame, build, prepared_table.
  rewrite bind_keeps_after by (intros b; apply finish_keeps).
  rewrite bind_keeps_after.
  - unfold on_df. destruct (prepare scale lookup_step feature_columns (w_df w)).
    reflexivity.
  - intros [[rdf cs] last_rows].
    apply keeps_bind; [intros w0; reflexivity |]. intros df.
    destruct (windows n_steps feature_columns df) as [sd q].
    apply keeps_bind; [apply keeps_lift |]. intros ls.
    apply keeps_bind; [apply split_keeps_df |]. intros [[[Xtr Xte] ytr] yte].
    apply keeps_ret.
Qed.

End Frames.

(** X1. Without shuffling, [load_data] makes no draw: whatever the policy and
    whether it returns or raises, NumPy's generator is left in the state it
    was found in. *)
Theorem unshuffled_call_keeps_generator
        {env : Collaborators} (ticker : PyObj) (n_steps : nat) (scale : bool)
        (lookup_step : nat) (split_by_date : bool) (test_size : float)
        (feature_columns : list string) (g : rng) :
  snd (load_data ticker n_steps scale false lookup_step split_by_date test_size
                 feature_columns g) = g.
Proof.
  unfold load_data. destruct (bind_df ticker) as [e | df]; [reflexivity |].
  pose proof (load_frame_plain_keeps_rng n_steps scale lookup_step split_by_date test_size
                feature_columns {| w_df := df; w_rng := g |}) as H.
  destruct (load_frame _ _ _ _ _ _ _ _) as [r w]. exact H.
Qed.

(** X2. Whether [load_data] returns or raises, a table passed in by the caller
    is left as the preparation (lines 37 to 53) left it: the later steps do
    not touch it and nothing is undone when the call raises. *)
Theorem caller_table_after_any_call
        {env : Collaborators} (df : DataFrame) (n_steps : nat) (scale shuffle_ : bool)
        (lookup_step : nat) (split_by_date : bool) (test_size : float)
        (feature_columns : list string) (g : rng) :
  snd (fst (load_data (PFrame df) n_steps scale shuffle_ lookup_step split_by_date
                      test_size feature_columns g))
  = PFrame (prepared_table scale lookup_step feature_columns df).
Proof.
  unfold load_data. cbn [bind_df].
  pose proof (load_frame_table n_steps scale shuffle_ lookup_step split_by_date test_size
                feature_columns {| w_df := df; w_rng := g |}) as H.
  destruct (load_frame _ _ _ _ _ _ _ _) as [r w]. cbn [fst snd] in *.
  rewrite H. reflexivity.
Qed.

(** ** The scalers [load_data] retains *)

Lemma dict_set_keys {V} (k : string) (v : V) (d : list (string * V)) (k' : string) :
  In k' (map fst (dict_set k v d)) <-> k' = k \/ In k' (map fst d).
Proof.
  induction d as [| [k0 v0] d IH]; simpl.
  - intuition.
  - destruct (String.eqb_spec k0 k) as [-> | Hne]; simpl; [intuition |].
    rewrite IH. intuition.
Qed.

Lemma dict_set_NoDup {V} (k : string) (v : V) (d : list (string * V)) :
  NoDup (map fst d) -> NoDup (map fst (dict_set k v d)).
Proof.
  induction d as [| [k0 v0] d IH]; simpl; intros H.
  - constructor; [intros [] | constructor].
  - inversion H as [| ? ? Hn Hd]; subst.
    destruct (String.eqb_spec k0 k) as [-> | Hne]; simpl.
    + constructor; assumption.
    + constructor; [| auto]. rewrite dict_set_keys. intros [E | Hin]; [congruence | auto].
Qed.

Lemma dict_set_In {V} (k : string) (v : V) (d : list (string * V)) :
  In (k, v) (dict_set k v d).
Proof.
  induction d as [| [k0 v0] d IH]; simpl; [auto |].
  destruct (String.eqb k0 k); simpl; auto.
Qed.

Lemma dict_set_other {V} (k : string) (v : V) (d : list (string * V))
      (k' : string) (v' : V) :
  k' <> k -> In (k', v') d -> In (k', v') (dict_set k v d).
Proof.
  intros Hne. induction d as [| [k0 v0] d IH]; simpl; [auto |].
  intros [E | Hin].
  - injection E as -> ->.
    destruct (String.eqb_spec k' k); [congruence | left; reflexivity].
  - destruct (String.eqb k0 k); simpl; auto.
Qed.

Section Scalers.
Context {env : Collaborators}.

(** The dictionary of scalers after the loop of lines 45 to 48: one entry per
    name met, and, when no name is met twice, for each name the scaler fitted
    on the column as the loop found it, whose transform the column now holds. *)
Lemma scale_columns_spec (feature_columns : list string) (cs cs' : list (string * scaler))
      (df df' : DataFrame) :
  scale_columns feature_columns cs df = (inr cs', df') ->
  (NoDup (map fst cs) -> NoDup (map fst cs')) /\
  (forall c, In c (map fst cs') <-> In c feature_columns \/ In c (map fst cs)) /\
  (NoDup feature_columns ->
   (forall c sc, ~ In c feature_columns -> In (c, sc) cs -> In (c, sc) cs') /\
   forall c, In c feature_columns ->
     exists sc scaled,
       fit_transform (column_values df c) = inr (sc, scaled) /\
       In (c, sc) cs' /\ column_values df' c = scaled).
Proof.
  revert cs df; induction feature_columns as [| col rest IH]; intros cs df H; simpl in H.
  - apply ret_inr in H as (-> & ->).
    split; [auto |]. split; [intros c; simpl; tauto |].
    intros _. split; [auto | intros c []].
  - apply bind_inr in H as (vals & s1 & Hr & H).
    apply read_column_inr in Hr as (-> & _ & ->).
    apply bind_inr in H as ([sc scaled] & s2 & Hf & H).
    apply lift_inr in Hf as (Hf & ->).
    apply bind_inr in H as (u & df2 & Hw & H).
    apply write_column_inr in Hw.
    pose proof (scale_columns_inr _ _ _ H) as (_ & _ & Hsame & _).
    apply IH in H as (Hnd & Hkeys & Hfit).
    apply set_column_inr in Hw as (_ & Hcol & Hother & _).
    split; [intros Hc; apply Hnd, dict_set_NoDup, Hc |].
    split.
    { intros c. rewrite Hkeys, dict_set_keys. simpl. intuition. }
    intros Hfc. apply NoDup_cons_iff in Hfc as (Hnotin & Hrest).
    destruct (Hfit Hrest) as (Hkeep & Hin).
    split.
    + intros c sc' Hc Hcs. apply Hkeep; [simpl in Hc; tauto |].
      apply dict_set_other; [| assumption]. intros ->. apply Hc. left; reflexivity.
    + intros c [<- | Hc].
      * exists sc, scaled. split; [assumption |].
        split; [apply Hkeep; [assumption | apply dict_set_In] |].
        rewrite Hsame by assumption. exact Hcol.
      * destruct (Hin c Hc) as (sc' & scaled' & Hf' & Hi' & Hc').
        exists sc', scaled'. rewrite Hother in Hf' by (intros ->; contradiction).
        auto.
Qed.

(** The steps of [add_future], one by one. *)
Lemma add_future_steps (scale : bool) (lookup_step : nat) (feature_columns : list string)
      (df df1 result_df : DataFrame) (cs : option (list (string * scaler))) :
  add_future scale lookup_step feature_columns df = (inr (result_df, cs), df1) ->
  exists df_d df_s,
    ensure_date df = (inr tt, df_d) /\
    (if scale
     then exists l, scale_columns feature_columns [] df_d = (inr l, df_s) /\ cs = Some l
     else df_s = df_d /\ cs = None) /\
    set_column df_s "future" (shift_back lookup_step (column_values df_s "adjclose"))
    = inr df1.
Proof.
  unfold add_future. intros H.
  apply bind_inr in H as (d & s & Hg & H). apply get_inr in Hg as (-> & ->).
  apply bind_inr in H as ([] & s & Ha & H). apply lift_inr in Ha as (Ha & ->).
  apply bind_inr in H as ([] & df_d & Hd & H).
  apply bind_inr in H as (cs0 & df_s & Hs & H).
  apply bind_inr in H as (adj & s & Hr & H).
  apply read_column_inr in Hr as (-> & Hadj & ->).
  apply bind_inr in H as ([] & df_f & Hw & H).
  apply write_column_inr in Hw.
  apply ret_inr in H as (E & Es). subst df_f. injection E as -> ->.
  exists df_d, df_s. split; [assumption |]. split; [| assumption].
  destruct scale.
  - apply bind_inr in Hs as (l & s1 & Hs & Hr). apply ret_inr in Hr as (-> & ->).
    exists l. auto.
  - apply ret_inr in Hs as (-> & ->). auto.
Qed.

Lemma column_scaler_of_run (ticker obj : PyObj) (n_steps : nat) (scale shuffle_ : bool)
      (lookup_step : nat) (split_by_date : bool) (test_size : float)
      (feature_columns : list string) (g g' : rng) (r : Result) :
  load_data ticker n_steps scale shuffle_ lookup_step split_by_date test_size
            feature_columns g = (inr r, obj, g') ->
  exists df df1,
    bind_df ticker = inr df /\
    add_future scale lookup_step feature_columns df = (inr (df, column_scaler r), df1).
Proof.
  intros H.
  apply load_data_inr in H as (df & w' & Hdf & H & _ & _).
  apply load_frame_inr in H as (df1 & sd & q & b & Ha & _).
  cbn [w_df] in Ha.
  pose proof (add_future_inr _ _ _ _ Ha) as (E & _).
  rewrite E in Ha. eauto.
Qed.

End Scalers.

(** X3. A returned dataset has the entry [column_scaler] exactly when [scale]
    is true, and then the dictionary has one scaler for each distinct feature
    column and no other key. *)
Theorem column_scaler_keys
        {env : Collaborators} (ticker obj : PyObj) (n_steps : nat) (scale shuffle_ : bool)
        (lookup_step : nat) (split_by_date : bool) (test_size : float)
        (feature_columns : list string) (g g' : rng) (r : Result) :
  load_data ticker n_steps scale shuffle_ lookup_step split_by_date test_size
            feature_columns g = (inr r, obj, g') ->
  match column_scaler r with
  | None => scale = false
  | Some cs =>
      scale = true /\ NoDup (map fst cs) /\
      forall c, In c (map fst cs) <-> In c feature_columns
  end.
Proof.
  intros H. apply column_scaler_of_run in H as (df & df1 & _ & Ha).
  apply add_future_steps in Ha as (df_d & df_s & _ & Hs & _).
  destruct scale.
  - destruct Hs as (l & Hs & ->).
    apply scale_columns_spec in Hs as (Hnd & Hkeys & _).
    split; [reflexivity |]. split; [apply Hnd; constructor |].
    intros c. rewrite Hkeys. simpl. tauto.
  - destruct Hs as (_ & ->). reflexivity.
Qed.

Lemma column_scaler_keys_witness :
  exists r obj g',
    load_data (env := Demo.collaborators) (PFrame (Demo.prices 6)) 2 true false 1 true
              0.2%float Demo.features 314%Z = (inr r, obj, g') /\
    match column_scaler r with
    | None => true = false
    | Some cs =>
        true = true /\ NoDup (map fst cs) /\
        forall c, In c (map fst cs) <-> In c Demo.features
    end.
Proof.
  pose proof run_small_eq as E. unfold run_small in E.
  eexists _, _, _. split; [exact E |].
  exact (@column_scaler_keys Demo.collaborators _ _ _ _ _ _ _ _ _ _ _ _ E).
Defined.

(** X4. With [scale] true and no feature column named twice, the scaler
    retained for a feature column is the one fitted on that column as the
    table was passed in, and the table (before the incomplete rows go) holds
    its transform in that column. *)
Theorem scaler_fitted_on_input_column
        {env : Collaborators} (ticker obj : PyObj) (df : DataFrame) (n_steps : nat)
        (shuffle_ : bool) (lookup_step : nat) (split_by_date : bool) (test_size : float)
        (feature_columns : list string) (g g' : rng) (r : Result) (c : string) :
  bind_df ticker = inr df ->
  load_data ticker n_steps true shuffle_ lookup_step split_by_date test_size
            feature_columns g = (inr r, obj, g') ->
  NoDup feature_columns ->
  In c feature_columns -> c <> "date" -> c <> "future" ->
  exists cs sc scaled,
    column_scaler r = Some cs /\ In (c, sc) cs /\
    fit_transform (column_values df c) = inr (sc, scaled) /\
    column_values (table_with_future true lookup_step feature_columns df) c = scaled.
Proof.
  intros Hdf H Hnd Hc Hdate Hfut.
  apply column_scaler_of_run in H as (df0 & df1 & Hdf0 & Ha).
  assert (df0 = df) by congruence. subst df0.
  unfold table_with_future. rewrite Ha. cbn [snd].
  apply add_future_steps in Ha as (df_d & df_s & Hd & (l & Hs & Hcs) & Hw).
  apply ensure_date_inr in Hd as ((_ & _ & Cd & _) & _).
  apply scale_columns_spec in Hs as (_ & _ & Hfit).
  destruct (Hfit Hnd) as (_ & Hin). destruct (Hin c Hc) as (sc & scaled & Hf & Hi & Hv).
  apply set_column_inr in Hw as (_ & _ & Hother & _).
  exists l, sc, scaled. split; [assumption |]. split; [assumption |].
  rewrite Cd in Hf by (intros [E | []]; congruence).
  rewrite Hother by assumption. auto.
Qed.

Lemma scaler_fitted_on_input_column_witness :
  exists r obj g',
    bind_df (env := Demo.collaborators) (PFrame (Demo.prices 6)) = inr (Demo.prices 6) /\
    load_data (env := Demo.collaborators) (PFrame (Demo.prices 6)) 2 true false 1 true
              0.2%float Demo.features 314%Z = (inr r, obj, g') /\
    NoDup Demo.features /\
    In "adjclose" Demo.features /\ "adjclose" <> "date" /\ "adjclose" <> "future" /\
    exists cs sc scaled,
      column_scaler r = Some cs /\ In ("adjclose", sc) cs /\
      fit_transform (column_values (Demo.prices 6) "adjclose") = inr (sc, scaled) /\
      column_values (table_with_future (env := Demo.collaborators) true 1 Demo.features
                                       (Demo.prices 6)) "adjclose" = scaled.
Proof.
  pose proof run_small_eq as E. unfold run_small in E.
  assert (Hnd : NoDup Demo.features).
  { unfold Demo.features.
    repeat (constructor; [simpl; intuition discriminate |]). constructor. }
  assert (Hin : In "adjclose" Demo.features) by (left; reflexivity).
  assert (H1 : "adjclose" <> "date") by discriminate.
  assert (H2 : "adjclose" <> "future") by discriminate.
  eexists _, _, _. split; [reflexivity |]. split; [exact E |].
  split; [exact Hnd |]. split; [exact Hin |]. split; [exact H1 |]. split; [exact H2 |].
  exact (@scaler_fitted_on_input_column Demo.collaborators (PFrame (Demo.prices 6)) _
           (Demo.prices 6) _ _ _ _ _ _ _ _ _ "adjclose" eq_refl E Hnd Hin H1 H2).
Defined.

(** ** The parts of a split, pair by pair *)

Lemma combine_fst_snd {A B} (l : list (A * B)) : combine (map fst l) (map snd l) = l.
Proof. induction l as [| [a b] l IH]; simpl; [reflexivity | f_equal; exact IH]. Qed.

Lemma combine_skipn {A B} (l : list A) (l' : list B) (n : nat) :
  skipn n (combine l l') = combine (skipn n l) (skipn n l').
Proof.
  revert l l'; induction n as [| n IH]; intros l l'; [reflexivity |].
  destruct l as [| a l]; [reflexivity |].
  destruct l' as [| b l']; simpl; [destruct (skipn n l); reflexivity | apply IH].
Qed.

Lemma combine_cut {A B} (l : list A) (l' : list B) (n : nat) :
  combine (firstn n l) (firstn n l') ++ combine (skipn n l) (skipn n l') = combine l l'.
Proof. rewrite <- combine_firstn, <- combine_skipn. apply firstn_skipn. Qed.

Lemma py_index_inr {A} (x : list A) (i : Z) (a : A) :
  py_index x i = inr a ->
  exists j, nth_error x j = Some a /\
            (0 <= i -> j = Z.to_nat i)%Z.
Proof.
  unfold py_index.
  destruct ((0 <=? _) && (_ <? _))%Z; [| discriminate].
  destruct (Z.ltb_spec i 0) as [Hneg | Hpos].
  - destruct (nth_error x (Z.to_nat (Z.of_nat (length x) + i))) as [a' |] eqn:E;
      [| discriminate].
    intros H. injection H as <-. eexists. split; [exact E | lia].
  - destruct (nth_error x (Z.to_nat i)) as [a' |] eqn:E; [| discriminate].
    intros H. injection H as <-. eexists. split; [exact E | auto].
Qed.

Lemma nth_error_combine_some {A B} (x : list A) (y : list B) (j : nat) (a : A) (b : B) :
  nth_error x j = Some a -> nth_error y j = Some b ->
  nth_error (combine x y) j = Some (a, b).
Proof.
  revert x y; induction j as [| j IH]; intros [| a0 x] [| b0 y]; simpl; try discriminate.
  - intros Ha Hb. injection Ha as <-. injection Hb as <-. reflexivity.
  - apply IH.
Qed.

Lemma py_index_pair {A B} (x : list A) (y : list B) (i : Z) (a : A) (b : B) :
  length x = length y ->
  py_index x i = inr a -> py_index y i = inr b ->
  py_index (combine x y) i = inr (a, b).
Proof.
  unfold py_index. intros Hl. rewrite length_combine, <- Hl, Nat.min_id.
  destruct ((0 <=? _) && (_ <? _))%Z; [| discriminate].
  set (j := Z.to_nat (if (i <? 0)%Z then (Z.of_nat (length x) + i)%Z else i)).
  destruct (nth_error x j) as [a' |] eqn:Ea; [| discriminate].
  destruct (nth_error y j) as [b' |] eqn:Eb; [| discriminate].
  intros Ha Hb. injection Ha as <-. injection Hb as <-.
  rewrite (nth_error_combine_some _ _ _ Ea Eb). reflexivity.
Qed.

Lemma take_In {A} (x : list A) (idx : list Z) (l : list A) (a : A) :
  take x idx = inr l -> In a l -> In a x.
Proof.
  intros H Hin. apply map_exn_inr in H.
  induction H as [| i b idx l Hi _ IH]; [destruct Hin |].
  destruct Hin as [<- | Hin]; [| auto].
  apply py_index_inr in Hi as (j & Hj & _). eapply nth_error_In; eauto.
Qed.

Lemma map_exn_app {A B} (f : A -> exn + B) (l1 l2 : list A) (r1 r2 : list B) :
  map_exn f l1 = inr r1 -> map_exn f l2 = inr r2 ->
  map_exn f (l1 ++ l2) = inr (r1 ++ r2).
Proof.
  revert r1; induction l1 as [| a l1 IH]; simpl; intros r1 H1 H2.
  - injection H1 as <-. assumption.
  - destruct (f a) as [e | b]; [discriminate |].
    apply map_result_inr in H1 as (t & Ht & ->).
    rewrite (IH _ Ht H2). reflexivity.
Qed.

Lemma take_combine {A B} (x : list A) (y : list B) (idx : list Z)
      (lx : list A) (ly : list B) :
  length x = length y ->
  take x idx = inr lx -> take y idx = inr ly ->
  take (combine x y) idx = inr (combine lx ly).
Proof.
  intros Hl. unfold take. revert lx ly; induction idx as [| i idx IH]; simpl; intros lx ly.
  - intros H1 H2. injection H1 as <-. injection H2 as <-. reflexivity.
  - destruct (py_index x i) as [e | a] eqn:Ea; [discriminate |].
    destruct (py_index y i) as [e | b] eqn:Eb; [discriminate |].
    intros H1 H2.
    apply map_result_inr in H1 as (tx & Hx & ->).
    apply map_result_inr in H2 as (ty & Hy & ->).
    rewrite (py_index_pair _ _ _ Hl Ea Eb), (IH _ _ Hx Hy). reflexivity.
Qed.

(** Reading an array at a permutation of its positions permutes it. *)
Lemma take_positions {A} (x : list A) (p : list nat) (l : list A) :
  take x (map Z.of_nat p) = inr l ->
  Permutation p (seq 0 (length x)) ->
  Permutation l x.
Proof.
  intros H Hp.
  assert (Hmap : map Some l = map (nth_error x) p).
  { clear Hp. unfold take in H. revert l H; induction p as [| i p IH]; simpl; intros l H.
    - injection H as <-. reflexivity.
    - destruct (py_index x (Z.of_nat i)) as [e | a] eqn:Ea; [discriminate |].
      apply map_result_inr in H as (t & Ht & ->).
      apply py_index_inr in Ea as (j & Hj & Hij).
      rewrite Hij, Nat2Z.id in Hj by lia.
      simpl. rewrite Hj, (IH _ Ht). reflexivity. }
  assert (Hs : Permutation (map Some l) (map Some x)).
  { rewrite Hmap, <- nth_error_seq_all. apply Permutation_map. assumption. }
  apply Permutation_map_inv in Hs as (l3 & E & Hp3).
  assert (l3 = l).
  { clear -E. revert l3 E; induction l as [| a l IH]; intros [| b l3]; simpl;
      try discriminate; [reflexivity |].
    intros H. injection H as -> H. f_equal. auto. }
  subst l3. symmetry. exact Hp3.
Qed.

Lemma arange_app (a b c : Z) :
  (a <= b <= c)%Z -> arange a b ++ arange b c = arange a c.
Proof.
  intros H. unfold arange.
  replace (Z.to_nat (c - a)) with (Z.to_nat (b - a) + Z.to_nat (c - b)) by lia.
  rewrite seq_app, map_app. f_equal.
  simpl. generalize (Z.to_nat (c - b)). intros n.
  assert (Hs : forall k, map (fun i => (a + Z.of_nat i)%Z) (seq (Z.to_nat (b - a) + k) n)
                         = map (fun i => (b + Z.of_nat i)%Z) (seq k n)).
  { induction n as [| n IH]; intros k; simpl; [reflexivity |].
    f_equal; [lia |]. rewrite <- Nat.add_succ_r. apply IH. }
  rewrite <- (Hs 0). rewrite Nat.add_0_r. reflexivity.
Qed.

Section SplitPairs.
Context {env : Collaborators}.

(** Co-shuffling two arrays of one length is shuffling the array of their
    pairs. *)
Lemma shuffle_in_unison_zip {A B} (a : list A) (b : list B) (g : rng) :
  length a = length b ->
  shuffle_in_unison a b g
  = ((map fst (fst (shuffle (combine a b) g)), map snd (fst (shuffle (combine a b) g))),
     snd (shuffle (combine a b) g)).
Proof.
  intros Hl. unfold shuffle_in_unison.
  pose proof (shuffle_map fst (combine a b) g) as Ha.
  pose proof (shuffle_map snd (combine a b) g) as Hb.
  rewrite (map_fst_combine _ _ Hl) in Ha. rewrite (map_snd_combine _ _ Hl) in Hb.
  rewrite Ha, Hb. reflexivity.
Qed.

Lemma shuffle_in_unison_pairs {A B} (a : list A) (b : list B) (g : rng) :
  length a = length b ->
  Permutation (combine (fst (fst (shuffle_in_unison a b g)))
                       (snd (fst (shuffle_in_unison a b g))))
              (combine a b).
Proof.
  intros Hl. rewrite (shuffle_in_unison_zip _ _ g Hl). cbn [fst snd].
  rewrite combine_fst_snd. apply shuffle_perm.
Qed.

(** Each part of the chronological split holds, pair by pair, the windows
    and targets of its side of the cut. *)
Lemma split_by_position_pairs (X X_train X_test : ndarray value)
      (y y_train y_test : list value) (test_size : float) (shuffle_ : bool)
      (w w' : World) :
  len X = length y ->
  split_by_position X y test_size shuffle_ w = (inr (X_train, X_test, y_train, y_test), w') ->
  exists k, train_samples test_size (len X) = inr k /\
    Permutation (combine (data X_train) y_train)
                (combine (slice_to k (data X)) (slice_to k y)) /\
    Permutation (combine (data X_test) y_test)
                (combine (slice_from k (data X)) (slice_from k y)).
Proof.
  unfold split_by_position. intros Hl H.
  apply bind_inr in H as (k & s & Hk & H). apply lift_inr in Hk as (Hk & ->).
  exists k. split; [assumption |].
  destruct shuffle_.
  - apply bind_inr in H as ([Xd ytr] & w1 & H1 & H).
    apply bind_inr in H as ([Xe yte] & w2 & H2 & H).
    apply ret_inr in H as (E & ->).
    apply with_rng_inr in H1 as (E1 & _). apply with_rng_inr in H2 as (E2 & _).
    pose proof (f_equal fst E1) as Fa. pose proof (f_equal snd E1) as Fb.
    pose proof (f_equal fst E2) as Fc. pose proof (f_equal snd E2) as Fd.
    cbn [fst snd] in Fa, Fb, Fc, Fd. clear E1 E2.
    injection E as -> -> -> ->.
    cbn [data reshape0 arr_slice_to arr_slice_from] in *.
    unfold len in Hl. subst Xd ytr Xe yte.
    split; apply shuffle_in_unison_pairs.
    + rewrite !slice_to_length. congruence.
    + rewrite !slice_from_length. congruence.
  - apply ret_inr in H as (E & ->). injection E as -> -> -> ->. split; reflexivity.
Qed.

(** The index arrays of the random split cover the positions, each once. *)
Lemma split_indices_cover {A} (x x' : list A) (test_size : float) (shuffle_ : bool)
      (g g' : rng) (train test : list Z) :
  split_indices (length x) test_size shuffle_ g = (inr (train, test), g') ->
  take x train = inr x' ->
  (shuffle_ = false -> n_test_in_range test_size (length x)) ->
  exists p, Permutation p (seq 0 (length x)) /\
    (train ++ test = map Z.of_nat p \/ test ++ train = map Z.of_nat p).
Proof.
  unfold split_indices. intros H Ht Hr.
  destruct (validate_shuffle_split (length x) test_size) as [e | [n_train n_test]] eqn:Hv;
    [discriminate |].
  pose proof (validate_shuffle_split_inr _ _ Hv) as (Hsum & Hnz).
  destruct shuffle_.
  - pose proof (shuffle_perm (seq 0 (length x)) g) as Hp.
    pose proof (shuffle_length (seq 0 (length x)) g) as Hlp.
    unfold permutation in H.
    destruct (shuffle (seq 0 (length x)) g) as [perm g1]. cbn [fst] in Hp, Hlp.
    rewrite length_seq in Hlp.
    injection H as <- <- <-.
    exists perm. split; [assumption |]. right.
    unfold slice_to, slice. rewrite length_map, Hlp.
    replace (n_test + n_train)%Z with (Z.of_nat (length x)) by lia.
    rewrite slice_bound_all.
    rewrite (firstn_all2 (n := length x - slice_bound n_test (length x))).
    + apply firstn_skipn.
    + rewrite length_skipn, length_map. lia.
  - injection H as <- <- <-.
    apply take_arange_bound in Ht.
    pose proof (Hr eq_refl _ _ Hv) as Hpos.
    exists (seq 0 (length x)). split; [reflexivity |]. left.
    rewrite arange_app by lia.
    replace (n_train + n_test)%Z with (Z.of_nat (length x)) by lia.
    unfold arange. rewrite Z.sub_0_r, Nat2Z.id. apply map_ext. intros i. lia.
Qed.

(** Whatever the policy, the two parts of a split hold the pairs of [X] and
    [y], each pair once. *)
Lemma split_pairs (X X_train X_test : ndarray value) (y y_train y_test : list value)
      (split_by_date : bool) (test_size : float) (shuffle_ : bool) (w w' : World) :
  len X = length y ->
  split X y split_by_date test_size shuffle_ w
  = (inr (X_train, X_test, y_train, y_test), w') ->
  (split_by_date = false -> shuffle_ = false -> n_test_in_range test_size (len X)) ->
  Permutation (combine (data X_train) y_train ++ combine (data X_test) y_test)
              (combine (data X) y).
Proof.
  intros Hl H Hr. unfold split in H. destruct split_by_date.
  - apply split_by_position_pairs in H as (k & _ & P1 & P2); [| assumption].
    rewrite (Permutation_app P1 P2).
    unfold slice_to, slice_from. unfold len in Hl. rewrite <- Hl.
    rewrite combine_cut. reflexivity.
  - apply with_rng_exn_inr in H as (H & _).
    apply train_test_split_inr in H
      as (train & test & _ & Hi & T1 & T2 & T3 & T4 & _ & _).
    unfold len in Hl, Hi, Hr.
    assert (C1 : take (combine (data X) y) train = inr (combine (data X_train) y_train))
      by (apply take_combine; assumption).
    assert (C2 : take (combine (data X) y) test = inr (combine (data X_test) y_test))
      by (apply take_combine; assumption).
    edestruct @split_indices_cover as (p & Hp & [E | E]);
      [exact Hi | exact T1 | exact (Hr eq_refl) | |].
    + assert (C : map_exn (py_index (combine (data X) y)) (train ++ test)
                  = inr (combine (data X_train) y_train ++ combine (data X_test) y_test))
        by (apply map_exn_app; assumption).
      change (map_exn (py_index (combine (data X) y)) (train ++ test))
        with (take (combine (data X) y) (train ++ test)) in C.
      rewrite E in C. apply take_positions in C; [assumption |].
      rewrite length_combine, <- Hl, Nat.min_id. assumption.
    + assert (C : map_exn (py_index (combine (data X) y)) (test ++ train)
                  = inr (combine (data X_test) y_test ++ combine (data X_train) y_train))
        by (apply map_exn_app; assumption).
      change (map_exn (py_index (combine (data X) y)) (test ++ train))
        with (take (combine (data X) y) (test ++ train)) in C.
      rewrite E in C. apply take_positions in C;
        [| rewrite length_combine, <- Hl, Nat.min_id; assumption].
      rewrite <- C. apply Permutation_app_comm.
Qed.

(** Without any assumption: what a part holds comes from [X] and [y]. *)
Lemma split_members (X X_train X_test : ndarray value) (y y_train y_test : list value)
      (split_by_date : bool) (test_size : float) (shuffle_ : bool) (w w' : World) :
  len X = length y ->
  split X y split_by_date test_size shuffle_ w
  = (inr (X_train, X_test, y_train, y_test), w') ->
  (forall s, In s (data X_train) \/ In s (data X_test) -> In s (data X)) /\
  (forall t, In t y_train \/ In t y_test -> In t y).
Proof.
  intros Hl H. pose proof H as H0.
  apply split_inr in H0 as (_ & _ & _ & L1 & L2); [| exact Hl].
  unfold split in H. destruct split_by_date.
  - apply split_by_position_pairs in H as (k & _ & P1 & P2); [| assumption].
    unfold len in Hl.
    assert (La : length (slice_to k (data X)) = length (slice_to k y))
      by (rewrite !slice_to_length; congruence).
    assert (Lb : length (slice_from k (data X)) = length (slice_from k y))
      by (rewrite !slice_from_length; congruence).
    pose proof (Permutation_map fst P1) as F1. pose proof (Permutation_map snd P1) as S1.
    pose proof (Permutation_map fst P2) as F2. pose proof (Permutation_map snd P2) as S2.
    rewrite !map_fst_combine in F1, F2 by assumption.
    rewrite !map_snd_combine in S1, S2 by assumption.
    unfold slice_to, slice_from in *.
    split.
    + intros s Hs. rewrite <- (firstn_skipn (slice_bound k (length (data X))) (data X)).
      apply in_or_app. destruct Hs as [Hs | Hs]; [left | right];
        eapply Permutation_in; eauto.
    + intros t Ht. rewrite <- (firstn_skipn (slice_bound k (length y)) y).
      apply in_or_app. destruct Ht as [Ht | Ht]; [left | right];
        eapply Permutation_in; eauto.
  - apply with_rng_exn_inr in H as (H & _).
    apply train_test_split_inr in H
      as (train & test & _ & Hi & T1 & T2 & T3 & T4 & _ & _).
    split; intros a [Ha | Ha].
    + eapply take_In; [exact T1 | exact Ha].
    + eapply take_In; [exact T2 | exact Ha].
    + eapply take_In; [exact T3 | exact Ha].
    + eapply take_In; [exact T4 | exact Ha].
Qed.

End SplitPairs.

Lemma map_exn_Forall {A B} (f : A -> exn + B) (P : A -> Prop) (Q : B -> Prop)
      (l : list A) (l' : list B) :
  (forall a b, P a -> f a = inr b -> Q b) ->
  map_exn f l = inr l' -> Forall P l -> Forall Q l'.
Proof.
  intros Hf H. apply map_exn_inr in H.
  induction H as [| a b l l' Hab _ IH]; intros HP; constructor.
  - apply Forall_inv in HP. eauto.
  - apply Forall_inv_tail in HP. auto.
Qed.

Section Shapes.
Context {env : Collaborators}.

Lemma astype_rows_widths (k : nat) (x : list (list value)) (x' : list (list float)) :
  astype_rows x = inr x' ->
  Forall (fun row => length row = k) x ->
  length x' = length x /\ Forall (fun row => length row = k) x'.
Proof.
  intros H Hx. split; [eapply map_exn_length; eauto |].
  eapply map_exn_Forall; [| exact H | exact Hx].
  intros a b Ha Hb. apply map_exn_length in Hb. congruence.
Qed.

(** The rows the windowing loop reads have one cell per feature column and
    the date; the emitted windows and the deque are made of such rows. *)
Lemma windows_rows (n_steps : nat) (feature_columns : list string) (df : DataFrame) :
  Forall (fun p => length (fst p) = n_steps /\
                   Forall (fun row => length row = length feature_columns + 1) (fst p))
         (fst (windows n_steps feature_columns df)) /\
  Forall (fun row => length row = length feature_columns + 1)
         (snd (windows n_steps feature_columns df)).
Proof.
  pose proof (windows_spec n_steps feature_columns df) as (Hq & Hall & Hpos).
  set (entries := frame_values df (feature_columns ++ ["date"])) in *.
  assert (He : Forall (fun row => length row = length feature_columns + 1) entries).
  { unfold entries, frame_values. apply Forall_forall. intros row Hin.
    apply in_map_iff in Hin as (r0 & <- & _).
    unfold row_values. rewrite length_map, length_app. reflexivity. }
  split.
  - destruct (Nat.eq_dec n_steps 0) as [-> | Hn].
    + eapply Forall_impl; [| exact Hall]. intros [s t] Hs. cbn [fst] in *.
      split; [assumption |]. destruct s; [constructor | discriminate].
    + destruct (Hpos ltac:(lia)) as (_ & Hnth).
      apply Forall_forall. intros [s t] Hin. cbn [fst].
      split; [rewrite Forall_forall in Hall; apply (Hall _ Hin) |].
      apply In_nth_error in Hin as (j & Hj). destruct (Hnth _ _ _ Hj) as (-> & _).
      apply Forall_forall. intros row Hrow.
      rewrite Forall_forall in He. apply He.
      rewrite <- (firstn_skipn j entries). apply in_or_app. right.
      rewrite <- (firstn_skipn n_steps (skipn j entries)). apply in_or_app. left.
      assumption.
  - rewrite Hq. unfold last_n. apply Forall_forall. intros row Hrow.
    rewrite Forall_forall in He. apply He.
    rewrite <- (firstn_skipn (length entries - n_steps) entries). apply in_or_app.
    right. assumption.
Qed.

Lemma cast_windows_shape (n k : nat) (X : list (list (list value)))
      (X' : list (list (list float))) :
  map_exn astype_rows (map (map (firstn k)) X) = inr X' ->
  Forall (fun s => length s = n /\ Forall (fun row => length row = k + 1) s) X ->
  Forall (fun s => length s = n /\ Forall (fun row => length row = k) s) X'.
Proof.
  intros H HX.
  eapply map_exn_Forall with
    (P := fun s : list (list value) =>
            length s = n /\ Forall (fun row => length row = k) s);
    [| exact H |].
  - intros a b (La & Wa) Hb. apply astype_rows_widths with (k := k) in Hb as (Lb & Wb);
      [| assumption].
    split; [congruence | assumption].
  - apply Forall_forall. intros s Hs. apply in_map_iff in Hs as (s0 & <- & Hs0).
    rewrite Forall_forall in HX. destruct (HX _ Hs0) as (L0 & W0).
    rewrite length_map. split; [assumption |].
    apply Forall_forall. intros row Hrow. apply in_map_iff in Hrow as (row0 & <- & Hr0).
    rewrite Forall_forall in W0. rewrite length_firstn, (W0 _ Hr0). lia.
Qed.

End Shapes.

(** X5. In every dataset [load_data] returns, each window of [X_train] and
    [X_test] has [n_steps] rows of [len(feature_columns)] numbers (so
    [len(X_train[0][0])] is the number of feature columns), and each row of
    [last_sequence] has that many numbers too. *)
Theorem returned_arrays_shape
        {env : Collaborators} (ticker obj : PyObj) (n_steps : nat) (scale shuffle_ : bool)
        (lookup_step : nat) (split_by_date : bool) (test_size : float)
        (feature_columns : list string) (g g' : rng) (r : Result) :
  load_data ticker n_steps scale shuffle_ lookup_step split_by_date test_size
            feature_columns g = (inr r, obj, g') ->
  Forall (fun s => length s = n_steps /\
                   Forall (fun row => length row = length feature_columns) s)
         (X_train r ++ X_test r) /\
  Forall (fun row => length row = length feature_columns) (last_sequence r).
Proof.
  intros H.
  apply load_data_inr in H as (df & w' & _ & H & _ & _).
  apply load_frame_inr in H
    as (df1 & sd & q & b & Ha & _ & Hw & Hl & Hs & _ & _ & _ & _ & C1 & C2).
  pose proof (windows_rows n_steps feature_columns (dropna df1)) as (Wsd & Wq).
  rewrite Hw in Wsd, Wq. cbn [fst snd] in Wsd, Wq.
  assert (Hlen : len (np_array (map fst sd)) = length (map snd sd))
    by (unfold len; simpl; rewrite !length_map; reflexivity).
  pose proof Hs as Hm. apply split_members in Hm as (HX & _); [| exact Hlen].
  assert (Hpart : forall X, (forall s, In s X -> In s (map fst sd)) ->
            Forall (fun s => length s = n_steps /\
                             Forall (fun row => length row = length feature_columns + 1) s)
                   X).
  { intros X HXin. apply Forall_forall. intros s Hin. apply HXin in Hin.
    apply in_map_iff in Hin as ([s0 t0] & <- & Hp).
    rewrite Forall_forall in Wsd. apply (Wsd _ Hp). }
  split.
  - apply Forall_app. split.
    + eapply cast_windows_shape; [exact C1 |]. apply Hpart. intros s Hin. apply HX. auto.
    + eapply cast_windows_shape; [exact C2 |]. apply Hpart. intros s Hin. apply HX. auto.
  - eapply astype_rows_widths; [exact Hl |].
    apply Forall_app. split.
    + apply Forall_forall. intros row Hrow. apply in_map_iff in Hrow as (row0 & <- & Hr0).
      rewrite Forall_forall in Wq. rewrite length_firstn, (Wq _ Hr0). lia.
    + apply Forall_forall. intros row Hrow. unfold tail in Hrow.
      assert (Hin : In row (frame_values df1 feature_columns)).
      { rewrite <- (firstn_skipn (length (frame_values df1 feature_columns) - lookup_step)
                                 (frame_values df1 feature_columns)).
        apply in_or_app. right. assumption. }
      unfold frame_values in Hin. apply in_map_iff in Hin as (r0 & <- & _).
      unfold row_values. apply length_map.
Qed.

Lemma returned_arrays_shape_witness :
  exists r obj g',
    load_data (env := Demo.collaborators) (PFrame (Demo.prices 6)) 2 true false 1 true
              0.2%float Demo.features 314%Z = (inr r, obj, g') /\
    Forall (fun s => length s = 2 /\
                     Forall (fun row => length row = length Demo.features) s)
           (X_train r ++ X_test r) /\
    Forall (fun row => length row = length Demo.features) (last_sequence r).
Proof.
  pose proof run_small_eq as E. unfold run_small in E.
  eexists _, _, _. split; [exact E |].
  exact (@returned_arrays_shape Demo.collaborators _ _ _ _ _ _ _ _ _ _ _ _ E).
Defined.

(** X6. No target of a returned dataset is missing: every item of [y_train]
    and [y_test] is the [future] cell of a row that [dropna] kept. *)
Theorem returned_targets_present
        {env : Collaborators} (ticker obj : PyObj) (n_steps : nat) (scale shuffle_ : bool)
        (lookup_step : nat) (split_by_date : bool) (test_size : float)
        (feature_columns : list string) (g g' : rng) (r : Result) :
  load_data ticker n_steps scale shuffle_ lookup_step split_by_date test_size
            feature_columns g = (inr r, obj, g') ->
  forall t, In t (y_train r ++ y_test r) -> isna t = false.
Proof.
  intros H t Ht.
  apply load_data_inr in H as (df & w' & _ & H & _ & _).
  apply load_frame_inr in H
    as (df1 & sd & q & b & Ha & _ & Hw & _ & Hs & _ & _ & _ & Hn & _).
  assert (Hlen : len (np_array (map fst sd)) = length (map snd sd))
    by (unfold len; simpl; rewrite !length_map; reflexivity).
  pose proof Hs as Hm. apply split_members in Hm as (_ & Hy); [| exact Hlen].
  apply in_app_or in Ht. apply Hy in Ht.
  apply in_map_iff in Ht as ([s t0] & Et & Hp). cbn [snd] in Et. subst t0.
  apply In_nth_error in Hp as (j & Hj).
  pose proof (windows_spec n_steps feature_columns (dropna df1)) as (_ & _ & Hpos).
  destruct (Hpos Hn) as (_ & Hnth). rewrite Hw in Hnth. cbn [fst] in Hnth.
  destruct (Hnth _ _ _ Hj) as (_ & Hfut).
  unfold column_values in Hfut. rewrite nth_error_map in Hfut.
  destruct (nth_error (rows (dropna df1)) (j + n_steps - 1)) as [row |] eqn:Hrow;
    [| discriminate].
  cbn [option_map] in Hfut. injection Hfut as <-.
  apply nth_error_In in Hrow. unfold dropna in Hrow. cbn [rows] in Hrow.
  apply filter_In in Hrow as (_ & Hc).
  apply add_future_inr in Ha as (_ & _ & _ & _ & Hf & _).
  eapply complete_cell; [exact Hc |]. apply has_column_In. assumption.
Qed.

Lemma returned_targets_present_witness :
  exists r obj g',
    load_data (env := Demo.collaborators) (PFrame (Demo.prices 6)) 2 true false 1 true
              0.2%float Demo.features 314%Z = (inr r, obj, g') /\
    forall t, In t (y_train r ++ y_test r) -> isna t = false.
Proof.
  pose proof run_small_eq as E. unfold run_small in E.
  eexists _, _, _. split; [exact E |].
  exact (@returned_targets_present Demo.collaborators _ _ _ _ _ _ _ _ _ _ _ _ E).
Defined.

(** X7. The split loses and repeats nothing: the windows of the two parts,
    each with the target returned at its position, are the emitted pairs,
    each once; the returned [X_train] and [X_test] are those windows without
    their date cell, cast to [float32]. (For the random split without
    shuffling, fewer than [2^53] pairs.) *)
Theorem split_keeps_every_pair
        {env : Collaborators} (ticker obj : PyObj) (df : DataFrame) (n_steps : nat)
        (scale shuffle_ : bool) (lookup_step : nat) (split_by_date : bool)
        (test_size : float) (feature_columns : list string) (g g' : rng) (r : Result) :
  bind_df ticker = inr df ->
  load_data ticker n_steps scale shuffle_ lookup_step split_by_date test_size
            feature_columns g = (inr r, obj, g') ->
  (split_by_date = false -> shuffle_ = false ->
   (Z.of_nat (length (sequence_data n_steps scale lookup_step feature_columns df))
    < 2 ^ 53)%Z) ->
  exists W_train W_test : list (list (list value)),
    Permutation (combine W_train (y_train r) ++ combine W_test (y_test r))
                (sequence_data n_steps scale lookup_step feature_columns df) /\
    length W_train = length (y_train r) /\
    length W_test = length (y_test r) /\
    map_exn astype_rows (map (map (firstn (length feature_columns))) W_train)
    = inr (X_train r) /\
    map_exn astype_rows (map (map (firstn (length feature_columns))) W_test)
    = inr (X_test r).
Proof.
  intros Hdf H Hsize.
  apply load_data_inr in H as (df0 & w' & Hdf0 & H & _ & _).
  assert (df0 = df) by congruence. subst df0.
  apply load_frame_inr in H
    as (df1 & sd & q & b & Ha & _ & Hw & _ & Hs & _ & _ & _ & _ & C1 & C2).
  cbn [w_df] in Ha.
  destruct (quantities_of_add_future n_steps _ _ _ _ Ha) as (_ & _ & Hsd).
  rewrite Hw in Hsd. cbn [fst] in Hsd. rewrite Hsd in *.
  assert (Hlen : len (np_array (map fst sd)) = length (map snd sd))
    by (unfold len; simpl; rewrite !length_map; reflexivity).
  pose proof Hs as Hm. apply split_inr in Hm as (_ & _ & _ & L1 & L2); [| exact Hlen].
  exists (data (b_X_train b)), (data (b_X_test b)).
  split; [| auto].
  assert (P : Permutation (combine (data (b_X_train b)) (y_train r)
                           ++ combine (data (b_X_test b)) (y_test r))
                          (combine (data (np_array (map fst sd))) (map snd sd))).
  { eapply split_pairs; [exact Hlen | exact Hs |].
    intros E1 E2. apply n_test_in_range_small.
    unfold len. cbn [data np_array]. rewrite length_map. auto. }
  cbn [data np_array] in P. rewrite combine_fst_snd in P. exact P.
Qed.

Lemma split_keeps_every_pair_witness :
  exists r obj g',
    bind_df (env := Demo.collaborators) (PFrame (Demo.prices 12)) = inr (Demo.prices 12) /\
    load_data (env := Demo.collaborators) (PFrame (Demo.prices 12)) 3 true false 1 false
              0.25%float Demo.features 314%Z = (inr r, obj, g') /\
    (false = false -> false = false ->
     (Z.of_nat (length (sequence_data (env := Demo.collaborators) 3 true 1 Demo.features
                                      (Demo.prices 12))) < 2 ^ 53)%Z) /\
    exists W_train W_test : list (list (list value)),
      Permutation (combine W_train (y_train r) ++ combine W_test (y_test r))
                  (sequence_data (env := Demo.collaborators) 3 true 1 Demo.features
                                 (Demo.prices 12)) /\
      length W_train = length (y_train r) /\
      length W_test = length (y_test r) /\
      map_exn (astype_rows (env := Demo.collaborators))
              (map (map (firstn (length Demo.features))) W_train)
      = inr (X_train r) /\
      map_exn (astype_rows (env := Demo.collaborators))
              (map (map (firstn (length Demo.features))) W_test)
      = inr (X_test r).
Proof.
  pose proof run_random_plain_eq as E. unfold run_random_plain in E.
  assert (Hr : false = false -> false = false ->
               (Z.of_nat (length (sequence_data (env := Demo.collaborators) 3 true 1
                                                Demo.features (Demo.prices 12)))
                < 2 ^ 53)%Z).
  { intros _ _. vm_compute. reflexivity. }
  eexists _, _, _. split; [reflexivity |]. split; [exact E |]. split; [exact Hr |].
  exact (@split_keeps_every_pair Demo.collaborators (PFrame (Demo.prices 12)) _
           (Demo.prices 12) _ _ _ _ _ _ _ _ _ _ eq_refl E Hr).
Defined.

(** ** The rows of [test_df] *)

Lemma Forall2_In_r {A B} (P : A -> B -> Prop) (l : list A) (l' : list B) (b : B) :
  Forall2 P l l' -> In b l' -> exists a, In a l /\ P a b.
Proof.
  induction 1 as [| a0 b0 l l' H0 _ IH]; intros Hin; [destruct Hin |].
  destruct Hin as [<- | Hin]; [exists a0; simpl; auto |].
  destruct (IH Hin) as (a & Ha & Hp). exists a. simpl; auto.
Qed.

(** The rows [.loc] returns are rows of the table, each under one of the
    keys asked for. *)
Lemma loc_inr (df df' : DataFrame) (keys : list value) :
  loc df keys = inr df' ->
  columns df' = columns df /\
  forall r, In r (rows df') ->
    In r (rows df) /\ exists k, In k keys /\ label_eqb (label r) k = true.
Proof.
  unfold loc. intros H. apply map_result_inr in H as (found & Hf & ->). cbn [columns rows].
  split; [reflexivity |]. intros r Hr.
  apply in_concat in Hr as (rs & Hrs & Hin).
  apply map_exn_inr in Hf.
  destruct (@Forall2_In_r _ _ _ _ _ _ Hf Hrs) as (k & Hk & Hloc).
  unfold loc_key in Hloc.
  destruct (filter (fun r0 => label_eqb (label r0) k) (rows df)) as [| r1 l] eqn:E;
    [discriminate |].
  injection Hloc as <-. rewrite <- E in Hin. apply filter_In in Hin as (Hin & Hlab).
  split; [assumption |]. exists k. auto.
Qed.

(** The first row under each label: what is kept are rows of the table, and
    no two of them carry the same label. *)
Lemma keep_first_spec (seen : list value) (rs : list Row) :
  Forall (fun r => In r rs /\ existsb (label_eqb (label r)) seen = false)
         (keep_first seen rs) /\
  ForallOrdPairs (fun a b => label_eqb (label b) (label a) = false) (keep_first seen rs).
Proof.
  revert seen; induction rs as [| r rs IH]; intros seen; simpl.
  - split; constructor.
  - destruct (existsb (label_eqb (label r)) seen) eqn:Hseen.
    + destruct (IH seen) as (HF & HP). split; [| assumption].
      eapply Forall_impl; [| exact HF]. intros a (Ha & Hs). auto.
    + destruct (IH (label r :: seen)) as (HF & HP). split.
      * constructor; [auto |].
        eapply Forall_impl; [| exact HF]. intros a (Ha & Hs).
        simpl in Hs. apply orb_false_iff in Hs as (_ & Hs). auto.
      * constructor; [| assumption].
        eapply Forall_impl; [| exact HF]. intros a (_ & Hs).
        simpl in Hs. apply orb_false_iff in Hs as (Hs & _). exact Hs.
Qed.

Section TestRows.
Context {env : Collaborators}.

Lemma finish_test_df (feature_columns : list string) (b : Built) (w w' : World)
      (r : Result) :
  finish feature_columns b w = (inr r, w') ->
  exists dates found,
    last_of_last (b_X_test b) = inr dates /\
    loc (b_df b) dates = inr found /\
    test_df r = drop_duplicated_index found.
Proof.
  unfold finish. intros H.
  apply bind_inr in H as (dates & s1 & Hd & H). apply lift_inr in Hd as (Hd & ->).
  apply bind_inr in H as (tr & s1 & Ht & H). apply lift_inr in Ht as (Ht & ->).
  apply bind_inr in H as (X1 & s1 & H1 & H). apply lift_inr in H1 as (H1 & ->).
  apply bind_inr in H as (X2 & s1 & H2 & H). apply lift_inr in H2 as (H2 & ->).
  apply bind_inr in H as (X3 & s1 & H3 & H). apply lift_inr in H3 as (H3 & ->).
  apply bind_inr in H as (X4 & s1 & H4 & H). apply lift_inr in H4 as (H4 & ->).
  apply ret_inr in H as (-> & ->). cbn [test_df]. eauto.
Qed.

Lemma last_of_last_anchor {A} (X : ndarray A) (dates : list A) (d : A) :
  last_of_last X = inr dates -> In d dates ->
  exists s, In s (data X) /\ anchor_date s = inr d.
Proof.
  unfold last_of_last. intros H Hd.
  destruct (shape X) as [| a [| [| b] [| [| c] [| ? ?]]]]; try discriminate.
  apply map_exn_inr in H. exact (@Forall2_In_r _ _ _ _ _ _ H Hd).
Qed.

End TestRows.

(** X8. In every dataset [load_data] returns, [test_df] has the columns of
    the table as it was passed in (or downloaded), its rows are rows of that
    table, no two of its rows carry the same index label, and each of its
    rows is labelled by the anchor date of an emitted window. *)
Theorem test_df_rows
        {env : Collaborators} (ticker obj : PyObj) (df : DataFrame) (n_steps : nat)
        (scale shuffle_ : bool) (lookup_step : nat) (split_by_date : bool)
        (test_size : float) (feature_columns : list string) (g g' : rng) (r : Result) :
  bind_df ticker = inr df ->
  load_data ticker n_steps scale shuffle_ lookup_step split_by_date test_size
            feature_columns g = (inr r, obj, g') ->
  r_df r = df /\
  columns (test_df r) = columns df /\
  ForallOrdPairs (fun a b => label_eqb (label b) (label a) = false) (rows (test_df r)) /\
  forall row, In row (rows (test_df r)) ->
    In row (rows df) /\
    exists s t d,
      In (s, t) (sequence_data n_steps scale lookup_step feature_columns df) /\
      anchor_date s = inr d /\ label_eqb (label row) d = true.
Proof.
  intros Hdf H.
  apply load_data_inr in H as (df0 & w' & Hdf0 & H & _ & _).
  assert (df0 = df) by congruence. subst df0.
  unfold load_frame in H. apply bind_inr in H as (b & w1 & Hb & Hf).
  pose proof Hf as Hf'. apply finish_test_df in Hf' as (dates & found & Hd & Hloc & Ht).
  apply finish_inr in Hf as (_ & Er & _).
  apply build_inr in Hb as (df1 & sd & q & Ha & Hw & _ & Hs). cbn [w_df] in Ha.
  destruct (quantities_of_add_future n_steps _ _ _ _ Ha) as (_ & _ & Hsd).
  rewrite Hw in Hsd. cbn [fst] in Hsd.
  apply add_future_inr in Ha as (Eb & _).
  rewrite Eb in Hloc.
  apply loc_inr in Hloc as (Hcols & Hrows).
  destruct (keep_first_spec [] (rows found)) as (HF & HP).
  assert (Hlen : len (np_array (map fst sd)) = length (map snd sd))
    by (unfold len; simpl; rewrite !length_map; reflexivity).
  apply split_members in Hs as (HX & _); [| exact Hlen].
  split; [congruence |].
  rewrite Ht. unfold drop_duplicated_index. cbn [columns rows].
  split; [assumption |]. split; [assumption |].
  intros row Hrow. rewrite Forall_forall in HF. destruct (HF _ Hrow) as (Hin & _).
  destruct (Hrows _ Hin) as (Hdfrow & k & Hk & Hlab).
  split; [assumption |].
  destruct (@last_of_last_anchor _ _ _ _ Hd Hk) as (s & Hsin & Hanchor).
  assert (Hs0 : In s (map fst sd)) by (apply HX; right; assumption).
  apply in_map_iff in Hs0 as ([s0 t] & <- & Hp).
  exists s0, t, k. rewrite Hsd. auto.
Qed.

Lemma test_df_rows_witness :
  exists r obj g',
    bind_df (env := Demo.collaborators) (PFrame (Demo.prices 6)) = inr (Demo.prices 6) /\
    load_data (env := Demo.collaborators) (PFrame (Demo.prices 6)) 2 true false 1 true
              0.2%float Demo.features 314%Z = (inr r, obj, g') /\
    rows (test_df r) <> [] /\
    r_df r = Demo.prices 6 /\
    columns (test_df r) = columns (Demo.prices 6) /\
    ForallOrdPairs (fun a b => label_eqb (label b) (label a) = false) (rows (test_df r)) /\
    forall row, In row (rows (test_df r)) ->
      In row (rows (Demo.prices 6)) /\
      exists s t d,
        In (s, t) (sequence_data (env := Demo.collaborators) 2 true 1 Demo.features
                                 (Demo.prices 6)) /\
        anchor_date s = inr d /\ label_eqb (label row) d = true.
Proof.
  pose proof run_small_eq as E. unfold run_small in E.
  eexists _, _, _. split; [reflexivity |]. split; [exact E |].
  split; [discriminate |].
  exact (@test_df_rows Demo.collaborators (PFrame (Demo.prices 6)) _ (Demo.prices 6)
           _ _ _ _ _ _ _ _ _ _ eq_refl E).
Defined.

(** X9. The last cell of the last row of every emitted window is the date of
    the table row the window ends on: the cell of the [date] column when the
    table came with one, the index label of the row otherwise. *)
Theorem window_anchor_is_row_date
        {env : Collaborators} (n_steps : nat) (scale : bool) (lookup_step : nat)
        (feature_columns : list string) (df : DataFrame)
        (j : nat) (seq : list (list value)) (target : value) :
  0 < n_steps ->
  ~ In "date" feature_columns ->
  nth_error (sequence_data n_steps scale lookup_step feature_columns df) j
  = Some (seq, target) ->
  exists i d,
    nth_error (kept_positions (table_with_future scale lookup_step feature_columns df))
              (j + n_steps - 1) = Some i /\
    nth_error (dates_of df) i = Some d /\
    anchor_date seq = inr d.
Proof.
  intros Hn Hnd E.
  destruct (emitted_pair_spec _ _ _ _ _ Hn E) as (_ & i & row & Hi & Hrow & Hlast & _).
  unfold table_with_future in *.
  destruct (add_future scale lookup_step feature_columns df) as [[e | [rdf cs]] df1] eqn:Ha.
  - unfold sequence_data in E. rewrite prepare_of_add_future, Ha in E.
    destruct j; discriminate.
  - cbn [snd] in Hi, Hrow.
    apply add_future_inr in Ha as (_ & _ & _ & _ & _ & _ & _ & Hdate).
    specialize (Hdate Hnd).
    exists i, (cells row "date"). split; [assumption |]. split.
    + rewrite <- Hdate. unfold column_values. rewrite nth_error_map, Hrow. reflexivity.
    + unfold anchor_date. rewrite Hlast.
      unfold row_values. rewrite map_app. simpl. rewrite item_m1_snoc. reflexivity.
Qed.

Lemma window_anchor_is_row_date_witness :
  exists seq target,
    0 < 2 /\
    ~ In "date" Demo.features /\
    nth_error (sequence_data (env := Demo.collaborators) 2 true 1 Demo.features
                             (Demo.prices 6)) 0 = Some (seq, target) /\
    exists i d,
      nth_error (kept_positions (table_with_future (env := Demo.collaborators) true 1
                                                   Demo.features (Demo.prices 6)))
                (0 + 2 - 1) = Some i /\
      nth_error (dates_of (Demo.prices 6)) i = Some d /\
      anchor_date seq = inr d.
Proof.
  pose proof demo_first_pair_eq as E. unfold demo_first_pair in E.
  assert (Hn : 0 < 2) by lia.
  assert (Hnd : ~ In "date" Demo.features) by (simpl; intuition discriminate).
  eexists _, _. split; [exact Hn |]. split; [exact Hnd |]. split; [exact E |].
  exact (@window_anchor_is_row_date Demo.collaborators 2 true 1 Demo.features
           (Demo.prices 6) 0 _ _ Hn Hnd E).
Defined.

(** ** What the preparation writes *)

Lemma set_column_columns (df df' : DataFrame) (c : string) (vals : list value) :
  set_column df c vals = inr df' ->
  columns df' = if has_column df c then columns df else columns df ++ [c].
Proof.
  unfold set_column. destruct (length vals =? length (rows df)); [| discriminate].
  intros H. injection H as <-. reflexivity.
Qed.

Section Written.
Context {env : Collaborators}.

Lemma scale_columns_columns (feature_columns : list string) (cs cs' : list (string * scaler))
      (df df' : DataFrame) :
  scale_columns feature_columns cs df = (inr cs', df') -> columns df' = columns df.
Proof.
  revert cs df; induction feature_columns as [| c rest IH]; intros cs df H; simpl in H.
  - apply ret_inr in H as (_ & ->). reflexivity.
  - apply bind_inr in H as (vals & s1 & Hr & H).
    apply read_column_inr in Hr as (-> & Hc & _).
    apply bind_inr in H as ([sc scaled] & s2 & Hf & H).
    apply lift_inr in Hf as (_ & ->).
    apply bind_inr in H as (u & s3 & Hw & H).
    apply write_column_inr in Hw. apply set_column_columns in Hw. rewrite Hc in Hw.
    apply IH in H. congruence.
Qed.

Lemma ensure_date_columns (df df' : DataFrame) (u : unit) :
  ensure_date df = (inr u, df') ->
  columns df' = columns df ++ (if has_column df "date" then [] else ["date"]) /\
  (has_column df "date" = true -> df' = df).
Proof.
  unfold ensure_date. intros H.
  apply bind_inr in H as (d & s & Hg & H). apply get_inr in Hg as (-> & ->).
  destruct (has_column df "date") eqn:Hd.
  - apply ret_inr in H as (_ & ->). rewrite app_nil_r. auto.
  - apply write_column_inr in H. apply set_column_columns in H. rewrite Hd in H.
    split; [assumption | discriminate].
Qed.

Lemma has_column_app (df : DataFrame) (cs : list string) (c : string) :
  existsb (String.eqb c) (columns df ++ cs) = has_column df c || existsb (String.eqb c) cs.
Proof. unfold has_column. apply existsb_app. Qed.

(** What [add_future] changes in the table: the columns it may add, and the
    cells it may overwrite. *)
Lemma add_future_writes (scale : bool) (lookup_step : nat) (feature_columns : list string)
      (df df1 result_df : DataFrame) (cs : option (list (string * scaler))) :
  add_future scale lookup_step feature_columns df = (inr (result_df, cs), df1) ->
  index df1 = index df /\
  columns df1 = columns df
                ++ (if has_column df "date" then [] else ["date"])
                ++ (if has_column df "future" then [] else ["future"]) /\
  forall c, has_column df c = true -> c <> "future" ->
            (scale = true -> ~ In c feature_columns) ->
            column_values df1 c = column_values df c.
Proof.
  intros H. pose proof H as H'. apply add_future_inr in H' as (_ & _ & (_ & Hidx & _) & _).
  apply add_future_steps in H as (df_d & df_s & Hd & Hs & Hw).
  pose proof Hd as Hd'. apply ensure_date_columns in Hd' as (Cd & Hsame).
  apply ensure_date_inr in Hd as ((_ & _ & Vd & _) & _).
  assert (Hsc : columns df_s = columns df_d /\
                forall c, (scale = true -> ~ In c feature_columns) ->
                          column_values df_s c = column_values df_d c).
  { destruct scale.
    - destruct Hs as (l & Hs & _). split; [eapply scale_columns_columns; eauto |].
      apply scale_columns_inr in Hs as (_ & _ & Vs & _). auto.
    - destruct Hs as (-> & _). auto. }
  destruct Hsc as (Cs & Vs).
  pose proof Hw as Cf. apply set_column_columns in Cf.
  apply set_column_inr in Hw as (_ & _ & Vf & _).
  split; [assumption |]. split.
  - rewrite Cf. unfold has_column at 1. rewrite Cs, Cd, has_column_app.
    destruct (has_column df "future") eqn:Hfut; cbn [orb].
    + rewrite app_nil_r. reflexivity.
    + destruct (has_column df "date"); cbn [existsb String.eqb orb];
        rewrite <- ?app_assoc; reflexivity.
  - intros c Hc Hnf Hnfc.
    rewrite Vf by assumption. rewrite Vs by assumption.
    destruct (String.eqb_spec c "date") as [-> | Hnd].
    + rewrite (Hsame Hc). reflexivity.
    + apply Vd. intros [E | []]. congruence.
Qed.

End Written.

(** X10. What [load_data] writes into a table passed by the caller: the rows
    keep their labels and their order until [dropna], a [date] and a [future]
    column are appended when the table has none, and a column that is
    neither [future] nor (when [scale] is true) a feature column keeps its
    cells. *)
Theorem columns_written_by_load_data
        {env : Collaborators} (df : DataFrame) (obj : PyObj) (n_steps : nat)
        (scale shuffle_ : bool) (lookup_step : nat) (split_by_date : bool)
        (test_size : float) (feature_columns : list string) (g g' : rng) (r : Result) :
  load_data (PFrame df) n_steps scale shuffle_ lookup_step split_by_date test_size
            feature_columns g = (inr r, obj, g') ->
  let df1 := table_with_future scale lookup_step feature_columns df in
  obj = PFrame (dropna df1) /\
  index df1 = index df /\
  columns df1 = columns df
                ++ (if has_column df "date" then [] else ["date"])
                ++ (if has_column df "future" then [] else ["future"]) /\
  forall c, has_column df c = true -> c <> "future" ->
            (scale = true -> ~ In c feature_columns) ->
            column_values df1 c = column_values df c.
Proof.
  intros H df1.
  apply load_data_inr in H as (df0 & w' & Hdf & H & -> & _).
  cbn [bind_df] in Hdf. injection Hdf as <-.
  apply load_frame_inr in H as (d1 & sd & q & b & Ha & Hw' & _).
  cbn [w_df] in Ha. subst df1. unfold table_with_future. rewrite Ha. cbn [snd].
  rewrite Hw'. split; [reflexivity |].
  eapply add_future_writes; eauto.
Qed.

Lemma columns_written_by_load_data_witness :
  exists r obj g',
    load_data (env := Demo.collaborators) (PFrame (Demo.prices 6)) 2 true false 1 true
              0.2%float Demo.features 314%Z = (inr r, obj, g') /\
    let df1 := table_with_future (env := Demo.collaborators) true 1 Demo.features
                                 (Demo.prices 6) in
    obj = PFrame (dropna df1) /\
    index df1 = index (Demo.prices 6) /\
    columns df1 = columns (Demo.prices 6)
                  ++ (if has_column (Demo.prices 6) "date" then [] else ["date"])
                  ++ (if has_column (Demo.prices 6) "future" then [] else ["future"]) /\
    forall c, has_column (Demo.prices 6) c = true -> c <> "future" ->
              (true = true -> ~ In c Demo.features) ->
              column_values df1 c = column_values (Demo.prices 6) c.
Proof.
  pose proof run_small_eq as E. unfold run_small in E.
  eexists _, _, _. split; [exact E |].
  exact (@columns_written_by_load_data Demo.collaborators _ _ _ _ _ _ _ _ _ _ _ _ E).
Defined.

(** ** The size of the test part of the random split *)

Section TestSize.
Local Open Scope Z_scope.
Local Unset Implicit Arguments.

(** Rounding a positive number that is not below the smallest positive
    binary64 number gives neither zero nor a number of the other sign. *)
Lemma round_aux_nonzero (s : bool) (M : positive) (E : Z) :
  2 ^ (-1074 - E) <= Zpos M ->
  match binary_round_aux prec emax s (Zpos M) E loc_Exact with
  | S754_zero _ => False
  | S754_finite s' _ _ => s' = s
  | _ => True
  end.
Proof.
  intros HM. unfold binary_round_aux.
  pose proof (shr_fexp_spec (Zpos M) E loc_Exact) as S1.
  destruct (shr_fexp prec emax (Zpos M) E loc_Exact) as [mrs1 e1].
  cbn [fst snd] in S1. destruct S1 as (Hm1 & He1 & _); [lia |].
  rewrite fexp_eq in Hm1, He1. unfold Zdigits2 in Hm1, He1.
  set (d := Zpos (digits2_pos M)) in *.
  set (k1 := Z.max 0 (Z.max (d + E - 53) (-1074) - E)) in *.
  destruct (digits2_bounds M) as (HMl & _). fold d in HMl.
  assert (Hd : 1 <= d) by (unfold d; lia).
  assert (Hk1 : 2 ^ k1 <= Zpos M).
  { assert (C : k1 = 0 \/ (k1 = d - 53 /\ 0 < k1) \/ (k1 = -1074 - E /\ 0 < k1))
      by (unfold k1; lia).
    destruct C as [-> | [(-> & Hp) | (-> & Hp)]].
    - simpl. lia.
    - assert (2 ^ (d - 53) <= 2 ^ (d - 1)) by (apply Z.pow_le_mono_r; lia). lia.
    - assumption. }
  assert (H1 : 1 <= shr_m mrs1).
  { rewrite Hm1. apply Z.div_le_lower_bound; [apply Z.pow_pos_nonneg; unfold k1; lia | lia]. }
  set (m2 := round_nearest_even (shr_m mrs1) (loc_of_shr_record mrs1)).
  assert (H2 : 1 <= m2)
    by (pose proof (rne_bounds (shr_m mrs1) (loc_of_shr_record mrs1)); unfold m2; lia).
  pose proof (shr_fexp_spec m2 e1 loc_Exact) as S2.
  destruct (shr_fexp prec emax m2 e1 loc_Exact) as [mrs2 e2].
  cbn [fst snd] in S2. destruct S2 as (Hm3 & _ & _); [lia |].
  rewrite fexp_eq in Hm3.
  destruct m2 as [| p2 | p2]; try lia.
  unfold Zdigits2 in Hm3.
  set (d2 := Zpos (digits2_pos p2)) in *.
  destruct (digits2_bounds p2) as (Hp2 & _). fold d2 in Hp2.
  assert (Hd2 : 1 <= d2) by (unfold d2; lia).
  set (k2 := Z.max 0 (Z.max (d2 + e1 - 53) (-1074) - e1)) in *.
  assert (Hk2 : 2 ^ k2 <= Zpos p2).
  { assert (C : k2 = 0 \/ (k2 = d2 - 53 /\ 0 < k2)) by (unfold k2, k1 in *; lia).
    destruct C as [-> | (-> & Hp)].
    - simpl. lia.
    - assert (2 ^ (d2 - 53) <= 2 ^ (d2 - 1)) by (apply Z.pow_le_mono_r; lia). lia. }
  assert (H3 : 1 <= shr_m mrs2).
  { rewrite Hm3. apply Z.div_le_lower_bound; [apply Z.pow_pos_nonneg; unfold k2; lia | lia]. }
  destruct (shr_m mrs2) as [| m3 | m3]; try lia.
  destruct (e2 <=? emax - prec); [reflexivity | exact I].
Qed.

Lemma finite_exponent_min (t : float) (s : bool) (m : positive) (e : Z) :
  Prim2SF t = S754_finite s m e -> -1074 <= e.
Proof.
  intros H. pose proof (Prim2SF_valid t) as Hv. rewrite H in Hv.
  unfold SpecFloat.valid_binary, bounded, canonical_mantissa in Hv.
  apply andb_true_iff in Hv as (Hc & _). apply Z.eqb_eq in Hc.
  rewrite fexp_eq in Hc. lia.
Qed.

(** The ceiling of a positive number is at least one. *)
Lemma ceil_positive (m : positive) (e : Z) : 1 <= - Z.shiftl (- Zpos m) e.
Proof.
  destruct (Z.le_gt_cases 0 e) as [He | He].
  - rewrite Z.shiftl_mul_pow2 by assumption.
    assert (0 < 2 ^ e) by (apply Z.pow_pos_nonneg; lia). nia.
  - rewrite Z.shiftl_div_pow2 by lia.
    assert (Hp : 0 < 2 ^ (- e)) by (apply Z.pow_pos_nonneg; lia).
    assert (- Zpos m / 2 ^ (- e) < 0) by (apply Z.div_lt_upper_bound; lia).
    lia.
Qed.

(** [ceil(test_size * n)] is at least one for a positive [test_size] and at
    least one sample. *)
Lemma ceil_product_ge_1 (n : nat) (t : float) (k : Z) :
  0 < Z.of_nat n < 2 ^ 53 ->
  PrimFloat.leb t zero = false -> PrimFloat.leb one t = false ->
  math_ceil (PrimFloat.mul t (float_of_nat n)) = inr k ->
  1 <= k.
Proof.
  intros Hn H0 H1. unfold math_ceil. rewrite mul_spec.
  destruct (between_zero_and_one t H0 H1) as [Hnan | (mt & et & Ht & Het & Hmt)].
  - rewrite Hnan. discriminate.
  - pose proof (finite_exponent_min t _ _ _ Ht) as Hmin.
    rewrite Ht. unfold float_of_nat.
    destruct (Z.of_nat n) as [| p | p] eqn:Hp; [lia | | lia].
    destruct (normalize_small p (proj2 Hn)) as (mn & en & Hnorm & Hen & Hmn & Hdig & Hval).
    rewrite Hnorm, (Prim2SF_SF2Prim _ Hval).
    unfold SF64mul. cbn [SFmul xorb].
    assert (HM : 2 ^ (-1074 - (et + en)) <= Zpos (mt * mn)).
    { destruct (digits2_bounds mn) as (Hl & _). rewrite Hdig in Hl.
      assert (2 ^ (-1074 - (et + en)) <= 2 ^ (53 - 1)) by (apply Z.pow_le_mono_r; lia).
      rewrite Pos2Z.inj_mul. nia. }
    pose proof (round_aux_nonzero false (mt * mn) (et + en) HM) as Hr.
    destruct (binary_round_aux prec emax false (Zpos (mt * mn)) (et + en) loc_Exact)
      as [s | s | | s m e]; try discriminate; [contradiction |].
    cbv beta iota. intros H. injection H as <-. subst s. cbn [cond_Zopp].
    apply ceil_positive.
Qed.

Lemma ceil_product_zero (t : float) (k : Z) :
  PrimFloat.leb t zero = false -> PrimFloat.leb one t = false ->
  math_ceil (PrimFloat.mul t (float_of_nat 0)) = inr k -> k = 0.
Proof.
  intros H0 H1. unfold math_ceil. rewrite mul_spec.
  destruct (between_zero_and_one t H0 H1) as [Hnan | (mt & et & Ht & _)].
  - rewrite Hnan. discriminate.
  - rewrite Ht. cbn. intros H. injection H as <-. reflexivity.
Qed.

End TestSize.

Section RandomSizes.
Context {env : Collaborators}.

Lemma split_indices_sizes (n : nat) (test_size : float) (shuffle_ : bool)
      (g g' : rng) (train test : list Z) :
  split_indices n test_size shuffle_ g = (inr (train, test), g') ->
  (Z.of_nat n < 2 ^ 53)%Z ->
  exists n_test : Z,
    math_ceil (PrimFloat.mul test_size (float_of_nat n)) = inr n_test /\
    (1 <= n_test < Z.of_nat n)%Z /\
    Z.of_nat (length test) = n_test /\
    Z.of_nat (length train) = (Z.of_nat n - n_test)%Z.
Proof.
  unfold split_indices, validate_shuffle_split. intros H Hn.
  destruct (PrimFloat.leb test_size zero) eqn:H0; [discriminate |].
  destruct (PrimFloat.leb one test_size) eqn:H1; [discriminate |].
  cbn [orb] in H.
  destruct (math_ceil (PrimFloat.mul test_size (float_of_nat n))) as [e | k] eqn:Hc;
    [discriminate |].
  destruct (Z.eqb_spec (Z.of_nat n - k) 0) as [Hz | Hnz]; [discriminate |].
  pose proof (ceil_product_le n test_size k Hn H0 H1 Hc) as Hle.
  assert (Hpos : (0 < Z.of_nat n)%Z).
  { destruct n; [| lia]. exfalso. apply ceil_product_zero in Hc; [| assumption ..].
    subst k. apply Hnz. reflexivity. }
  pose proof (ceil_product_ge_1 n test_size k (conj Hpos Hn) H0 H1 Hc) as Hge.
  exists k. split; [reflexivity |]. split; [lia |].
  destruct shuffle_.
  - pose proof (shuffle_length (seq 0 n) g) as Hlp. unfold permutation in H.
    destruct (shuffle (seq 0 n) g) as [perm g1]. cbn [fst] in Hlp.
    rewrite length_seq in Hlp.
    injection H as <- <- <-.
    rewrite slice_length, slice_to_length, length_map, Hlp.
    replace (k + (Z.of_nat n - k))%Z with (Z.of_nat n) by lia.
    rewrite slice_bound_all.
    assert (Hb : slice_bound k n = Z.to_nat k).
    { unfold slice_bound. destruct (Z.ltb_spec k 0); lia. }
    rewrite Hb. lia.
  - injection H as <- <- <-. rewrite !arange_length. lia.
Qed.

End RandomSizes.

(** X11. Under the random policy a returned dataset has
    [n_test = ceil(test_size * n)] test pairs, computed in binary64, and the
    other [n - n_test] pairs in the train part, where [n] is the number of
    emitted pairs (fewer than [2^53]); neither part is empty. *)
Theorem random_split_sizes
        {env : Collaborators} (ticker obj : PyObj) (df : DataFrame) (n_steps : nat)
        (scale shuffle_ : bool) (lookup_step : nat) (test_size : float)
        (feature_columns : list string) (g g' : rng) (r : Result) :
  bind_df ticker = inr df ->
  load_data ticker n_steps scale shuffle_ lookup_step false test_size feature_columns g
  = (inr r, obj, g') ->
  (Z.of_nat (length (sequence_data n_steps scale lookup_step feature_columns df))
   < 2 ^ 53)%Z ->
  exists n_test : Z,
    math_ceil (PrimFloat.mul test_size
                 (float_of_nat
                    (length (sequence_data n_steps scale lookup_step feature_columns df))))
    = inr n_test /\
    (1 <= n_test
     < Z.of_nat (length (sequence_data n_steps scale lookup_step feature_columns df)))%Z /\
    Z.of_nat (length (X_test r)) = n_test /\
    Z.of_nat (length (X_train r))
    = (Z.of_nat (length (sequence_data n_steps scale lookup_step feature_columns df))
       - n_test)%Z.
Proof.
  intros Hdf H Hsize.
  apply load_data_inr in H as (df0 & w' & Hdf0 & H & _ & _).
  assert (df0 = df) by congruence. subst df0.
  apply load_frame_inr in H
    as (df1 & sd & q & b & Ha & _ & Hw & _ & Hs & L1 & L2 & _).
  cbn [w_df] in Ha.
  destruct (quantities_of_add_future n_steps _ _ _ _ Ha) as (_ & _ & Hsd).
  rewrite Hw in Hsd. cbn [fst] in Hsd. rewrite Hsd in *.
  unfold split in Hs.
  apply with_rng_exn_inr in Hs as (Hs & _).
  apply train_test_split_inr in Hs
    as (train & test & _ & Hi & T1 & T2 & _ & _ & _ & _).
  unfold len in *. cbn [data np_array] in Hi, T1, T2. rewrite length_map in Hi.
  apply split_indices_sizes in Hi as (n_test & Hc & Hr & Ltest & Ltrain);
    [| assumption].
  apply take_length in T1, T2.
  exists n_test. split; [assumption |]. split; [assumption |].
  split; congruence.
Qed.

Lemma random_split_sizes_witness :
  exists r obj g',
    bind_df (env := Demo.collaborators) (PFrame (Demo.prices 12)) = inr (Demo.prices 12) /\
    load_data (env := Demo.collaborators) (PFrame (Demo.prices 12)) 3 true true 1 false
              0.25%float Demo.features 314%Z = (inr r, obj, g') /\
    (Z.of_nat (length (sequence_data (env := Demo.collaborators) 3 true 1 Demo.features
                                     (Demo.prices 12))) < 2 ^ 53)%Z /\
    exists n_test : Z,
      math_ceil (PrimFloat.mul 0.25%float
                   (float_of_nat
                      (length (sequence_data (env := Demo.collaborators) 3 true 1
                                             Demo.features (Demo.prices 12)))))
      = inr n_test /\
      (1 <= n_test
       < Z.of_nat (length (sequence_data (env := Demo.collaborators) 3 true 1
                                         Demo.features (Demo.prices 12))))%Z /\
      Z.of_nat (length (X_test r)) = n_test /\
      Z.of_nat (length (X_train r))
      = (Z.of_nat (length (sequence_data (env := Demo.collaborators) 3 true 1
                                         Demo.features (Demo.prices 12)))
         - n_test)%Z.
Proof.
  pose proof run_random_shuffled_eq as E. unfold run_random_shuffled in E.
  assert (Hr : (Z.of_nat (length (sequence_data (env := Demo.collaborators) 3 true 1
                                                Demo.features (Demo.prices 12)))
                < 2 ^ 53)%Z).
  { vm_compute. reflexivity. }
  eexists _, _, _. split; [reflexivity |]. split; [exact E |]. split; [exact Hr |].
  exact (@random_split_sizes Demo.collaborators (PFrame (Demo.prices 12)) _
           (Demo.prices 12) _ _ _ _ _ _ _ _ _ eq_refl E Hr).
Defined.

(** ** The stack of layers of [create_model] *)

Section CreateModelFacts.
Variables Cell Loss Optimizer : Type.
Variables (sequence_length n_features units : Z) (cell : Cell) (n_layers : Z)
          (dropout : float) (loss : Loss) (optimizer : Optimizer) (bidirectional : bool).

(** The recurrent layer the loop adds at turn [i]. *)
Definition recurrent_at (i : nat) : layer Cell :=
  let rs := (i =? 0) || negb (Z.of_nat i =? n_layers - 1)%Z in
  let shape := if i =? 0 then Some (sequence_length, n_features) else None in
  if bidirectional
  then Bidirectional (Recurrent cell units rs None) shape
  else Recurrent cell units rs shape.

Lemma add_recurrent_at (model : Model Cell Loss Optimizer) (i : nat) :
  add_recurrent sequence_length n_features units cell n_layers dropout bidirectional
                model (Z.of_nat i)
  = {| layers := layers model ++ [recurrent_at i; Dropout dropout];
       compiled := compiled model |}.
Proof.
  assert (Hsnoc : forall (l : list (layer Cell)) a b, (l ++ [a]) ++ [b] = l ++ [a; b])
    by (intros l a b; rewrite <- app_assoc; reflexivity).
  unfold add_recurrent, recurrent_at, add.
  destruct i as [| i].
  - cbn [Z.of_nat Z.eqb Nat.eqb orb].
    destruct bidirectional; cbn [layers compiled]; rewrite Hsnoc; reflexivity.
  - replace (Z.of_nat (S i) =? 0)%Z with false by (symmetry; apply Z.eqb_neq; lia).
    cbn [Nat.eqb orb].
    destruct (Z.of_nat (S i) =? n_layers - 1)%Z; destruct bidirectional;
      cbn [layers compiled negb]; rewrite Hsnoc; reflexivity.
Qed.

Lemma loop_layers (l : list nat) (model : Model Cell Loss Optimizer) :
  fold_left (add_recurrent sequence_length n_features units cell n_layers dropout
                           bidirectional)
            (map Z.of_nat l) model
  = {| layers := layers model
                 ++ flat_map (fun i => [recurrent_at i; Dropout dropout]) l;
       compiled := compiled model |}.
Proof.
  revert model; induction l as [| i l IH]; intros model; cbn [map fold_left flat_map].
  - rewrite app_nil_r. destruct model; reflexivity.
  - rewrite add_recurrent_at, IH. cbn [layers compiled].
    rewrite <- app_assoc. reflexivity.
Qed.

Lemma create_model_layers :
  layers (create_model sequence_length n_features units cell n_layers dropout loss
                       optimizer bidirectional)
  = flat_map (fun i => [recurrent_at i; Dropout dropout]) (seq 0 (Z.to_nat n_layers))
    ++ [Dense 1 "linear"].
Proof.
  unfold create_model, range. rewrite loop_layers. reflexivity.
Qed.

Lemma flat_map_pairs {A B} (f h : A -> B) (l : list A) (i : nat) :
  length (flat_map (fun a => [f a; h a]) l) = 2 * length l /\
  nth_error (flat_map (fun a => [f a; h a]) l) (2 * i) = option_map f (nth_error l i) /\
  nth_error (flat_map (fun a => [f a; h a]) l) (2 * i + 1) = option_map h (nth_error l i).
Proof.
  revert i; induction l as [| a l IH]; intros i; cbn [flat_map length app].
  - destruct i; repeat split; reflexivity.
  - destruct (IH 0) as (Hl & _). split; [lia |].
    destruct i as [| i].
    + split; reflexivity.
    + destruct (IH i) as (_ & He & Ho).
      replace (2 * S i) with (S (S (2 * i))) by lia.
      replace (S (S (2 * i)) + 1) with (S (S (2 * i + 1))) by lia.
      cbn [nth_error]. auto.
Qed.

End CreateModelFacts.

(** X12. The model [create_model] returns is a stack of
    [2 * n_layers + 1] layers (one when [n_layers] is not positive): each turn
    of the loop contributes a recurrent layer of the given cell and [units],
    wrapped in [Bidirectional] exactly when [bidirectional] is true, followed
    by [Dropout(dropout)]; the last layer is [Dense(1, linear)]; the model is
    compiled with the given loss and optimizer and the metric
    [mean_absolute_error]. *)
Theorem create_model_stack
        (Cell Loss Optimizer : Type) (sequence_length n_features units : Z) (cell : Cell)
        (n_layers : Z) (dropout : float) (loss : Loss) (optimizer : Optimizer)
        (bidirectional : bool) :
  let model := create_model sequence_length n_features units cell n_layers dropout loss
                            optimizer bidirectional in
  let n := Z.to_nat n_layers in
  length (layers model) = 2 * n + 1 /\
  (forall i, i < n ->
     exists l rs,
       nth_error (layers model) (2 * i) = Some l /\
       recurrent_of l = Some (cell, units, rs) /\
       is_bidirectional l = bidirectional /\
       nth_error (layers model) (2 * i + 1) = Some (Dropout dropout)) /\
  nth_error (layers model) (2 * n) = Some (Dense 1 "linear") /\
  compiled model = Some (loss, ["mean_absolute_error"], optimizer).
Proof.
  intros model n. subst model.
  rewrite (create_model_layers (Loss := Loss)).
  fold n.
  set (f := recurrent_at sequence_length n_features units cell n_layers bidirectional).
  pose (h := fun _ : nat => @Dropout Cell dropout).
  destruct (flat_map_pairs f h (seq 0 n) 0) as (Hlen & _).
  unfold h in Hlen. cbv beta in Hlen. rewrite length_seq in Hlen.
  split; [rewrite length_app, Hlen; simpl; lia |].
  split; [| split; [| reflexivity]].
  - intros i Hi.
    destruct (flat_map_pairs f h (seq 0 n) i) as (_ & He & Ho).
    unfold h in He, Ho. cbv beta in He, Ho.
    assert (Hnth : nth_error (seq 0 n) i = Some i).
    { rewrite nth_error_seq. destruct (Nat.ltb_spec i n); [reflexivity | lia]. }
    rewrite Hnth in He, Ho. cbn [option_map] in He, Ho. cbv beta in Ho.
    exists (f i), ((i =? 0) || negb (Z.of_nat i =? n_layers - 1)%Z).
    rewrite !nth_error_app1 by lia.
    split; [exact He |]. split; [| split; [| exact Ho]].
    + unfold f, recurrent_at. destruct bidirectional; reflexivity.
    + unfold f, recurrent_at. destruct bidirectional; reflexivity.
  - rewrite nth_error_app2 by lia. rewrite Hlen, Nat.sub_diag. reflexivity.
Qed.

(** X13. In the stack of [create_model] the recurrent layer of turn [i] does
    not return sequences exactly when it is the last one and not the first:
    with [n_layers = 1] the only recurrent layer returns sequences, as every
    layer but the last does with more layers. Only the first layer is given
    the input shape [(sequence_length, n_features)]. *)
Theorem create_model_return_sequences
        (Cell Loss Optimizer : Type) (sequence_length n_features units : Z) (cell : Cell)
        (n_layers : Z) (dropout : float) (loss : Loss) (optimizer : Optimizer)
        (bidirectional : bool) (i : nat) :
  i < Z.to_nat n_layers ->
  exists l rs,
    nth_error (layers (create_model sequence_length n_features units cell n_layers
                                    dropout loss optimizer bidirectional)) (2 * i)
    = Some l /\
    recurrent_of l = Some (cell, units, rs) /\
    (rs = false <-> 0 < i /\ Z.of_nat i = (n_layers - 1)%Z) /\
    input_shape_of l = if i =? 0 then Some (sequence_length, n_features) else None.
Proof.
  intros Hi.
  rewrite (create_model_layers (Loss := Loss)).
  set (n := Z.to_nat n_layers) in *.
  set (f := recurrent_at sequence_length n_features units cell n_layers bidirectional).
  pose (h := fun _ : nat => @Dropout Cell dropout).
  destruct (flat_map_pairs f h (seq 0 n) i) as (Hlen & He & _).
  unfold h in Hlen, He. cbv beta in Hlen, He. rewrite length_seq in Hlen.
  assert (Hnth : nth_error (seq 0 n) i = Some i).
  { rewrite nth_error_seq. destruct (Nat.ltb_spec i n); [reflexivity | lia]. }
  rewrite Hnth in He. cbn [option_map] in He.
  exists (f i), ((i =? 0) || negb (Z.of_nat i =? n_layers - 1)%Z).
  rewrite nth_error_app1 by lia.
  split; [exact He |].
  split; [unfold f, recurrent_at; destruct bidirectional; reflexivity |].
  split.
  - destruct (Nat.eqb_spec i 0) as [-> | Hne]; cbn [orb].
    + split; [discriminate | lia].
    + destruct (Z.eqb_spec (Z.of_nat i) (n_layers - 1)); cbn [negb].
      * split; [intros _; split; [lia | assumption] | reflexivity].
      * split; [discriminate | intros (_ & E); contradiction].
  - unfold f, recurrent_at. destruct bidirectional; reflexivity.
Qed.

Lemma create_model_return_sequences_witness :
  1 < Z.to_nat 2 /\
  exists l rs,
    nth_error (layers (create_model (Loss := string) (Optimizer := string)
                                    50 5 256 "LSTM" 2 0.3%float
                                    "mean_absolute_error" "rmsprop" false)) (2 * 1)
    = Some l /\
    recurrent_of l = Some ("LSTM", 256%Z, rs) /\
    (rs = false <-> 0 < 1 /\ Z.of_nat 1 = (2 - 1)%Z) /\
    input_shape_of l = if 1 =? 0 then Some (50%Z, 5%Z) else None.
Proof.
  assert (H : 1 < Z.to_nat 2) by (simpl; lia).
  split; [exact H |].
  exact (@create_model_return_sequences string string string 50 5 256 "LSTM" 2 0.3%float
           "mean_absolute_error" "rmsprop" false 1 H).
Defined.

(** X14. Co-shuffling two arrays of one length is shuffling the array of
    their pairs once: the two results are its two columns and the generator
    is left where that one shuffle leaves it. *)
Theorem shuffle_in_unison_is_shuffle_of_pairs
        {env : Collaborators} {A B} (a : list A) (b : list B) (g : rng) :
  length a = length b ->
  shuffle_in_unison a b g
  = ((map fst (fst (shuffle (combine a b) g)), map snd (fst (shuffle (combine a b) g))),
     snd (shuffle (combine a b) g)).
Proof. apply shuffle_in_unison_zip. Qed.

Lemma shuffle_in_unison_is_shuffle_of_pairs_witness :
  length [1; 2; 3; 4] = length ["a"; "b"; "c"; "d"] /\
  shuffle_in_unison (env := Demo.collaborators) [1; 2; 3; 4] ["a"; "b"; "c"; "d"] 314%Z
  = ((map fst (fst (shuffle (env := Demo.collaborators)
                            (combine [1; 2; 3; 4] ["a"; "b"; "c"; "d"]) 314%Z)),
      map snd (fst (shuffle (env := Demo.collaborators)
                            (combine [1; 2; 3; 4] ["a"; "b"; "c"; "d"]) 314%Z))),
     snd (shuffle (env := Demo.collaborators)
                  (combine [1; 2; 3; 4] ["a"; "b"; "c"; "d"]) 314%Z)).
Proof.
  split; [reflexivity |].
  exact (@shuffle_in_unison_is_shuffle_of_pairs Demo.collaborators _ _
           [1; 2; 3; 4] ["a"; "b"; "c"; "d"] 314%Z eq_refl).
Defined.

(** ** The content of the last sequence *)

Lemma frame_values_features (df : DataFrame) (feature_columns : list string) :
  map (firstn (length feature_columns)) (frame_values df (feature_columns ++ ["date"]))
  = frame_values df feature_columns.
Proof.
  unfold frame_values. rewrite map_map. apply map_ext. intros r.
  unfold row_values. rewrite map_app.
  rewrite <- (length_map (cells r) feature_columns).
  rewrite firstn_app, Nat.sub_diag, firstn_all. cbn [firstn map]. apply app_nil_r.
Qed.

(** X15. The last sequence of a returned dataset is the cast to [float32] of
    the feature cells of the last [n_steps] usable rows, followed by the
    feature cells of the last [lookup_step] rows of the table, the rows that
    have no future value. *)
Theorem last_sequence_content
        {env : Collaborators} (ticker obj : PyObj) (df : DataFrame) (n_steps : nat)
        (scale shuffle_ : bool) (lookup_step : nat) (split_by_date : bool)
        (test_size : float) (feature_columns : list string) (g g' : rng) (r : Result) :
  bind_df ticker = inr df ->
  load_data ticker n_steps scale shuffle_ lookup_step split_by_date test_size
            feature_columns g = (inr r, obj, g') ->
  astype_rows
    (last_n n_steps
            (frame_values (prepared_table scale lookup_step feature_columns df)
                          feature_columns)
     ++ tail lookup_step
             (frame_values (table_with_future scale lookup_step feature_columns df)
                           feature_columns))
  = inr (last_sequence r).
Proof.
  intros Hdf H.
  apply load_data_inr in H as (df0 & w' & Hdf0 & H & _ & _).
  assert (df0 = df) by congruence. subst df0.
  apply load_frame_inr in H as (df1 & sd & q & b & Ha & _ & Hw & Hl & _).
  cbn [w_df] in Ha.
  destruct (quantities_of_add_future n_steps _ _ _ _ Ha) as (Hp & _ & _).
  unfold table_with_future. rewrite Hp, Ha. cbn [snd].
  pose proof (windows_spec n_steps feature_columns (dropna df1)) as (Hq & _).
  rewrite Hw in Hq. cbn [snd] in Hq. subst q.
  rewrite <- Hl. f_equal. f_equal.
  unfold last_n. rewrite <- frame_values_features, skipn_map, !length_map. reflexivity.
Qed.

Lemma last_sequence_content_witness :
  exists r obj g',
    bind_df (env := Demo.collaborators) (PFrame (Demo.prices 6)) = inr (Demo.prices 6) /\
    load_data (env := Demo.collaborators) (PFrame (Demo.prices 6)) 2 true false 1 true
              0.2%float Demo.features 314%Z = (inr r, obj, g') /\
    astype_rows (env := Demo.collaborators)
      (last_n 2
              (frame_values (prepared_table (env := Demo.collaborators) true 1
                                            Demo.features (Demo.prices 6))
                            Demo.features)
       ++ tail 1
               (frame_values (table_with_future (env := Demo.collaborators) true 1
                                                Demo.features (Demo.prices 6))
                             Demo.features))
    = inr (last_sequence r).
Proof.
  pose proof run_small_eq as E. unfold run_small in E.
  eexists _, _, _. split; [reflexivity |]. split; [exact E |].
  exact (@last_sequence_content Demo.collaborators (PFrame (Demo.prices 6)) _
           (Demo.prices 6) _ _ _ _ _ _ _ _ _ _ eq_refl E).
Defined.

(** X16. Under the random policy a [test_size] that is not strictly between 0
    and 1 is refused: [train_test_split] raises its [ValueError] without a
    draw, and [load_data] returns no dataset. *)
Theorem random_split_rejects_test_size
        {env : Collaborators} (ticker : PyObj) (n_steps : nat) (scale shuffle_ : bool)
        (lookup_step : nat) (test_size : float) (feature_columns : list string) (g : rng) :
  PrimFloat.leb test_size PrimFloat.zero || PrimFloat.leb PrimFloat.one test_size = true ->
  (forall (X : ndarray value) (y : list value) (g0 : rng),
      len X = length y ->
      train_test_split X y test_size shuffle_ g0
      = (inl (ValueError "test_size should be in the (0, 1) range"), g0)) /\
  exists e,
    fst (fst (load_data ticker n_steps scale shuffle_ lookup_step false test_size
                        feature_columns g)) = inl e.
Proof.
  intros Hts. split.
  - intros X y g0 Hl. unfold train_test_split, split_indices, validate_shuffle_split.
    rewrite Hl, Nat.eqb_refl, Hts. reflexivity.
  - destruct (load_data ticker n_steps scale shuffle_ lookup_step false test_size
                        feature_columns g) as [[[e | r] obj] g'] eqn:E;
      [exists e; reflexivity | exfalso].
    apply load_data_inr in E as (df & w' & _ & H & _ & _).
    apply load_frame_inr in H as (df1 & sd & q & b & _ & _ & _ & _ & Hs & _).
    unfold split in Hs. apply with_rng_exn_inr in Hs as (Hs & _).
    apply train_test_split_inr in Hs as (train & test & _ & Hi & _).
    unfold split_indices, validate_shuffle_split in Hi. rewrite Hts in Hi. discriminate.
Qed.

Lemma random_split_rejects_test_size_witness :
  PrimFloat.leb 1.5%float PrimFloat.zero || PrimFloat.leb PrimFloat.one 1.5%float = true /\
  (forall (X : ndarray value) (y : list value) (g0 : rng),
      len X = length y ->
      train_test_split (env := Demo.collaborators) X y 1.5%float true g0
      = (inl (ValueError "test_size should be in the (0, 1) range"), g0)) /\
  exists e,
    fst (fst (load_data (env := Demo.collaborators) (PFrame (Demo.prices 12)) 3 true true 1
                        false 1.5%float Demo.features 314%Z)) = inl e.
Proof.
  assert (H : PrimFloat.leb 1.5%float PrimFloat.zero
              || PrimFloat.leb PrimFloat.one 1.5%float = true) by reflexivity.
  split; [exact H |].
  exact (@random_split_rejects_test_size Demo.collaborators (PFrame (Demo.prices 12)) 3
           true true 1 1.5%float Demo.features 314%Z H).
Defined.

(** X17. With [n_steps = 0] the call never returns a dataset, whatever the
    table and the other arguments: every run raises. *)
Theorem zero_window_length_fails
        {env : Collaborators} (ticker : PyObj) (scale shuffle_ : bool)
        (lookup_step : nat) (split_by_date : bool) (test_size : float)
        (feature_columns : list string) (g : rng) :
  exists e,
    fst (fst (load_data ticker 0 scale shuffle_ lookup_step split_by_date test_size
                        feature_columns g)) = inl e.
Proof.
  destruct (load_data ticker 0 scale shuffle_ lookup_step split_by_date test_size
                      feature_columns g) as [[[e | r] obj] g'] eqn:E;
    [exists e; reflexivity | exfalso].
  apply load_data_inr in E as (df & w' & _ & H & _ & _).
  apply load_frame_inr in H as (df1 & sd & q & b & _ & _ & _ & _ & _ & _ & _ & _ & Hn & _).
  lia.
Qed.

(** ** The chronological split, shuffled or not *)

(** X18. Shuffling inside the parts does not mix them: on a table whose dates
    increase strictly, the chronological split puts every window of the
    train part before every window of the test part also when [shuffle] is
    true. *)
Theorem chronological_split_order_any_shuffle
        {env : Collaborators} (n_steps : nat) (scale : bool) (lookup_step : nat)
        (feature_columns : list string) (df : DataFrame) (ts : list Z)
        (test_size : float) (shuffle_ : bool) (w w' : World)
        (X_train X_test : ndarray value) (y_train y_test : list value) :
  0 < n_steps ->
  ~ In "date" feature_columns ->
  dates_of df = map VDate ts ->
  StronglySorted Z.lt ts ->
  split (np_array (map fst (sequence_data n_steps scale lookup_step feature_columns df)))
        (map snd (sequence_data n_steps scale lookup_step feature_columns df))
        true test_size shuffle_ w
  = (inr (X_train, X_test, y_train, y_test), w') ->
  forall s s', In s (data X_train) -> In s' (data X_test) ->
  exists t t',
    anchor_date s = inr (VDate t) /\ anchor_date s' = inr (VDate t') /\ (t < t')%Z.
Proof.
  intros Hn Hnd Hts Hsorted Hs s s' Hin Hin'.
  set (sd := sequence_data n_steps scale lookup_step feature_columns df) in *.
  assert (Hlen : len (np_array (map fst sd)) = length (map snd sd))
    by (unfold len; simpl; rewrite !length_map; reflexivity).
  pose proof Hs as Hl. apply split_inr in Hl as (_ & _ & _ & L1 & L2); [| exact Hlen].
  unfold split in Hs.
  apply split_by_position_pairs in Hs as (k & _ & P1 & P2); [| exact Hlen].
  cbn [data np_array] in P1, P2.
  assert (La : length (slice_to k (map fst sd)) = length (slice_to k (map snd sd)))
    by (rewrite !slice_to_length, !length_map; reflexivity).
  assert (Lb : length (slice_from k (map fst sd)) = length (slice_from k (map snd sd)))
    by (rewrite !slice_from_length, !length_map; reflexivity).
  apply (Permutation_map fst) in P1, P2.
  rewrite !map_fst_combine in P1, P2 by assumption.
  apply (Permutation_in _ P1) in Hin. apply (Permutation_in _ P2) in Hin'.
  unfold slice_to in Hin. unfold slice_from in Hin'.
  apply In_firstn_nth in Hin as (j & Hj & Hsj).
  apply In_skipn_nth in Hin' as (j' & Hj' & Hsj').
  destruct (emitted_anchor scale lookup_step feature_columns df ts j Hn Hnd Hts Hsj)
    as (i & t & Hi & Ht & Ha).
  destruct (emitted_anchor scale lookup_step feature_columns df ts j' Hn Hnd Hts Hsj')
    as (i' & t' & Hi' & Ht' & Ha').
  exists t, t'. split; [assumption |]. split; [assumption |].
  eapply strongly_sorted_nth; [exact Hsorted | | exact Ht | exact Ht'].
  unfold kept_positions in Hi, Hi'.
  eapply positions_increasing; [| exact Hi | exact Hi']. lia.
Qed.

(** The chronological split, shuffled, of the nine windows of twelve days. *)
Definition demo_split_shuffled :=
  Eval vm_compute in
    split (env := Demo.collaborators)
          (np_array (map fst (sequence_data (env := Demo.collaborators) 3 true 1
                                            Demo.features (Demo.prices 12))))
          (map snd (sequence_data (env := Demo.collaborators) 3 true 1
                                  Demo.features (Demo.prices 12)))
          true 0.25%float true
          (@Build_World Demo.collaborators (Demo.prices 12) 314%Z).

Lemma demo_split_shuffled_eq :
  split (env := Demo.collaborators)
        (np_array (map fst (sequence_data (env := Demo.collaborators) 3 true 1
                                          Demo.features (Demo.prices 12))))
        (map snd (sequence_data (env := Demo.collaborators) 3 true 1
                                Demo.features (Demo.prices 12)))
        true 0.25%float true
        (@Build_World Demo.collaborators (Demo.prices 12) 314%Z) = demo_split_shuffled.
Proof. vm_cast_no_check (eq_refl demo_split_shuffled). Qed.

Lemma chronological_split_order_any_shuffle_witness :
  exists X_train X_test y_train y_test w',
    0 < 3 /\
    ~ In "date" Demo.features /\
    dates_of (Demo.prices 12) = map VDate (map Z.of_nat (seq 0 12)) /\
    StronglySorted Z.lt (map Z.of_nat (seq 0 12)) /\
    split (env := Demo.collaborators)
          (np_array (map fst (sequence_data (env := Demo.collaborators) 3 true 1
                                            Demo.features (Demo.prices 12))))
          (map snd (sequence_data (env := Demo.collaborators) 3 true 1
                                  Demo.features (Demo.prices 12)))
          true 0.25%float true
          (@Build_World Demo.collaborators (Demo.prices 12) 314%Z)
    = (inr (X_train, X_test, y_train, y_test), w') /\
    length (data X_train) = 6 /\ length (data X_test) = 3 /\
    forall s s', In s (data X_train) -> In s' (data X_test) ->
    exists t t',
      anchor_date s = inr (VDate t) /\ anchor_date s' = inr (VDate t') /\ (t < t')%Z.
Proof.
  pose proof demo_split_shuffled_eq as E. unfold demo_split_shuffled in E.
  assert (Hn : 0 < 3) by lia.
  assert (Hnd : ~ In "date" Demo.features)
    by (simpl; intuition discriminate).
  assert (Hts : dates_of (Demo.prices 12) = map VDate (map Z.of_nat (seq 0 12)))
    by reflexivity.
  assert (Hsorted : StronglySorted Z.lt (map Z.of_nat (seq 0 12))).
  { simpl. repeat (apply SSorted_cons || apply SSorted_nil
                   || apply Forall_cons || apply Forall_nil || lia). }
  eexists _, _, _, _, _.
  split; [exact Hn |]. split; [exact Hnd |]. split; [exact Hts |].
  split; [exact Hsorted |]. split; [exact E |].
  split; [reflexivity |]. split; [reflexivity |].
  exact (@chronological_split_order_any_shuffle Demo.collaborators 3 true 1 Demo.features
           (Demo.prices 12) (map Z.of_nat (seq 0 12)) 0.25%float true _ _ _ _ _ _
           Hn Hnd Hts Hsorted E).
Defined.
